(** * UltraThink: session state machine, assumption ledger and session storage

    A shallow embedding of [plugins/ultrathink/skills/ultrathink/ultrathink.py]:
    the [Assumption] / [Thought] models, [ThinkingSession.add_thought], the
    session storage functions ([_validate_session_id], [save_session],
    [load_session]) and [UltraThinkService.process_thought].

    Conventions of the embedding.
    - A Python [str] is a Rocq [string]; every character is one code point
      below 256, so [len] is [String.length] and the order used by [sorted]
      is the code-point order [String.leb].
    - A Python [int] is a [Z]; a Python [float] is a binary64 [float].
    - Assumption objects are mutable and shared between a thought's
      [assumptions] list and the session registry: they live in a heap and are
      named by their location.  Thought objects are never written after
      [auto_adjust_total], so they are plain values.
    - A function that can raise is a computation in the monad [M]: it maps a
      state to [Returns st a] or [Raises st e].  The state reached when the
      exception is raised is kept, because Python keeps the mutations made
      before the [raise].
    - What [json.load] hands back, and what an object attribute that is never
      validated can therefore hold, is a [json] value. *)

From Corelib Require Import PrimFloat.
From Stdlib Require Import ZArith String Ascii List Bool Lia Sorted Permutation.
From stdpp Require Import base option list strings gmap.

Open Scope string_scope.
Set Warnings "-register-all".

(** ** Python runtime: exceptions *)

(** [str(available) if available else "none"]. *)
Inductive avail_str :=
| AvailNone
| AvailList (available : list string).

(** The text of every [ValueError] the module raises, one constructor per
    f-string, holding the values interpolated into it, and the two that
    reading a record can raise: [UnicodeDecodeError], a [ValueError], and the
    [ValueError] for an integer literal over the digit limit. *)
Inductive message :=
| Msg_revise_empty (revises_thought : Z)
| Msg_revise_not_found (revises_thought : Z) (available : list Z)
| Msg_branch_empty (branch_from_thought : Z)
| Msg_branch_not_found (branch_from_thought : Z) (available : list Z)
| Msg_depend_not_found (assumption_id : string) (avail : avail_str)
| Msg_invalidate_not_found (assumption_id : string) (avail : avail_str)
| Msg_text_mismatch (assumption_id existing_text new_text : string)
| Msg_critical_mismatch (assumption_id : string) (existing_critical new_critical : bool)
| Msg_session_id_empty
| Msg_session_id_too_long
| Msg_session_id_invalid (session_id : string)
| Msg_list_expected (field_name type_name : string)
| Msg_json_invalid (field_name : string)
| Msg_list_or_json_expected (field_name type_name : string)
| Msg_undecodable
| Msg_int_too_long.

Inductive exn :=
| ValueError (m : message)
| TypeError
| AttributeError
| KeyError
| ValidationError
| RecursionError.

(** The error names of the specification, as a reading of the messages;
    [MalformedField] is the field-level validation the specification leaves
    to the caller, [UndecodedRecord] a record that cannot be decoded. *)
Inductive error_kind :=
| InvalidIdentifier
| DanglingReference
| UnknownAssumption
| ImmutableFieldViolation
| MalformedField
| UndecodedRecord.

Definition kind_of (m : message) : error_kind :=
  match m with
  | Msg_revise_empty _ | Msg_revise_not_found _ _
  | Msg_branch_empty _ | Msg_branch_not_found _ _ => DanglingReference
  | Msg_depend_not_found _ _ | Msg_invalidate_not_found _ _ => UnknownAssumption
  | Msg_text_mismatch _ _ _ | Msg_critical_mismatch _ _ _ => ImmutableFieldViolation
  | Msg_session_id_empty | Msg_session_id_too_long
  | Msg_session_id_invalid _ => InvalidIdentifier
  | Msg_list_expected _ _ | Msg_json_invalid _
  | Msg_list_or_json_expected _ _ => MalformedField
  | Msg_undecodable | Msg_int_too_long => UndecodedRecord
  end.

(** The number a [DanglingReference] message cites. *)
Definition cited_number (m : message) : option Z :=
  match m with
  | Msg_revise_empty n | Msg_revise_not_found n _
  | Msg_branch_empty n | Msg_branch_not_found n _ => Some n
  | _ => None
  end.

(** The message that advises passing [session_id]. *)
Definition advises_session_id (m : message) : bool :=
  match m with
  | Msg_revise_empty _ | Msg_branch_empty _ => true
  | _ => false
  end.

(** ** Python runtime: computations that may raise *)

Inductive outcome (St A : Type) :=
| Returns (st : St) (a : A)
| Raises (st : St) (e : exn).
Arguments Returns {St A} st a.
Arguments Raises {St A} st e.

Definition M (St A : Type) : Type := St -> outcome St A.

Definition ret {St A} (a : A) : M St A := fun st => Returns st a.

Definition raise {St A} (e : exn) : M St A := fun st => Raises st e.

Definition bind {St A B} (m : M St A) (k : A -> M St B) : M St B :=
  fun st =>
    match m st with
    | Returns st' a => k a st'
    | Raises st' e => Raises st' e
    end.

Definition get {St} : M St St := fun st => Returns st st.

Definition put {St} (st : St) : M St unit := fun _ => Returns st tt.

Definition modify {St} (f : St -> St) : M St unit := fun st => Returns (f st) tt.

#[global] Instance M_ret {St} : MRet (M St) := @ret St.
#[global] Instance M_bind {St} : MBind (M St) := fun A B k m => bind m k.

(** [for x in l: body(x)]. *)
Fixpoint for_each {St A} (l : list A) (body : A -> M St unit) : M St unit :=
  match l with
  | [] => ret tt
  | x :: l' => body x;; for_each l' body
  end.

(** [[f(x) for x in l]]. *)
Fixpoint map_each {St A B} (l : list A) (f : A -> M St B) : M St (list B) :=
  match l with
  | [] => ret []
  | x :: l' => y ← f x; ys ← map_each l' f; ret (y :: ys)
  end.

(** [try: m  except (handled): return on_except]; an exception that is not
    handled propagates. *)
Definition try_except {St A} (m : M St A) (handled : exn -> bool) (on_except : A)
  : M St A :=
  fun st =>
    match m st with
    | Returns st' a => Returns st' a
    | Raises st' e => if handled e then Returns st' on_except else Raises st' e
    end.

(** Run a computation over a part of the state. *)
Definition zoom {St St' A} (proj : St -> St') (inj : St' -> St -> St) (m : M St' A)
  : M St A :=
  fun st =>
    match m (proj st) with
    | Returns st' a => Returns (inj st' st) a
    | Raises st' e => Raises (inj st' st) e
    end.

(** ** Python runtime: insertion-ordered dictionaries with [str] keys *)

Definition dict (V : Type) : Type := list (string * V).

Fixpoint dict_get {V} (k : string) (d : dict V) : option V :=
  match d with
  | [] => None
  | (k', v) :: d' => if String.eqb k k' then Some v else dict_get k d'
  end.

Definition dict_contains {V} (k : string) (d : dict V) : bool :=
  match dict_get k d with Some _ => true | None => false end.

(** [d[k] = v]: a known key keeps its position, a new key goes last. *)
Fixpoint dict_set {V} (k : string) (v : V) (d : dict V) : dict V :=
  match d with
  | [] => [(k, v)]
  | (k', v') :: d' =>
      if String.eqb k k' then (k, v) :: d' else (k', v') :: dict_set k v d'
  end.

Definition dict_keys {V} (d : dict V) : list string := map fst d.

(** [sorted(l)] for a total order given by [leb]. *)
Fixpoint insert_sorted {A} (leb : A -> A -> bool) (x : A) (l : list A) : list A :=
  match l with
  | [] => [x]
  | y :: l' => if leb x y then x :: l else y :: insert_sorted leb x l'
  end.

Definition sorted {A} (leb : A -> A -> bool) (l : list A) : list A :=
  fold_right (insert_sorted leb) [] l.

(** ** Python runtime: values read from JSON *)

Inductive json :=
| JNull
| JBool (b : bool)
| JInt (n : Z)
| JFloat (f : float)
| JStr (s : string)
| JList (l : list json)
| JDict (d : list (string * json)).

(** [bool(v)]. *)
Definition truthy (v : json) : bool :=
  match v with
  | JNull => false
  | JBool b => b
  | JInt n => negb (n =? 0)%Z
  | JFloat f => negb (PrimFloat.eqb f 0%float)
  | JStr s => negb (String.eqb s "")
  | JList l => match l with [] => false | _ => true end
  | JDict d => match d with [] => false | _ => true end
  end.

(** [v.get(key, default)]: only a [dict] has the method. *)
Definition py_get {St} (v : json) (key : string) (default : json) : M St json :=
  match v with
  | JDict d => ret (match dict_get key d with Some x => x | None => default end)
  | _ => raise AttributeError
  end.

(** [v.items()]. *)
Definition py_items {St} (v : json) : M St (list (string * json)) :=
  match v with
  | JDict d => ret d
  | _ => raise AttributeError
  end.

(** The elements [for x in v] visits: the items of a list, the characters of
    a string, the keys of a dict; anything else is not iterable. *)
Definition py_iter {St} (v : json) : M St (list json) :=
  match v with
  | JList l => ret l
  | JStr s => ret (map (fun c => JStr (String c "")) (list_ascii_of_string s))
  | JDict d => ret (map (fun kv => JStr (fst kv)) d)
  | _ => raise TypeError
  end.

(** [":" in s] and [s.split(":", 1)]. *)
Fixpoint split_colon (s : string) : option (string * string) :=
  match s with
  | EmptyString => None
  | String c s' =>
      if Ascii.eqb c ":"%char then Some ("", s')
      else match split_colon s' with
           | Some (a, b) => Some (String c a, b)
           | None => None
           end
  end.

(** [x in s] for two strings: [x] occurs in [s] as a substring. *)
Fixpoint is_prefix (x s : string) : bool :=
  match x, s with
  | EmptyString, _ => true
  | String a x', String b s' => Ascii.eqb a b && is_prefix x' s'
  | String _ _, EmptyString => false
  end.

Fixpoint is_substring (x s : string) : bool :=
  is_prefix x s ||
  match s with
  | EmptyString => false
  | String _ s' => is_substring x s'
  end.

(** [x in l] for a string and a list: some item equals the string. *)
Definition str_in_list (x : string) (l : list json) : bool :=
  existsb (fun v => match v with JStr y => String.eqb x y | _ => false end) l.

(** [x in v] for a string [x] and any value [v]. *)
Definition py_contains {St} (x : string) (v : json) : M St bool :=
  match v with
  | JList l => ret (str_in_list x l)
  | JStr s => ret (is_substring x s)
  | JDict d => ret (dict_contains x d)
  | _ => raise TypeError
  end.

(** [v.append(x)]: only a [list] has the method. *)
Definition py_append {St} (v : json) (x : string) : M St json :=
  match v with
  | JList l => ret (JList (l ++ [JStr x]))
  | _ => raise AttributeError
  end.

(** [json.loads] on the text held in a string: the parsed value, or [None]
    for a [JSONDecodeError].  The decoder belongs to Python's library; the
    development is parametric in it. *)
Class JsonDecoder := json_loads : string -> option json.

(** ** Character classes *)

Definition code (c : ascii) : N := N_of_ascii c.

Definition in_range (lo hi : N) (c : ascii) : bool :=
  (lo <=? code c)%N && (code c <=? hi)%N.

Definition is_ascii_lower : ascii -> bool := in_range 97 122.
Definition is_ascii_upper : ascii -> bool := in_range 65 90.
Definition is_ascii_digit : ascii -> bool := in_range 48 57.

(** [str.isspace] on one character: what [str.strip()] removes. *)
Definition py_isspace (c : ascii) : bool :=
  in_range 9 13 c || in_range 28 32 c || (code c =? 133)%N || (code c =? 160)%N.

(** [\w] of the [pattern] constraint (Unicode word characters below 256). *)
Definition is_word (c : ascii) : bool :=
  is_ascii_lower c || is_ascii_upper c || is_ascii_digit c || (code c =? 95)%N
  || (code c =? 170)%N || (code c =? 181)%N || (code c =? 186)%N
  || in_range 192 214 c || in_range 216 246 c || in_range 248 255 c.

Fixpoint all_chars (p : ascii -> bool) (s : string) : bool :=
  match s with
  | EmptyString => true
  | String c s' => p c && all_chars p s'
  end.

(** [[p]+] against the whole string. *)
Definition plus_class (p : ascii -> bool) (s : string) : bool :=
  negb (String.eqb s "") && all_chars p s.

(** ** Models: Assumption *)

Inductive verification :=
| unverified
| verified_true
| verified_false.

#[global] Instance verification_eq_dec : EqDecision verification.
Proof. solve_decision. Defined.

Module Assumption.

Record t := Build {
  id : string;
  text : string;
  confidence : float;
  critical : bool;
  verifiable : bool;
  evidence : option string;
  verification_status : option verification;
}.

Definition is_verified (self : t) : bool :=
  match verification_status self with
  | Some verified_true | Some verified_false => true
  | _ => false
  end.

Definition is_falsified (self : t) : bool :=
  bool_decide (verification_status self = Some verified_false).

(** [0x1.6666666666666p-1] is the binary64 value of the literal [0.7]. *)
Definition is_risky (self : t) : bool :=
  critical self
  && PrimFloat.ltb (confidence self) 0x1.6666666666666p-1%float
  && negb (bool_decide (verification_status self = Some verified_true)).

(** [A\d+]. *)
Definition is_local_id (s : string) : bool :=
  match s with
  | String c digits => Ascii.eqb c "A"%char && plus_class is_ascii_digit digits
  | EmptyString => false
  end.

(** The [pattern] of the [id] field: [^(A\d+|[\w-]+:A\d+)$].  Neither
    alternative of the second branch can match a colon, so the prefix ends
    at the first one. *)
Definition id_pattern (s : string) : bool :=
  is_local_id s ||
  match split_colon s with
  | Some (scope, local) =>
      plus_class (fun c => is_word c || Ascii.eqb c "-"%char) scope && is_local_id local
  | None => false
  end.

(** [self.model_dump()]. *)
Definition model_dump (self : t) : json :=
  JDict
    [ ("id", JStr (id self));
      ("text", JStr (text self));
      ("confidence", JFloat (confidence self));
      ("critical", JBool (critical self));
      ("verifiable", JBool (verifiable self));
      ("evidence", match evidence self with Some e => JStr e | None => JNull end);
      ("verification_status",
        match verification_status self with
        | Some unverified => JStr "unverified"
        | Some verified_true => JStr "verified_true"
        | Some verified_false => JStr "verified_false"
        | None => JNull
        end) ].

End Assumption.

#[global] Instance Assumption_inhabited : Inhabited Assumption.t :=
  populate (Assumption.Build "" "" 0%float false false None None).

(** The heap of Assumption objects; a location is an index. *)
Abbreviation loc := nat (only parsing).
Abbreviation heap := (list Assumption.t) (only parsing).

(** The object at a location. *)
Definition deref (h : heap) (l : loc) : Assumption.t := h !!! l.

(** A new object: it gets the next location. *)
Definition alloc (a : Assumption.t) : M heap loc :=
  fun h => Returns (h ++ [a])%list (length h).

(** A state that holds the heap of Assumption objects. *)
Class Heaped (St : Type) := {
  heap_of : St -> heap;
  with_heap : heap -> St -> St;
}.

#[global] Instance heap_heaped : Heaped heap :=
  {| heap_of := fun h => h; with_heap := fun h _ => h |}.

(** A new object, in any state that holds the heap. *)
Definition create `{Heaped St} (a : Assumption.t) : M St loc :=
  zoom heap_of with_heap (alloc a).

(** ** Field validation (pydantic, [strict] models)

    A field validator returns [None] for a value it rejects; the rejection
    becomes a line of the [ValidationError] raised by the constructor.  An
    argument of a constructor is a JSON value or, for [assumptions] in
    [load_session], a list of Assumption instances. *)

Inductive kwarg :=
| KJson (v : json)
| KInstances (objs : list loc).

Module Pydantic.

Definition strict_str (v : kwarg) : option string :=
  match v with KJson (JStr s) => Some s | _ => None end.

Definition strict_int (v : kwarg) : option Z :=
  match v with KJson (JInt n) => Some n | _ => None end.

Definition strict_bool (v : kwarg) : option bool :=
  match v with KJson (JBool b) => Some b | _ => None end.

(** [float] with [ge=0.0, le=1.0].  A strict float field takes a [float] or
    an [int]; the only integers in range are 0 and 1. *)
Definition unit_float (v : kwarg) : option float :=
  match v with
  | KJson (JFloat f) =>
      if PrimFloat.leb 0%float f && PrimFloat.leb f 1%float then Some f else None
  | KJson (JInt 0) => Some 0%float
  | KJson (JInt 1) => Some 1%float
  | _ => None
  end.

(** [int] with [ge=1]. *)
Definition positive_int (v : kwarg) : option Z :=
  n ← strict_int v; if (1 <=? n)%Z then Some n else None.

(** [str] with [min_length=1]. *)
Definition nonempty_str (v : kwarg) : option string :=
  s ← strict_str v; if String.eqb s "" then None else Some s.

Definition status_literal (v : kwarg) : option verification :=
  s ← strict_str v;
  if String.eqb s "unverified" then Some unverified
  else if String.eqb s "verified_true" then Some verified_true
  else if String.eqb s "verified_false" then Some verified_false
  else None.

(** [T | None]. *)
Definition optional {A} (validate : kwarg -> option A) (v : kwarg) : option (option A) :=
  match v with
  | KJson JNull => Some None
  | _ => Some <$> validate v
  end.

(** A field without a default. *)
Definition required {A} (validate : kwarg -> option A) (name : string) (kw : dict kwarg)
  : option A :=
  v ← dict_get name kw; validate v.

(** A field with a default: the default is not validated. *)
Definition defaulted {A} (validate : kwarg -> option A) (name : string) (default : A)
    (kw : dict kwarg) : option A :=
  match dict_get name kw with
  | Some v => validate v
  | None => Some default
  end.

End Pydantic.

(** [_validate_thought_not_empty]: [not value or not value.strip()]. *)
Definition _validate_thought_not_empty (value : string) : option string :=
  if String.eqb value "" || all_chars py_isspace value then None else Some value.

(** The fields of an Assumption from keyword arguments; unknown keys are
    ignored. *)
Definition Assumption_fields (kw : dict kwarg) : option Assumption.t :=
  id ← Pydantic.required Pydantic.strict_str "id" kw;
  id ← (if Assumption.id_pattern id then Some id else None);
  text ← Pydantic.required Pydantic.nonempty_str "text" kw;
  confidence ← Pydantic.defaulted Pydantic.unit_float "confidence" 1%float kw;
  critical ← Pydantic.defaulted Pydantic.strict_bool "critical" true kw;
  verifiable ← Pydantic.defaulted Pydantic.strict_bool "verifiable" false kw;
  evidence ← Pydantic.defaulted (Pydantic.optional Pydantic.strict_str) "evidence" None kw;
  verification_status ←
    Pydantic.defaulted (Pydantic.optional Pydantic.status_literal)
      "verification_status" None kw;
  Some (Assumption.Build id text confidence critical verifiable evidence
          verification_status).

Definition as_kwargs (d : dict json) : dict kwarg :=
  map (fun kv => (fst kv, KJson (snd kv))) d.

(** The constructor call [Assumption] with the keyword arguments [a]: [a]
    must be a mapping; the new object is allocated. *)
Definition Assumption_init (a : json) : M heap loc :=
  match a with
  | JDict d =>
      match Assumption_fields (as_kwargs d) with
      | Some obj => alloc obj
      | None => raise ValidationError
      end
  | _ => raise TypeError
  end.

(** ** Models: Thought *)

Module Thought.

Record t := Build {
  thought : string;
  thought_number : Z;
  total_thoughts : Z;
  next_thought_needed : bool;
  is_revision : option bool;
  revises_thought : option Z;
  branch_from_thought : option Z;
  branch_id : option string;
  needs_more_thoughts : option bool;
  confidence : option float;
  uncertainty_notes : option string;
  outcome : option string;
  assumptions : option (list loc);
  depends_on_assumptions : option (list string);
  invalidates_assumptions : option (list string);
}.

(** [bool(self.branch_from_thought and self.branch_id)]. *)
Definition is_branch (self : t) : bool :=
  match branch_from_thought self, branch_id self with
  | Some n, Some b => negb (n =? 0)%Z && negb (String.eqb b "")
  | _, _ => false
  end.

Definition is_final (self : t) : bool := negb (next_thought_needed self).

Definition set_total_thoughts (self : t) (v : Z) : t :=
  Build (thought self) (thought_number self) v (next_thought_needed self)
    (is_revision self) (revises_thought self) (branch_from_thought self)
    (branch_id self) (needs_more_thoughts self) (confidence self)
    (uncertainty_notes self) (outcome self) (assumptions self)
    (depends_on_assumptions self) (invalidates_assumptions self).

(** The object after [self.auto_adjust_total()]. *)
Definition auto_adjust_total (self : t) : t :=
  set_total_thoughts self (Z.max (thought_number self) (total_thoughts self)).

Definition validate_references {St} (self : t) (existing_thought_numbers : gset Z)
  : M St unit :=
  (if bool_decide (is_revision self = Some true) then
     match revises_thought self with
     | Some r =>
         if bool_decide (r ∈ existing_thought_numbers) then ret tt
         else if bool_decide (existing_thought_numbers = ∅)
              then raise (ValueError (Msg_revise_empty r))
              else raise (ValueError (Msg_revise_not_found r
                            (sorted Z.leb (elements existing_thought_numbers))))
     | None => ret tt
     end
   else ret tt);;
  (if is_branch self then
     match branch_from_thought self with
     | Some b =>
         if bool_decide (b ∈ existing_thought_numbers) then ret tt
         else if bool_decide (existing_thought_numbers = ∅)
              then raise (ValueError (Msg_branch_empty b))
              else raise (ValueError (Msg_branch_not_found b
                            (sorted Z.leb (elements existing_thought_numbers))))
     | None => ret tt
     end
   else ret tt).

End Thought.

(** [type(v).__name__]. *)
Definition type_name (v : json) : string :=
  match v with
  | JNull => "NoneType"
  | JBool _ => "bool"
  | JInt _ => "int"
  | JFloat _ => "float"
  | JStr _ => "str"
  | JList _ => "list"
  | JDict _ => "dict"
  end.

(** A [list] and a [dict] have no hash; neither has a model instance. *)
Definition hashable (v : kwarg) : bool :=
  match v with
  | KJson (JList _) | KJson (JDict _) | KInstances _ => false
  | _ => true
  end.

(** [_parse_json_list].  The test [value in {"", "null"}] is a lookup in a
    set: it hashes [value] and raises [TypeError] for an unhashable one, so
    the [isinstance(value, list)] branch below it is never reached. *)
Definition _parse_json_list `{JsonDecoder} {St} (value : kwarg) (field_name : string)
  : M St (option kwarg) :=
  match value with
  | KJson JNull => ret None
  | _ =>
      if negb (hashable value) then raise TypeError
      else
        match value with
        | KJson (JStr "") | KJson (JStr "null") => ret None
        | KJson (JList _) | KInstances _ => ret (Some value)
        | KJson (JStr s) =>
            match json_loads s with
            | Some (JList parsed) => ret (Some (KJson (JList parsed)))
            | Some parsed =>
                raise (ValueError (Msg_list_expected field_name (type_name parsed)))
            | None => raise (ValueError (Msg_json_invalid field_name))
            end
        | KJson v =>
            raise (ValueError (Msg_list_or_json_expected field_name (type_name v)))
        end
  end.

(** A [mode="before"] field validator running [_parse_json_list]: a
    [ValueError] becomes a line of the [ValidationError] (result [None]), any
    other exception leaves the constructor as it is.  A missing argument
    takes the default [None] without validation. *)
Definition before_list_field `{JsonDecoder} {St} (name : string) (kw : dict kwarg)
  : M St (option (option kwarg)) :=
  match dict_get name kw with
  | None => ret (Some None)
  | Some v =>
      fun st =>
        match _parse_json_list v name st with
        | Returns st' r => Returns st' (Some r)
        | Raises st' (ValueError _) => Returns st' None
        | Raises st' e => Raises st' e
        end
  end.

(** [list[str] | None]. *)
Definition str_list_field (v : option kwarg) : option (option (list string)) :=
  match v with
  | None => Some None
  | Some (KJson (JList l)) => Some <$> mapM (fun x => Pydantic.strict_str (KJson x)) l
  | Some _ => None
  end.

(** An item of a [list[Assumption]]: the mapping from which the Assumption
    is built. *)
Definition Assumption_of_item (item : json) : option Assumption.t :=
  match item with
  | JDict d => Assumption_fields (as_kwargs d)
  | _ => None
  end.

(** [list[Assumption] | None]: an instance is taken as it is, a list of
    mappings gives new objects, one per item; the [strict] setting of the
    model asks for a list and does not reach into its items.  The result is
    [None] for a rejected value. *)
Definition instance_list_field `{Heaped St} (v : option kwarg)
  : M St (option (option (list loc))) :=
  match v with
  | None => ret (Some None)
  | Some (KInstances objs) => ret (Some (Some objs))
  | Some (KJson (JList items)) =>
      match mapM Assumption_of_item items with
      | Some new => objs ← map_each new create; ret (Some (Some objs))
      | None => ret None
      end
  | Some _ => ret None
  end.

(** The fields of a Thought, given the validated [assumptions] and what the
    before-validators of the other two lists returned. *)
Definition Thought_fields (kw : dict kwarg)
    (assumptions : option (option (list loc)))
    (depends_on invalidates : option (option kwarg)) : option Thought.t :=
  thought ← Pydantic.required Pydantic.nonempty_str "thought" kw;
  thought ← _validate_thought_not_empty thought;
  thought_number ← Pydantic.required Pydantic.positive_int "thought_number" kw;
  total_thoughts ← Pydantic.required Pydantic.positive_int "total_thoughts" kw;
  next_thought_needed ← Pydantic.required Pydantic.strict_bool "next_thought_needed" kw;
  is_revision ←
    Pydantic.defaulted (Pydantic.optional Pydantic.strict_bool) "is_revision" None kw;
  revises_thought ←
    Pydantic.defaulted (Pydantic.optional Pydantic.positive_int) "revises_thought" None kw;
  branch_from_thought ←
    Pydantic.defaulted (Pydantic.optional Pydantic.positive_int) "branch_from_thought"
      None kw;
  branch_id ← Pydantic.defaulted (Pydantic.optional Pydantic.strict_str) "branch_id" None kw;
  needs_more_thoughts ←
    Pydantic.defaulted (Pydantic.optional Pydantic.strict_bool) "needs_more_thoughts"
      None kw;
  confidence ←
    Pydantic.defaulted (Pydantic.optional Pydantic.unit_float) "confidence" None kw;
  uncertainty_notes ←
    Pydantic.defaulted (Pydantic.optional Pydantic.strict_str) "uncertainty_notes" None kw;
  outcome ← Pydantic.defaulted (Pydantic.optional Pydantic.strict_str) "outcome" None kw;
  assumptions ← assumptions;
  depends_on ← depends_on ≫= str_list_field;
  invalidates ← invalidates ≫= str_list_field;
  Some (Thought.Build thought thought_number total_thoughts next_thought_needed
          is_revision revises_thought branch_from_thought branch_id
          needs_more_thoughts confidence uncertainty_notes outcome assumptions
          depends_on invalidates).

(** The constructor call [Thought] with keyword arguments [kw].  Fields are
    validated in the order of their declaration; the rejections are
    collected and raised together at the end.  Of the validators only the
    three before-validators can raise, and only the validation of
    [assumptions] creates objects. *)
Definition Thought_init `{JsonDecoder} `{Heaped St} (kw : dict kwarg) : M St Thought.t :=
  assumptions ← before_list_field "assumptions" kw;
  assumptions ← match assumptions with
                | Some v => instance_list_field v
                | None => ret None
                end;
  depends_on ← before_list_field "depends_on_assumptions" kw;
  invalidates ← before_list_field "invalidates_assumptions" kw;
  match Thought_fields kw assumptions depends_on invalidates with
  | Some t => ret t
  | None => raise ValidationError
  end.

(** ** Session *)

(** [_parse_assumption_id]: [(session_id, local_id)]. *)
Definition _parse_assumption_id (assumption_id : string) : option string * string :=
  match split_colon assumption_id with
  | Some (session_id, local_id) => (Some session_id, local_id)
  | None => (None, assumption_id)
  end.

Module ThinkingSession.

(** The two list attributes are assigned by [load_session] without
    validation, so they hold whatever JSON value the file had. *)
Record t := Build {
  _thoughts : list Thought.t;
  _branches : dict (list Thought.t);
  _assumptions : dict loc;
  _unresolved_refs : json;
  _cross_session_warnings : json;
}.

(** [ThinkingSession()]. *)
Definition new : t := Build [] [] [] (JList []) (JList []).

Definition set_thoughts (self : t) (v : list Thought.t) : t :=
  Build v (_branches self) (_assumptions self) (_unresolved_refs self)
    (_cross_session_warnings self).

Definition set_branches (self : t) (v : dict (list Thought.t)) : t :=
  Build (_thoughts self) v (_assumptions self) (_unresolved_refs self)
    (_cross_session_warnings self).

Definition set_assumptions (self : t) (v : dict loc) : t :=
  Build (_thoughts self) (_branches self) v (_unresolved_refs self)
    (_cross_session_warnings self).

Definition set_unresolved_refs (self : t) (v : json) : t :=
  Build (_thoughts self) (_branches self) (_assumptions self) v
    (_cross_session_warnings self).

Definition set_cross_session_warnings (self : t) (v : json) : t :=
  Build (_thoughts self) (_branches self) (_assumptions self) (_unresolved_refs self) v.

Definition thought_count (self : t) : Z := Z.of_nat (length (_thoughts self)).

Definition branch_ids (self : t) : list string := dict_keys (_branches self).

(** [all_assumptions], read through the heap. *)
Definition all_assumptions (h : heap) (self : t) : dict Assumption.t :=
  map (fun kv => (fst kv, deref h (snd kv))) (_assumptions self).

Definition risky_assumptions (h : heap) (self : t) : list string :=
  dict_keys (List.filter (fun kv => Assumption.is_risky (snd kv)) (all_assumptions h self)).

Definition falsified_assumptions (h : heap) (self : t) : list string :=
  dict_keys
    (List.filter (fun kv => Assumption.is_falsified (snd kv)) (all_assumptions h self)).

End ThinkingSession.

(** The memory [add_thought] works on: the heap of Assumption objects and
    the session object [self]. *)
Definition Mem : Type := heap * ThinkingSession.t.

#[global] Instance Mem_heaped : Heaped Mem :=
  {| heap_of := fst; with_heap := fun h st => (h, snd st) |}.

Definition the_heap : M Mem heap := fun st => Returns st (fst st).

Definition self : M Mem ThinkingSession.t := fun st => Returns st (snd st).

Definition set_self (s : ThinkingSession.t) : M Mem unit :=
  fun st => Returns (fst st, s) tt.

(** Writing the fields of the object at [l]. *)
Definition store (l : loc) (a : Assumption.t) : M Mem unit :=
  fun st => Returns (<[l := a]> (fst st), snd st) tt.

Definition avail (available : list string) : avail_str :=
  match available with
  | [] => AvailNone
  | _ => AvailList available
  end.

Definition known_ids (s : ThinkingSession.t) : avail_str :=
  avail (sorted String.leb (dict_keys (ThinkingSession._assumptions s))).

(** [validated_cross_session_refs and assumption_id in validated_cross_session_refs]. *)
Definition is_validated (validated : option (list string)) (assumption_id : string) : bool :=
  match validated with
  | Some l => existsb (String.eqb assumption_id) l
  | None => false
  end.

(** The body of the loop over [thought.depends_on_assumptions]. *)
Definition depend_on (validated : option (list string)) (assumption_id : string)
  : M Mem unit :=
  s ← self;
  match fst (_parse_assumption_id assumption_id) with
  | None =>
      if dict_contains assumption_id (ThinkingSession._assumptions s) then ret tt
      else raise (ValueError (Msg_depend_not_found assumption_id (known_ids s)))
  | Some _ =>
      if is_validated validated assumption_id then ret tt
      else
        recorded ← py_contains assumption_id (ThinkingSession._unresolved_refs s);
        if (recorded : bool) then ret tt
        else
          refs ← py_append (ThinkingSession._unresolved_refs s) assumption_id;
          set_self (ThinkingSession.set_unresolved_refs s refs)
  end.

(** The four assignments to the mutable fields of [existing]. *)
Definition overwrite_mutable (existing assumption : Assumption.t) : Assumption.t :=
  Assumption.Build (Assumption.id existing) (Assumption.text existing)
    (Assumption.confidence assumption) (Assumption.critical existing)
    (Assumption.verifiable assumption) (Assumption.evidence assumption)
    (Assumption.verification_status assumption).

(** The body of the loop over [thought.assumptions]. *)
Definition upsert (assumption : loc) : M Mem unit :=
  h ← the_heap;
  s ← self;
  let new := deref h assumption in
  match dict_get (Assumption.id new) (ThinkingSession._assumptions s) with
  | Some existing =>
      let old := deref h existing in
      if negb (String.eqb (Assumption.text old) (Assumption.text new)) then
        raise (ValueError (Msg_text_mismatch (Assumption.id new)
                             (Assumption.text old) (Assumption.text new)))
      else if negb (Bool.eqb (Assumption.critical old) (Assumption.critical new)) then
        raise (ValueError (Msg_critical_mismatch (Assumption.id new)
                             (Assumption.critical old) (Assumption.critical new)))
      else store existing (overwrite_mutable old new)
  | None =>
      set_self (ThinkingSession.set_assumptions s
                  (dict_set (Assumption.id new) assumption (ThinkingSession._assumptions s)))
  end.

Definition set_verification_status (a : Assumption.t) (v : option verification)
  : Assumption.t :=
  Assumption.Build (Assumption.id a) (Assumption.text a) (Assumption.confidence a)
    (Assumption.critical a) (Assumption.verifiable a) (Assumption.evidence a) v.

Definition invalidation_warning (assumption_id : string) : string :=
  "Cannot invalidate cross-session assumption " +:+ assumption_id +:+
  ": cross-session invalidation not supported".

(** The body of the loop over [thought.invalidates_assumptions]. *)
Definition invalidate (assumption_id : string) : M Mem unit :=
  h ← the_heap;
  s ← self;
  match fst (_parse_assumption_id assumption_id) with
  | None =>
      match dict_get assumption_id (ThinkingSession._assumptions s) with
      | None => raise (ValueError (Msg_invalidate_not_found assumption_id (known_ids s)))
      | Some l => store l (set_verification_status (deref h l) (Some verified_false))
      end
  | Some _ =>
      warnings ← py_append (ThinkingSession._cross_session_warnings s)
                   (invalidation_warning assumption_id);
      set_self (ThinkingSession.set_cross_session_warnings s warnings)
  end.

(** [self._thoughts.append(thought)] and the branch index. *)
Definition append_thought (thought : Thought.t) : M Mem unit :=
  s ← self;
  let s := ThinkingSession.set_thoughts s (ThinkingSession._thoughts s ++ [thought])%list in
  match Thought.branch_id thought with
  | Some branch_id =>
      if Thought.is_branch thought then
        let branches := ThinkingSession._branches s in
        let branches :=
          if dict_contains branch_id branches then branches
          else dict_set branch_id [] branches in
        let members := default [] (dict_get branch_id branches) in
        set_self (ThinkingSession.set_branches s
                    (dict_set branch_id (members ++ [thought])%list branches))
      else set_self s
  | None => set_self s
  end.

(** [ThinkingSession.add_thought].  The result is the thought object as the
    call leaves it ([auto_adjust_total] writes it in place).  A loop guarded
    by the truth of its list runs over the empty list when the field is
    [None]. *)
Definition add_thought (thought : Thought.t) (validated_cross_session_refs : option (list string))
  : M Mem Thought.t :=
  let thought := Thought.auto_adjust_total thought in
  s ← self;
  let existing_numbers : gset Z :=
    list_to_set (map Thought.thought_number (ThinkingSession._thoughts s)) in
  Thought.validate_references thought existing_numbers;;
  for_each (default [] (Thought.depends_on_assumptions thought))
    (depend_on validated_cross_session_refs);;
  for_each (default [] (Thought.assumptions thought)) upsert;;
  for_each (default [] (Thought.invalidates_assumptions thought)) invalidate;;
  append_thought thought;;
  ret thought.

(** ** Session storage *)

(** What the file of a session holds, by what reading it gives. *)
Inductive file :=
| FileJson (data : json)   (* text that [json.load] parses to [data] *)
| FileNotJson              (* text that [json.load] rejects: [JSONDecodeError] *)
| FileUnreadable           (* [open] fails: [OSError] *)
| FileUndecodable          (* bytes that are not text: [UnicodeDecodeError] *)
| FileTooDeep              (* nesting over the recursion limit: [RecursionError] *)
| FileIntTooLong.          (* an integer over the digit limit: [ValueError] *)

(** The process and its storage: the heap of Assumption objects, the files of
    the sessions directory by name, the cache [_sessions] of the service. *)
Record World := {
  objects : heap;
  files : gmap string file;
  _sessions : gmap string ThinkingSession.t;
}.

Definition set_objects (w : World) (h : heap) : World :=
  {| objects := h; files := files w; _sessions := _sessions w |}.

#[global] Instance World_heaped : Heaped World :=
  {| heap_of := objects; with_heap := fun h w => set_objects w h |}.

Definition set_files (w : World) (f : gmap string file) : World :=
  {| objects := objects w; files := f; _sessions := _sessions w |}.

Definition set_sessions (w : World) (c : gmap string ThinkingSession.t) : World :=
  {| objects := objects w; files := files w; _sessions := c |}.

Definition is_session_id_char (c : ascii) : bool :=
  is_ascii_lower c || is_ascii_upper c || is_ascii_digit c
  || Ascii.eqb c "_"%char || Ascii.eqb c "-"%char.

(** What is left of [s] after the longest prefix of characters in [p]. *)
Fixpoint skip_class (p : ascii -> bool) (s : string) : string :=
  match s with
  | EmptyString => EmptyString
  | String c s' => if p c then skip_class p s' else s
  end.

Definition newline : string := String (ascii_of_nat 10) EmptyString.

(** [_SESSION_ID_PATTERN.match(session_id)] for the pattern
    [^[a-zA-Z0-9_-]+$] of the [re] module: one or more characters of the
    class from the start, then [$], which holds at the end of the string and
    also just before a newline that is the last character. *)
Definition _SESSION_ID_PATTERN_match (session_id : string) : bool :=
  match session_id with
  | EmptyString => false
  | String c _ =>
      is_session_id_char c &&
      (let rest := skip_class is_session_id_char session_id in
       String.eqb rest "" || String.eqb rest newline)
  end.

Definition _validate_session_id {St} (session_id : string) : M St unit :=
  if String.eqb session_id "" then raise (ValueError Msg_session_id_empty)
  else if (128 <? String.length session_id)%nat then
    raise (ValueError Msg_session_id_too_long)
  else if negb (_SESSION_ID_PATTERN_match session_id) then
    raise (ValueError (Msg_session_id_invalid session_id))
  else ret tt.

(** The storage address: the file name inside the sessions directory. *)
Definition _session_file_path {St} (session_id : string) : M St string :=
  _validate_session_id session_id;;
  ret (session_id +:+ ".json").

Definition json_option {A} (f : A -> json) (v : option A) : json :=
  match v with
  | Some x => f x
  | None => JNull
  end.

Definition json_str_list (l : list string) : json := JList (JStr <$> l).

(** The dictionary [save_session] writes for one thought. *)
Definition thought_json (h : heap) (t : Thought.t) : json :=
  JDict
    [ ("thought", JStr (Thought.thought t));
      ("thought_number", JInt (Thought.thought_number t));
      ("total_thoughts", JInt (Thought.total_thoughts t));
      ("next_thought_needed", JBool (Thought.next_thought_needed t));
      ("is_revision", json_option JBool (Thought.is_revision t));
      ("revises_thought", json_option JInt (Thought.revises_thought t));
      ("branch_from_thought", json_option JInt (Thought.branch_from_thought t));
      ("branch_id", json_option JStr (Thought.branch_id t));
      ("needs_more_thoughts", json_option JBool (Thought.needs_more_thoughts t));
      ("confidence", json_option JFloat (Thought.confidence t));
      ("uncertainty_notes", json_option JStr (Thought.uncertainty_notes t));
      ("outcome", json_option JStr (Thought.outcome t));
      ("assumptions",
        match Thought.assumptions t with
        | Some (a :: l) => JList ((fun x => Assumption.model_dump (deref h x)) <$> (a :: l))
        | _ => JNull
        end);
      ("depends_on_assumptions", json_option json_str_list (Thought.depends_on_assumptions t));
      ("invalidates_assumptions",
        json_option json_str_list (Thought.invalidates_assumptions t)) ].

(** The [data] dictionary of [save_session]. *)
Definition session_json (h : heap) (session : ThinkingSession.t) : json :=
  JDict
    [ ("thoughts", JList (thought_json h <$> ThinkingSession._thoughts session));
      ("assumptions",
        JDict ((fun kv => (fst kv, Assumption.model_dump (deref h (snd kv))))
                 <$> ThinkingSession._assumptions session));
      ("branches",
        JDict ((fun kv => (fst kv, JList ((fun t => JInt (Thought.thought_number t)) <$> snd kv)))
                 <$> ThinkingSession._branches session));
      ("unresolved_refs", ThinkingSession._unresolved_refs session);
      ("cross_session_warnings", ThinkingSession._cross_session_warnings session) ].

(** [save_session].  [json.dump] followed by [json.load] gives back an equal
    value for data made of [None], booleans, integers, floats, strings, lists
    and dictionaries with string keys, so the file written is [FileJson data].
    The integers of a session are taken to be within the digit limit of the
    conversion to text (4300 digits), over which [json.dump] raises. *)
Definition save_session (session_id : string) (session : ThinkingSession.t) : M World unit :=
  w ← get;
  let data := session_json (objects w) session in
  file_path ← _session_file_path session_id;
  put (set_files w (<[file_path := FileJson data]> (files w))).

(** Run a computation on the heap inside [Mem]. *)
Definition on_heap {A} (m : M heap A) : M Mem A :=
  zoom fst (fun h st => (h, snd st)) m.

(** The loop of [load_session] over the items of ["assumptions"]. *)
Definition load_assumption (item : string * json) : M Mem unit :=
  obj ← on_heap (Assumption_init (snd item));
  s ← self;
  set_self (ThinkingSession.set_assumptions s
              (dict_set (fst item) obj (ThinkingSession._assumptions s))).

(** The end of the loop body over ["thoughts"]: the appends of
    [load_session], whose branch test is [thought.is_branch and
    thought.branch_id]. *)
Definition load_append (thought : Thought.t) : M Mem unit :=
  s ← self;
  let s := ThinkingSession.set_thoughts s (ThinkingSession._thoughts s ++ [thought])%list in
  match Thought.branch_id thought with
  | Some branch_id =>
      if Thought.is_branch thought && negb (String.eqb branch_id "") then
        let branches := ThinkingSession._branches s in
        let branches :=
          if dict_contains branch_id branches then branches
          else dict_set branch_id [] branches in
        let members := default [] (dict_get branch_id branches) in
        set_self (ThinkingSession.set_branches s
                    (dict_set branch_id (members ++ [thought])%list branches))
      else set_self s
  | None => set_self s
  end.

(** The body of the loop of [load_session] over ["thoughts"]. *)
Definition load_thought `{JsonDecoder} (thought_data : json) : M Mem unit :=
  assumptions ← py_get thought_data "assumptions" JNull;
  kw ← match thought_data with
       | JDict d =>
           if truthy assumptions then
             items ← py_iter assumptions;
             objs ← map_each items (fun a => on_heap (Assumption_init a));
             ret (dict_set "assumptions" (KInstances objs) (as_kwargs d))
           else ret (as_kwargs d)
       | _ => raise AttributeError
       end;
  thought ← Thought_init kw;
  load_append thought.

(** The [try] block of [load_session] that rebuilds the session from
    [data]; it runs on a fresh [ThinkingSession()]. *)
Definition rebuild_session `{JsonDecoder} (data : json) : M Mem unit :=
  assumptions ← py_get data "assumptions" (JDict []);
  items ← py_items assumptions;
  for_each items load_assumption;;
  thoughts ← py_get data "thoughts" (JList []);
  thoughts ← py_iter thoughts;
  for_each thoughts load_thought;;
  unresolved_refs ← py_get data "unresolved_refs" (JList []);
  s ← self;
  set_self (ThinkingSession.set_unresolved_refs s unresolved_refs);;
  cross_session_warnings ← py_get data "cross_session_warnings" (JList []);
  s ← self;
  set_self (ThinkingSession.set_cross_session_warnings s cross_session_warnings).

(** [except (KeyError, TypeError, ValidationError)]. *)
Definition invalid_structure (e : exn) : bool :=
  match e with
  | KeyError | TypeError | ValidationError => true
  | _ => false
  end.

Definition load_session `{JsonDecoder} (session_id : string)
  : M World (option ThinkingSession.t) :=
  file_path ← _session_file_path session_id;
  w ← get;
  match files w !! file_path with
  | None => ret None
  | Some FileUnreadable | Some FileNotJson => ret None
  | Some FileUndecodable => raise (ValueError Msg_undecodable)
  | Some FileTooDeep => raise RecursionError
  | Some FileIntTooLong => raise (ValueError Msg_int_too_long)
  | Some (FileJson data) =>
      try_except
        (zoom (fun w => (objects w, ThinkingSession.new))
              (fun st w => set_objects w (fst st))
              (rebuild_session data;; s ← self; ret (Some s)))
        invalid_structure None
  end.

(** ** Models: request and response *)

Module ThoughtRequest.

Record t := Build {
  thought : string;
  total_thoughts : Z;
  next_thought_needed : option bool;
  thought_number : option Z;
  session_id : option string;
  is_revision : option bool;
  revises_thought : option Z;
  branch_from_thought : option Z;
  branch_id : option string;
  needs_more_thoughts : option bool;
  confidence : option float;
  uncertainty_notes : option string;
  outcome : option string;
  assumptions : option (list Assumption.t);
  depends_on_assumptions : option (list string);
  invalidates_assumptions : option (list string);
}.

(** [self.model_dump(exclude={"session_id"})]. *)
Definition model_dump (self : t) : dict json :=
  [ ("thought", JStr (thought self));
    ("total_thoughts", JInt (total_thoughts self));
    ("next_thought_needed", json_option JBool (next_thought_needed self));
    ("thought_number", json_option JInt (thought_number self));
    ("is_revision", json_option JBool (is_revision self));
    ("revises_thought", json_option JInt (revises_thought self));
    ("branch_from_thought", json_option JInt (branch_from_thought self));
    ("branch_id", json_option JStr (branch_id self));
    ("needs_more_thoughts", json_option JBool (needs_more_thoughts self));
    ("confidence", json_option JFloat (confidence self));
    ("uncertainty_notes", json_option JStr (uncertainty_notes self));
    ("outcome", json_option JStr (outcome self));
    ("assumptions",
      json_option (fun l => JList (Assumption.model_dump <$> l)) (assumptions self));
    ("depends_on_assumptions", json_option json_str_list (depends_on_assumptions self));
    ("invalidates_assumptions", json_option json_str_list (invalidates_assumptions self)) ].

End ThoughtRequest.

Module ThoughtResponse.

Record t := Build {
  session_id : string;
  thought_number : Z;
  total_thoughts : Z;
  next_thought_needed : bool;
  branches : list string;
  thought_history_length : Z;
  confidence : option float;
  uncertainty_notes : option string;
  outcome : option string;
  all_assumptions : dict Assumption.t;
  risky_assumptions : list string;
  falsified_assumptions : list string;
  unresolved_references : list string;
  cross_session_warnings : list string;
}.

End ThoughtResponse.

(** [v.copy()] for the two list properties of the session: a list and a dict
    have the method, nothing else read from JSON has. *)
Definition py_copy {St} (v : json) : M St json :=
  match v with
  | JList _ | JDict _ => ret v
  | _ => raise AttributeError
  end.

(** A [list[str]] field of the response. *)
Definition response_str_list {St} (v : json) : M St (list string) :=
  match str_list_field (Some (KJson v)) with
  | Some (Some l) => ret l
  | _ => raise ValidationError
  end.

(** ** Service *)

(** [_get_or_create_session]; [new_id] is the value of [str(uuid.uuid4())]. *)
Definition _get_or_create_session `{JsonDecoder} (session_id : option string)
    (new_id : string) : M World (string * ThinkingSession.t) :=
  match session_id with
  | None =>
      w ← get;
      put (set_sessions w (<[new_id := ThinkingSession.new]> (_sessions w)));;
      ret (new_id, ThinkingSession.new)
  | Some session_id =>
      w ← get;
      match _sessions w !! session_id with
      | Some session => ret (session_id, session)
      | None =>
          loaded_session ← load_session session_id;
          w ← get;
          match loaded_session with
          | Some loaded =>
              put (set_sessions w (<[session_id := loaded]> (_sessions w)));;
              ret (session_id, loaded)
          | None =>
              put (set_sessions w (<[session_id := ThinkingSession.new]> (_sessions w)));;
              ret (session_id, ThinkingSession.new)
          end
      end
  end.

Definition _resolve_cross_session_assumption `{JsonDecoder} (scoped_id : string)
    (_current_session_id : string) : M World (option string * bool) :=
  match _parse_assumption_id scoped_id with
  | (None, _) => ret (Some scoped_id, true)
  | (Some target_session_id, local_id) =>
      w ← get;
      found ←
        match _sessions w !! target_session_id with
        | Some _ => ret true
        | None =>
            target_session ← load_session target_session_id;
            match target_session with
            | Some target =>
                w ← get;
                put (set_sessions w (<[target_session_id := target]> (_sessions w)));;
                ret true
            | None => ret false
            end
        end;
      if (found : bool) then
        w ← get;
        match _sessions w !! target_session_id with
        | Some target_session =>
            if dict_contains local_id (ThinkingSession._assumptions target_session)
            then ret (Some local_id, true)
            else ret (None, false)
        | None => raise KeyError
        end
      else ret (None, false)
  end.

(** The loop of [process_thought] that fills [validated_cross_session_refs]. *)
Fixpoint validate_cross_session_refs `{JsonDecoder} (depends_on : list string)
    (session_id : string) : M World (list string) :=
  match depends_on with
  | [] => ret []
  | assumption_id :: rest =>
      match split_colon assumption_id with
      | Some _ =>
          '(_, was_resolved) ← _resolve_cross_session_assumption assumption_id session_id;
          validated ← validate_cross_session_refs rest session_id;
          ret (if (was_resolved : bool) then assumption_id :: validated else validated)
      | None => validate_cross_session_refs rest session_id
      end
  end.

(** [thought_number] as [process_thought] computes it. *)
Definition assigned_thought_number (session : ThinkingSession.t) (request : ThoughtRequest.t)
  : Z :=
  match ThoughtRequest.thought_number request with
  | None => (ThinkingSession.thought_count session + 1)%Z
  | Some n => n
  end.

(** [next_thought_needed] as [process_thought] computes it. *)
Definition assigned_next_thought_needed (thought_number : Z) (request : ThoughtRequest.t)
  : bool :=
  match ThoughtRequest.next_thought_needed request with
  | None => (thought_number <? ThoughtRequest.total_thoughts request)%Z
  | Some b => b
  end.

(** [session.add_thought(...)] on the session object cached under
    [session_id]: its mutations stay in the cache, whether the call returns
    or raises. *)
Definition on_session {A} (session_id : string) (session : ThinkingSession.t)
    (m : M Mem A) : M World (A * ThinkingSession.t) :=
  fun w =>
    let keep (st : Mem) :=
      set_sessions (set_objects w (fst st)) (<[session_id := snd st]> (_sessions w)) in
    match m (objects w, session) with
    | Returns st a => Returns (keep st) (a, snd st)
    | Raises st e => Raises (keep st) e
    end.

Definition process_thought `{JsonDecoder} (request : ThoughtRequest.t) (new_id : string)
  : M World ThoughtResponse.t :=
  '(session_id, session) ← _get_or_create_session (ThoughtRequest.session_id request) new_id;
  let thought_number := assigned_thought_number session request in
  let next_thought_needed := assigned_next_thought_needed thought_number request in
  validated_cross_session_refs ←
    validate_cross_session_refs
      (default [] (ThoughtRequest.depends_on_assumptions request)) session_id;
  let thought_data := ThoughtRequest.model_dump request in
  let thought_data := dict_set "thought_number" (JInt thought_number) thought_data in
  let thought_data := dict_set "next_thought_needed" (JBool next_thought_needed) thought_data in
  thought ← Thought_init (as_kwargs thought_data);
  '(thought, session) ←
    on_session session_id session (add_thought thought (Some validated_cross_session_refs));
  save_session session_id session;;
  w ← get;
  let h := objects w in
  unresolved ← py_copy (ThinkingSession._unresolved_refs session);
  warnings ← py_copy (ThinkingSession._cross_session_warnings session);
  unresolved ← response_str_list unresolved;
  warnings ← response_str_list warnings;
  ret (ThoughtResponse.Build session_id
         (Thought.thought_number thought)
         (Thought.total_thoughts thought)
         (Thought.next_thought_needed thought)
         (ThinkingSession.branch_ids session)
         (ThinkingSession.thought_count session)
         (Thought.confidence thought)
         (Thought.uncertainty_notes thought)
         (Thought.outcome thought)
         (ThinkingSession.all_assumptions h session)
         (ThinkingSession.risky_assumptions h session)
         (ThinkingSession.falsified_assumptions h session)
         unresolved warnings).

(** ** Command line

    [main_callback] as typer calls it, with the options parsed and typed.
    Typer itself, its help text and the checks it makes on the options are
    not modelled; what the function prints is recorded as data. *)

Module Options.

Record t := Build {
  thought : option string;
  total : option Z;
  session_id : option string;
  thought_number : option Z;
  confidence : option float;
  is_revision : option bool;
  revises_thought : option Z;
  branch_from_thought : option Z;
  branch_id : option string;
  uncertainty_notes : option string;
  outcome : option string;
  assumptions : option string;
  depends_on : option string;
  invalidates : option string;
  needs_more : option bool;
  next_needed : option bool;
}.

End Options.

(** [int | None] with [ge=1] and [float | None] with [ge=0.0, le=1.0], for
    typed values. *)
Definition optional_positive (v : option Z) : option (option Z) :=
  match v with
  | Some n => if (1 <=? n)%Z then Some v else None
  | None => Some None
  end.

Definition optional_unit (v : option float) : option (option float) :=
  match v with
  | Some f => if PrimFloat.leb 0%float f && PrimFloat.leb f 1%float then Some v else None
  | None => Some None
  end.

(** [list[Assumption] | None] of the request, from the list a JSON text was
    parsed to: every item is a mapping, validated as an Assumption. *)
Definition assumption_items_field (v : option kwarg) : option (option (list Assumption.t)) :=
  match v with
  | None => Some None
  | Some (KJson (JList l)) =>
      Some <$> mapM (fun x => match x with
                              | JDict d => Assumption_fields (as_kwargs d)
                              | _ => None
                              end) l
  | Some _ => None
  end.

(** The fields of the request, given what the three before-validators
    returned. *)
Definition ThoughtRequest_fields (o : Options.t) (thought : string) (total : Z)
    (assumptions depends_on invalidates : option (option kwarg)) : option ThoughtRequest.t :=
  thought ← (if String.eqb thought "" then None else Some thought);
  thought ← _validate_thought_not_empty thought;
  total_thoughts ← (if (1 <=? total)%Z then Some total else None);
  thought_number ← optional_positive (Options.thought_number o);
  revises_thought ← optional_positive (Options.revises_thought o);
  branch_from_thought ← optional_positive (Options.branch_from_thought o);
  confidence ← optional_unit (Options.confidence o);
  assumptions ← assumptions ≫= assumption_items_field;
  depends_on ← depends_on ≫= str_list_field;
  invalidates ← invalidates ≫= str_list_field;
  Some (ThoughtRequest.Build thought total_thoughts (Options.next_needed o) thought_number
          (Options.session_id o) (Options.is_revision o) revises_thought
          branch_from_thought (Options.branch_id o) (Options.needs_more o) confidence
          (Options.uncertainty_notes o) (Options.outcome o) assumptions depends_on
          invalidates).

(** The constructor call [ThoughtRequest(...)] of [main_callback]: the three
    list fields get the text of their option, or [None]. *)
Definition ThoughtRequest_of_options `{JsonDecoder} {St} (o : Options.t) (thought : string)
    (total : Z) : M St ThoughtRequest.t :=
  let kw :=
    [ ("assumptions", KJson (json_option JStr (Options.assumptions o)));
      ("depends_on_assumptions", KJson (json_option JStr (Options.depends_on o)));
      ("invalidates_assumptions", KJson (json_option JStr (Options.invalidates o))) ] in
  assumptions ← before_list_field "assumptions" kw;
  depends_on ← before_list_field "depends_on_assumptions" kw;
  invalidates ← before_list_field "invalidates_assumptions" kw;
  match ThoughtRequest_fields o thought total assumptions depends_on invalidates with
  | Some request => ret request
  | None => raise ValidationError
  end.

(** The JSON object printed on [stderr] before [typer.Exit(code=1)], by its
    ["error"] entry. *)
Inductive cli_error :=
| validation_error
| value_error (m : message)
| unexpected_error (e : exn).

(** What a call of [main_callback] does besides changing the world. *)
Inductive cli_outcome :=
| ShowHelp                              (* the help is printed; [typer.Exit()] *)
| NoOutput                              (* [return] *)
| Printed (response : ThoughtResponse.t) (* the response is printed *)
| Failed (error : cli_error).           (* the error is printed; [typer.Exit(code=1)] *)

Definition exit_code (out : cli_outcome) : Z :=
  match out with
  | Failed _ => 1
  | _ => 0
  end.

(** [main_callback]; [new_id] is the value [uuid.uuid4()] would give.  The
    [except] clauses are tried in order: [ValidationError], [ValueError],
    [Exception]. *)
Definition main_callback `{JsonDecoder} (o : Options.t) (invoked_subcommand : option string)
    (new_id : string) : M World cli_outcome :=
  match Options.thought o, Options.total o with
  | Some thought, Some total =>
      fun w =>
        match (request ← ThoughtRequest_of_options o thought total;
               process_thought request new_id) w with
        | Returns w' response => Returns w' (Printed response)
        | Raises w' ValidationError => Returns w' (Failed validation_error)
        | Raises w' (ValueError m) => Returns w' (Failed (value_error m))
        | Raises w' e => Returns w' (Failed (unexpected_error e))
        end
  | _, _ =>
      ret (match invoked_subcommand with None => ShowHelp | Some _ => NoOutput end)
  end.

(** ** Observations on outcomes and concrete data for the examples *)

Definition state_of {St A} (o : outcome St A) : St :=
  match o with
  | Returns st _ => st
  | Raises st _ => st
  end.

Definition result_of {St A} (o : outcome St A) : option A :=
  match o with
  | Returns _ a => Some a
  | Raises _ _ => None
  end.

Definition exception_of {St A} (o : outcome St A) : option exn :=
  match o with
  | Returns _ _ => None
  | Raises _ e => Some e
  end.

(** The number of items of a list that equal the string [x]. *)
Definition occurrences (x : string) (l : list json) : nat :=
  length (List.filter (fun v => match v with JStr y => String.eqb x y | _ => false end) l).

(** A process that has just started on an empty sessions directory. *)
Definition fresh_world : World := {| objects := []; files := ∅; _sessions := ∅ |}.

(** A decoder that rejects every text.  The closed examples of the service
    run with it; none of them reaches [json.loads]. *)
Definition rejecting_decoder : JsonDecoder := fun _ => None.

(** A thought with only the required fields, and a request likewise. *)
Definition plain_thought (text : string) (thought_number total_thoughts : Z)
    (next_thought_needed : bool) : Thought.t :=
  Thought.Build text thought_number total_thoughts next_thought_needed
    None None None None None None None None None None None.

Definition plain_request (text : string) (total_thoughts : Z) (thought_number : option Z)
  : ThoughtRequest.t :=
  ThoughtRequest.Build text total_thoughts None thought_number None
    None None None None None None None None None None None.

(** ** Predicates and data of the statements *)

(** What [_validate_session_id] lets through. *)
Definition accepted_session_id (s : string) : Prop :=
  s <> "" /\ (String.length s <= 128)%nat /\
  (all_chars is_session_id_char s = true \/
   exists body, body <> "" /\ s = body +:+ newline /\ all_chars is_session_id_char body = true).

(** The steps of [add_thought] before the append, as one computation. *)
Definition before_append (thought : Thought.t) (validated : option (list string))
  : M Mem unit :=
  s ← self;
  Thought.validate_references thought
    (list_to_set (map Thought.thought_number (ThinkingSession._thoughts s)));;
  for_each (default [] (Thought.depends_on_assumptions thought)) (depend_on validated);;
  for_each (default [] (Thought.assumptions thought)) upsert;;
  for_each (default [] (Thought.invalidates_assumptions thought)) invalidate.

(** The error of a failed reference check. *)
Definition dangling (e : exn) : Prop :=
  exists m, e = ValueError m /\ kind_of m = DanglingReference.

Definition same_log (st st' : Mem) : Prop :=
  ThinkingSession._thoughts (snd st') = ThinkingSession._thoughts (snd st)
  /\ ThinkingSession._branches (snd st') = ThinkingSession._branches (snd st).

Definition same_refs (st st' : Mem) : Prop :=
  ThinkingSession._unresolved_refs (snd st') = ThinkingSession._unresolved_refs (snd st).

(** How the list of unresolved references may change: a string that is in
    it keeps its number of occurrences, a string that is not gets at most
    one. *)
Definition grows (refs refs' : list json) : Prop :=
  forall z, ((0 < occurrences z refs)%nat -> occurrences z refs' = occurrences z refs)
            /\ (occurrences z refs = 0%nat -> (occurrences z refs' <= 1)%nat).

(** The heap only grows: the objects that exist keep their location and
    their fields. *)
Definition heap_grows (st st' : Mem) : Prop := fst st `prefix_of` fst st'.

(** What [load_session] may do to the world: files and cache stay, objects
    are only added. *)
Definition reads_only (w w' : World) : Prop :=
  files w' = files w /\ _sessions w' = _sessions w /\ objects w `prefix_of` objects w'.

(** What a lookup may do to the world: files stay, cached sessions stay,
    objects are only added. *)
Definition only_adds (w w' : World) : Prop :=
  files w' = files w
  /\ (forall sid s, _sessions w !! sid = Some s -> _sessions w' !! sid = Some s)
  /\ objects w `prefix_of` objects w'.

(** The record of the repository's test [test_load_invalid_structure]. *)
Definition invalid_structure_world : World :=
  set_files fresh_world
    (<["invalid.json" := FileJson (JDict [("thoughts", JStr "not_a_list")])]> ∅).

(** A thought that depends on an assumption of another session, as
    [Thought(..., depends_on_assumptions='["other:A1"]')] builds it. *)
Definition cross_session_thought : Thought.t :=
  Thought.Build "T" 1 1 false None None None None None None None None None
    (Some ["other:A1"]) None.

(** The session after appending it to [ThinkingSession()]. *)
Definition cross_session_session : ThinkingSession.t :=
  snd (state_of (add_thought cross_session_thought None ([], ThinkingSession.new))).

(** The id ["café:A1"]: its session part is made of word characters, so
    the string has the form of a cross-session assumption id. *)
Definition accented_scoped_id : string :=
  "caf" +:+ String (ascii_of_nat 233) ":A1".

(** Four Assumption objects: [A1] as first declared, [A1] declared again
    with other mutable fields, [A1] with another text, and [A2]. *)
Definition example_heap : list Assumption.t :=
  [ Assumption.Build "A1" "x" 0.5 true false None (Some unverified);
    Assumption.Build "A1" "x" 0.75 true true (Some "measured") (Some verified_true);
    Assumption.Build "A1" "y" 0.5 true false None None;
    Assumption.Build "A2" "z" 1 false false None None ].

(** The session after thought 1 declared the object at location 0. *)
Definition example_session : ThinkingSession.t :=
  snd (state_of
         (add_thought
            (Thought.Build "T1" 1 3 true None None None None None None None None
               (Some [0%nat]) None None)
            None (example_heap, ThinkingSession.new))).

(** A thought that declares [A1] again and invalidates an unknown [A9]. *)
Definition failing_thought : Thought.t :=
  Thought.Build "T2" 2 3 true None None None None None None None None
    (Some [1%nat]) None (Some ["A9"]).

(** A thought that revises thought 7. *)
Definition revising_thought : Thought.t :=
  Thought.Build "T" 1 1 false (Some true) (Some 7%Z) None None None None None None
    None None None.

(** The first request of a process: no session id, no thought number. *)
Definition first_request : ThoughtRequest.t := plain_request "T1" 3 None.

(** A request for session ["s"] that gives its thought number. *)
Definition explicit_request (text : string) (thought_number total_thoughts : Z)
  : ThoughtRequest.t :=
  ThoughtRequest.Build text total_thoughts None (Some thought_number) (Some "s")
    None None None None None None None None None None None.

(** The field constraints of the two models. *)
Definition unit_interval (f : float) : bool :=
  PrimFloat.leb 0%float f && PrimFloat.leb f 1%float.

Definition valid_assumption (a : Assumption.t) : Prop :=
  Assumption.id_pattern (Assumption.id a) = true
  /\ Assumption.text a <> ""
  /\ unit_interval (Assumption.confidence a) = true.

Definition valid_thought (t : Thought.t) : Prop :=
  Thought.thought t <> ""
  /\ all_chars py_isspace (Thought.thought t) = false
  /\ (1 <= Thought.thought_number t)%Z
  /\ (1 <= Thought.total_thoughts t)%Z
  /\ (forall r, Thought.revises_thought t = Some r -> (1 <= r)%Z)
  /\ (forall b, Thought.branch_from_thought t = Some b -> (1 <= b)%Z)
  /\ (forall c, Thought.confidence t = Some c -> unit_interval c = true).

(** A thought none of whose three list fields is set. *)
Definition without_lists (t : Thought.t) : Prop :=
  Thought.assumptions t = None
  /\ Thought.depends_on_assumptions t = None
  /\ Thought.invalidates_assumptions t = None.

(** The branch index after one more thought, and the index of a log. *)
Definition index_thought (branches : dict (list Thought.t)) (t : Thought.t)
  : dict (list Thought.t) :=
  match Thought.branch_id t with
  | Some branch_id =>
      if Thought.is_branch t then
        let branches :=
          if dict_contains branch_id branches then branches
          else dict_set branch_id [] branches in
        dict_set branch_id (default [] (dict_get branch_id branches) ++ [t])%list branches
      else branches
  | None => branches
  end.

Definition branch_index (thoughts : list Thought.t) : dict (list Thought.t) :=
  fold_left index_thought thoughts [].

(** The session after the appends of one thought. *)
Definition with_thought (s : ThinkingSession.t) (t : Thought.t) : ThinkingSession.t :=
  ThinkingSession.set_branches
    (ThinkingSession.set_thoughts s (ThinkingSession._thoughts s ++ [t])%list)
    (index_thought (ThinkingSession._branches s) t).

(** A session with a plain thought and a branch, and the registry entry
    [A1] at location 0 of [example_heap]. *)
Definition listless_session : ThinkingSession.t :=
  let base := plain_thought "Base" 1 3 true in
  let branch :=
    Thought.Build "Branch" 2 3 true None None (Some 1%Z) (Some "alt") None (Some 0.5%float)
      None None None None None in
  ThinkingSession.Build [base; branch] [("alt", [branch])] [("A1", 0%nat)]
    (JList []) (JList []).

(** A sessions directory whose record [n.json] has a number under
    ["thoughts"]. *)
Definition numeric_thoughts_world : World :=
  set_files fresh_world (<["n.json" := FileJson (JDict [("thoughts", JInt 3)])]> ∅).

(** What [add_thought] may do to the Assumption objects and to the registry:
    no object is added or removed, every object keeps [id], [text] and
    [critical], and an id of the registry keeps its object. *)
Definition keeps_identity (st st' : Mem) : Prop :=
  length (fst st') = length (fst st)
  /\ (forall l, Assumption.id (deref (fst st') l) = Assumption.id (deref (fst st) l)
                /\ Assumption.text (deref (fst st') l) = Assumption.text (deref (fst st) l)
                /\ Assumption.critical (deref (fst st') l)
                   = Assumption.critical (deref (fst st) l))
  /\ (forall k l, dict_get k (ThinkingSession._assumptions (snd st)) = Some l ->
                  dict_get k (ThinkingSession._assumptions (snd st')) = Some l).

(** The registry holds the id of the object at [l], bound to an object with
    the same [text] and [critical]. *)
Definition registered (l : nat) (st : Mem) : Prop :=
  exists l0,
    dict_get (Assumption.id (deref (fst st) l)) (ThinkingSession._assumptions (snd st))
    = Some l0
    /\ Assumption.text (deref (fst st) l0) = Assumption.text (deref (fst st) l)
    /\ Assumption.critical (deref (fst st) l0) = Assumption.critical (deref (fst st) l).

(** A branch from thought 1 that declares the object [A2] of
    [example_heap]. *)
Definition branching_thought : Thought.t :=
  Thought.Build "B" 2 2 false None None (Some 1%Z) (Some "alt") None None None None
    (Some [3%nat]) None None.

(** What holds of a session while [load_session] rebuilds it on top of the
    objects [h0]: the thoughts passed validation and list no assumptions,
    the registry names objects created by the load, all valid, and the
    branch index is the index of the thoughts. *)
Definition rebuilt (h0 : list Assumption.t) (st : Mem) : Prop :=
  h0 `prefix_of` fst st
  /\ Forall (fun t => valid_thought t /\ Thought.assumptions t = None)
       (ThinkingSession._thoughts (snd st))
  /\ Forall (fun kv => (length h0 <= snd kv < length (fst st))%nat
                       /\ valid_assumption (deref (fst st) (snd kv)))
       (ThinkingSession._assumptions (snd st))
  /\ ThinkingSession._branches (snd st) = branch_index (ThinkingSession._thoughts (snd st)).

(** The sessions directory after saving [listless_session] as ["s"]. *)
Definition saved_world : World :=
  state_of (save_session "s" listless_session (set_objects fresh_world example_heap)).

(** No record of the sessions directory has changed. *)
Definition keeps_files (w w' : World) : Prop := files w' = files w.

(** A request that names a dependency. *)
Definition dependent_request : ThoughtRequest.t :=
  ThoughtRequest.Build "T1" 3 None None None None None None None None None None None
    None (Some ["A1"]) None.



(** The scoped id [x] names an assumption of a session in the cache. *)
Definition resolved (w : World) (x : string) : Prop :=
  exists target local s,
    _parse_assumption_id x = (Some target, local)
    /\ _sessions w !! target = Some s
    /\ dict_contains local (ThinkingSession._assumptions s) = true.

(** A process whose cache holds [example_session] under ["other"]. *)
Definition other_cached : World :=
  set_sessions (set_objects fresh_world example_heap) (<["other" := example_session]> ∅).


(** A request for the session id ["../etc"]. *)
Definition traversal_request : ThoughtRequest.t :=
  ThoughtRequest.Build "T" 1 None None (Some "../etc") None None None None
    None None None None None None None.



(** The registry and the objects are as they were. *)
Definition same_registry (st st' : Mem) : Prop :=
  fst st' = fst st
  /\ ThinkingSession._assumptions (snd st') = ThinkingSession._assumptions (snd st).

(** What the steps after the declarations may do: [keeps_identity], and an
    object that is falsified stays falsified. *)
Definition keeps_falsified (st st' : Mem) : Prop :=
  keeps_identity st st'
  /\ forall l, Assumption.is_falsified (deref (fst st) l) = true ->
               Assumption.is_falsified (deref (fst st') l) = true.

(** Every location the registry names holds an object. *)
Definition registry_on_heap (st : Mem) : Prop :=
  forall k l, dict_get k (ThinkingSession._assumptions (snd st)) = Some l ->
              (l < length (fst st))%nat.

(** A thought that declares the object [A2] of [example_heap] and depends on
    it, one that depends on [A1], and one that declares [A1] as verified and
    invalidates it. *)
Definition self_dependent_thought : Thought.t :=
  Thought.Build "T2" 2 3 true None None None None None None None None
    (Some [3%nat]) (Some ["A2"]) None.

Definition depending_thought : Thought.t :=
  Thought.Build "T2" 2 3 true None None None None None None None None
    None (Some ["A1"]) None.

Definition verify_and_invalidate : Thought.t :=
  Thought.Build "T2" 2 3 true None None None None None None None None
    (Some [1%nat]) None (Some ["A1"]).

(** The text of the JSON array that holds the string [A1], options that
    pass it as [--depends-on], and a decoder that knows this text. *)
Definition depends_on_text : string :=
  "[" +:+ String (ascii_of_nat 34) "A1" +:+ String (ascii_of_nat 34) "]".

Definition depends_on_options : Options.t :=
  Options.Build (Some "Building on analysis") (Some 5%Z) (Some "s") None None None None
    None None None None None (Some depends_on_text) None None None.

Definition one_text_decoder : JsonDecoder :=
  fun text => if String.eqb text depends_on_text then Some (JList [JStr "A1"]) else None.

(** The two attributes [load_session] takes from the record as they are:
    once a list, each stays a list. *)
Definition keeps_lists (st st' : Mem) : Prop :=
  ((exists l, ThinkingSession._unresolved_refs (snd st) = JList l) ->
   exists l, ThinkingSession._unresolved_refs (snd st') = JList l)
  /\ ((exists l, ThinkingSession._cross_session_warnings (snd st) = JList l) ->
      exists l, ThinkingSession._cross_session_warnings (snd st') = JList l).

(** A record whose ["cross_session_warnings"] entry is a number, and the
    session [load_session] builds from it. *)
Definition numeric_warnings_world : World :=
  set_files fresh_world
    (<["w.json" := FileJson (JDict [("cross_session_warnings", JInt 5)])]> ∅).

Definition numeric_warnings_session : ThinkingSession.t :=
  ThinkingSession.set_cross_session_warnings ThinkingSession.new (JInt 5).






(** * Proofs *)

Ltac run_monad :=
  unfold py_contains, py_append, py_get, py_items, py_iter, py_copy, self, the_heap,
    set_self, store in *;
  unfold mbind, M_bind, bind, mret, M_ret, ret, raise, get, put in *; simpl in *.

(** ** Monad laws used by the proofs *)

Lemma bind_returns {St A B} (m : M St A) (k : A -> M St B) st st' b :
  (m ≫= k) st = Returns st' b ->
  exists st1 a, m st = Returns st1 a /\ k a st1 = Returns st' b.
Proof.
  unfold mbind, M_bind, bind. destruct (m st) as [st1 a|st1 e]; [eauto|discriminate].
Qed.

Lemma bind_raises {St A B} (m : M St A) (k : A -> M St B) st st' e :
  (m ≫= k) st = Raises st' e ->
  m st = Raises st' e \/ exists st1 a, m st = Returns st1 a /\ k a st1 = Raises st' e.
Proof.
  unfold mbind, M_bind, bind. destruct (m st) as [st1 a|st1 e1].
  - intros Hk. right. eauto.
  - intros Hm. left. congruence.
Qed.

Lemma bind_step {St A B} (m : M St A) (k : A -> M St B) st st1 a o :
  m st = Returns st1 a -> k a st1 = o -> (m ≫= k) st = o.
Proof. unfold mbind, M_bind, bind. by intros -> ->. Qed.

Lemma bind_stop {St A B} (m : M St A) (k : A -> M St B) st st1 e :
  m st = Raises st1 e -> (m ≫= k) st = Raises st1 e.
Proof. unfold mbind, M_bind, bind. by intros ->. Qed.

Lemma bind_invariant {St A B} (P : St -> St -> Prop) `{!PreOrder P}
    (m : M St A) (k : A -> M St B) :
  (forall st, P st (state_of (m st))) ->
  (forall a st, P st (state_of (k a st))) ->
  forall st, P st (state_of ((m ≫= k) st)).
Proof.
  intros Hm Hk st. unfold mbind, M_bind, bind.
  pose proof (Hm st) as H1. destruct (m st) as [st1 a|st1 e]; simpl in *; [|done].
  etrans; [exact H1|]. apply Hk.
Qed.

(** ** Loops *)

Lemma for_each_raises {St A} (body : A -> M St unit) (l : list A) st st' e :
  for_each l body st = Raises st' e ->
  exists x st0, x ∈ l /\ body x st0 = Raises st' e.
Proof.
  revert st. induction l as [|x l IH]; intros st; simpl; [discriminate|].
  intros [Hx | (st1 & [] & _ & Hl)]%bind_raises.
  - exists x, st. split; [left|done].
  - destruct (IH _ Hl) as (y & st0 & Hy & Hb). exists y, st0. split; [by right|done].
Qed.

Lemma for_each_invariant {St A} (P : St -> St -> Prop) `{!PreOrder P}
    (body : A -> M St unit) (l : list A) :
  (forall x st, x ∈ l -> P st (state_of (body x st))) ->
  forall st, P st (state_of (for_each l body st)).
Proof.
  induction l as [|x l IH]; intros Hbody st; simpl; [reflexivity|].
  unfold mbind, M_bind, bind.
  pose proof (Hbody x st ltac:(left)) as Hx.
  destruct (body x st) as [st1 []|st1 e]; simpl in *; [|done].
  etrans; [exact Hx|]. apply IH. intros y st0 Hy. apply Hbody. by right.
Qed.

(** ** Session identifiers *)

Lemma skip_class_empty p s : skip_class p s = "" <-> all_chars p s = true.
Proof.
  induction s as [|c s IH]; simpl; [tauto|].
  destruct (p c); simpl; [exact IH|]. split; discriminate.
Qed.

Lemma skip_class_newline p s :
  p (ascii_of_nat 10) = false ->
  skip_class p s = newline <->
  exists body, s = body +:+ newline /\ all_chars p body = true.
Proof.
  intros Hnl. induction s as [|c s IH]; simpl.
  - split; [discriminate|]. intros (body & Hb & _). destruct body; discriminate.
  - destruct (p c) eqn:Hc.
    + rewrite IH. split.
      * intros (body & -> & Hall). exists (String c body). simpl. by rewrite Hc, Hall.
      * intros (body & Hb & Hall). destruct body as [|c' body]; simpl in *.
        -- injection Hb as -> _. unfold newline in *. congruence.
        -- injection Hb as -> ->. rewrite Hc in Hall. eauto.
    + split.
      * intros Hs. exists "". split; [|done]. exact Hs.
      * intros (body & Hb & Hall). destruct body as [|c' body]; simpl in *; [done|].
        injection Hb as -> _. by rewrite Hc in Hall.
Qed.

Lemma validate_session_id_returns {St} (s : string) (st : St) :
  _validate_session_id s st = Returns st tt <-> accepted_session_id s.
Proof.
  unfold _validate_session_id, accepted_session_id.
  destruct (String.eqb_spec s "") as [->|Hne].
  { split; [discriminate|]. intros []; done. }
  destruct (128 <? String.length s)%nat eqn:Hlen.
  { apply Nat.ltb_lt in Hlen. split; [discriminate|]. intros (_ & ? & _). lia. }
  apply Nat.ltb_ge in Hlen.
  unfold _SESSION_ID_PATTERN_match.
  destruct s as [|c s]; [done|].
  destruct (is_session_id_char c) eqn:Hc; cbn [andb negb].
  - destruct (String.eqb_spec (skip_class is_session_id_char (String c s)) "") as [He|He];
      cbn [orb negb].
    + split; [|done]. intros _. split; [done|]. split; [done|]. left.
      by apply skip_class_empty.
    + destruct (String.eqb_spec (skip_class is_session_id_char (String c s)) newline)
        as [Hn|Hn]; cbn [negb].
      * split; [|done]. intros _. split; [done|]. split; [done|]. right.
        apply skip_class_newline in Hn as (body & Hb & Hall); [|done].
        exists body. split; [|done]. intros ->. simpl in Hb. injection Hb as -> _.
        done.
      * split; [discriminate|]. intros (_ & _ & [Hall|(body & _ & Hb & Hall)]).
        -- apply skip_class_empty in Hall. done.
        -- destruct Hn. apply skip_class_newline; eauto.
  - split; [discriminate|]. intros (_ & _ & [Hall|(body & Hb0 & Hb & Hall)]).
    + simpl in Hall. by rewrite Hc in Hall.
    + destruct body as [|c' body]; [done|]. simpl in *. injection Hb as -> _.
      by rewrite Hc in Hall.
Qed.

(** C3 (the code at the failing input).  The session id ["abc\n"] holds a
    newline, a character outside letters, digits, hyphen and underscore.
    Neither path raises [InvalidIdentifier]: [_session_file_path] builds the
    storage address ["abc\n.json"], [save_session] writes that file and
    [load_session] looks it up. *)
Theorem C3_session_id_with_newline_accepted `{JsonDecoder} (session : ThinkingSession.t) :
  let session_id := "abc" +:+ newline in
  all_chars is_session_id_char session_id = false
  /\ _session_file_path session_id fresh_world = Returns fresh_world (session_id +:+ ".json")
  /\ exception_of (save_session session_id session fresh_world) = None
  /\ files (state_of (save_session session_id session fresh_world)) !! (session_id +:+ ".json")
     = Some (FileJson (session_json [] session))
  /\ load_session session_id fresh_world = Returns fresh_world None.
Proof.
  cbv zeta. repeat split; try reflexivity.
Qed.

(** ** Loading a stored record *)


(** C2 (the code at the failing input).  The stored record is the JSON
    object whose ["thoughts"] entry is the string ["not_a_list"].  The loop
    over it visits the characters of the string, and [thought_data.get]
    on the first of them raises [AttributeError], which the [except] clause
    does not name: [load_session] raises instead of returning absent. *)
Theorem C2_thoughts_not_a_list_raises `{JsonDecoder} :
  invalid_structure (AttributeError) = false
  /\ load_session "invalid" invalid_structure_world
     = Raises invalid_structure_world AttributeError.
Proof.
  split; reflexivity.
Qed.

(** ** Round trip through storage *)

Lemma parse_json_list_text `{JsonDecoder} {St} (text name : string) (l : list json) (st : St) :
  text <> "" -> text <> "null" ->
  json_loads text = Some (JList l) ->
  _parse_json_list (KJson (JStr text)) name st = Returns st (Some (KJson (JList l))).
Proof.
  intros Hne Hnull Htext. unfold _parse_json_list. cbn [hashable negb].
  repeat case_match; simplify_eq; try done.
Qed.

(** The constructor builds [cross_session_thought] when the dependency list
    comes as the JSON text of the list, the form the command line gives. *)
Lemma cross_session_thought_constructed `{JsonDecoder} `{Heaped St} (text : string)
    (st : St) :
  text <> "" -> text <> "null" ->
  json_loads text = Some (JList [JStr "other:A1"]) ->
  Thought_init
    [ ("thought", KJson (JStr "T")); ("thought_number", KJson (JInt 1));
      ("total_thoughts", KJson (JInt 1)); ("next_thought_needed", KJson (JBool false));
      ("depends_on_assumptions", KJson (JStr text)) ] st
  = Returns st cross_session_thought.
Proof.
  intros Hne Hnull Htext. unfold Thought_init.
  eapply bind_step; [reflexivity|].
  eapply bind_step; [reflexivity|].
  eapply bind_step.
  { unfold before_list_field. cbn [dict_get String.eqb Ascii.eqb Bool.eqb].
    by rewrite (parse_json_list_text text _ _ st Hne Hnull Htext). }
  eapply bind_step; [reflexivity|]. reflexivity.
Qed.

(** The same constructor call with the list itself raises. *)
Lemma list_argument_raises `{JsonDecoder} `{Heaped St} (st : St) :
  Thought_init
    [ ("thought", KJson (JStr "T")); ("thought_number", KJson (JInt 1));
      ("total_thoughts", KJson (JInt 1)); ("next_thought_needed", KJson (JBool false));
      ("depends_on_assumptions", KJson (JList [JStr "other:A1"])) ] st
  = Raises st TypeError.
Proof. reflexivity. Qed.

(** C1 (the code at the failing input).  The session holds one thought whose
    [depends_on_assumptions] is a list.  Saving it writes that list into the
    record; on loading, the constructor of the thought hands the list to
    [_parse_json_list], whose set lookup raises [TypeError], and
    [load_session] answers absent: no session with one thought comes back. *)
Theorem C1_saved_session_loads_as_absent `{JsonDecoder} :
  exception_of (add_thought cross_session_thought None ([], ThinkingSession.new)) = None
  /\ ThinkingSession.thought_count cross_session_session = 1%Z
  /\ exception_of (save_session "s" cross_session_session fresh_world) = None
  /\ let saved := state_of (save_session "s" cross_session_session fresh_world) in
     load_session "s" saved = Returns saved None.
Proof.
  repeat split; reflexivity.
Qed.

(** ** An append that raises leaves the log alone *)

#[local] Instance same_log_preorder : PreOrder same_log.
Proof.
  split.
  - intros st. split; reflexivity.
  - intros a b c [H1 H2] [H3 H4]. split; congruence.
Qed.

Lemma depend_on_same_log validated x st : same_log st (state_of (depend_on validated x st)).
Proof.
  unfold depend_on. run_monad. repeat case_match; simplify_eq; simpl; split; reflexivity.
Qed.

Lemma upsert_same_log l st : same_log st (state_of (upsert l st)).
Proof.
  unfold upsert. run_monad. repeat case_match; simplify_eq; simpl; split; reflexivity.
Qed.

Lemma invalidate_same_log x st : same_log st (state_of (invalidate x st)).
Proof.
  unfold invalidate. run_monad. repeat case_match; simplify_eq; simpl; split; reflexivity.
Qed.

Lemma validate_references_state {St} (t : Thought.t) numbers (st : St) :
  state_of (Thought.validate_references t numbers st) = st.
Proof.
  unfold Thought.validate_references. run_monad. repeat case_match; simplify_eq; reflexivity.
Qed.

Lemma append_thought_returns t st : exists st', append_thought t st = Returns st' tt.
Proof.
  unfold append_thought. run_monad. repeat case_match; simplify_eq; eauto.
Qed.

Lemma add_thought_steps thought validated st :
  add_thought thought validated st =
  (before_append (Thought.auto_adjust_total thought) validated;;
   append_thought (Thought.auto_adjust_total thought);;
   ret (Thought.auto_adjust_total thought)) st.
Proof.
  unfold add_thought, before_append. run_monad.
  repeat (case_match; simplify_eq; try reflexivity).
Qed.

Lemma before_append_same_log thought validated st :
  same_log st (state_of (before_append thought validated st)).
Proof.
  unfold before_append.
  apply bind_invariant; [apply _|intros; reflexivity|]. intros s st0.
  apply bind_invariant; [apply _| |].
  { intros st1. rewrite validate_references_state. reflexivity. }
  intros _ st1. apply bind_invariant; [apply _| |].
  { apply for_each_invariant; [apply _|]. intros. apply depend_on_same_log. }
  intros _ st2. apply bind_invariant; [apply _| |].
  { apply for_each_invariant; [apply _|]. intros. apply upsert_same_log. }
  intros _ st3. apply for_each_invariant; [apply _|]. intros. apply invalidate_same_log.
Qed.

Lemma add_thought_raises thought validated st st' e :
  add_thought thought validated st = Raises st' e ->
  before_append (Thought.auto_adjust_total thought) validated st = Raises st' e.
Proof.
  rewrite add_thought_steps.
  intros [Hb | (st1 & [] & _ & Ha)]%bind_raises; [done|].
  apply bind_raises in Ha as [Ha | (st2 & [] & _ & Hr)].
  - destruct (append_thought_returns (Thought.auto_adjust_total thought) st1) as [st2 Hst2].
    congruence.
  - discriminate.
Qed.

(** C8.  When [add_thought] raises, whatever the error, the session's list of
    thoughts and its branch index are those it had before the call: the
    thought was not appended and no branch was created or extended.  (The
    Assumption objects are another matter: what the call wrote to the heap
    and to the registry before raising stays written.) *)
Theorem C8_aborted_append_keeps_log (thought : Thought.t) (validated : option (list string))
    (h h' : heap) (s s' : ThinkingSession.t) (e : exn) :
  add_thought thought validated (h, s) = Raises (h', s') e ->
  ThinkingSession._thoughts s' = ThinkingSession._thoughts s
  /\ ThinkingSession._branches s' = ThinkingSession._branches s
  /\ ThinkingSession.thought_count s' = ThinkingSession.thought_count s
  /\ ThinkingSession.branch_ids s' = ThinkingSession.branch_ids s.
Proof.
  intros Hraise%add_thought_raises.
  pose proof (before_append_same_log (Thought.auto_adjust_total thought) validated (h, s))
    as [Ht Hb].
  rewrite Hraise in Ht, Hb. simpl in Ht, Hb.
  unfold ThinkingSession.thought_count, ThinkingSession.branch_ids.
  rewrite Ht, Hb. done.
Qed.

(** C8 at [failing_thought]: the append raises [UnknownAssumption] and the
    log is the one of [example_session]. *)
Lemma C8_aborted_append_witness :
  exception_of (add_thought failing_thought None (example_heap, example_session))
  = Some (ValueError (Msg_invalidate_not_found "A9" (AvailList ["A1"])))
  /\ ThinkingSession._thoughts
       (snd (state_of (add_thought failing_thought None (example_heap, example_session))))
     = ThinkingSession._thoughts example_session
  /\ ThinkingSession._branches
       (snd (state_of (add_thought failing_thought None (example_heap, example_session))))
     = ThinkingSession._branches example_session.
Proof.
  split; [reflexivity|].
  destruct (C8_aborted_append_keeps_log failing_thought None example_heap
              (fst (state_of (add_thought failing_thought None (example_heap, example_session))))
              example_session
              (snd (state_of (add_thought failing_thought None (example_heap, example_session))))
              (ValueError (Msg_invalidate_not_found "A9" (AvailList ["A1"])))
              eq_refl) as (Ht & Hb & _).
  split; [exact Ht|exact Hb].
Defined.

(** What the aborted append of [failing_thought] left behind: the object
    declared by thought 1 has the confidence of the re-declaration, and the
    record a later save writes for thought 1 differs from the one a save
    before the aborted append would have written. *)
Lemma aborted_append_keeps_upsert :
  let after := state_of (add_thought failing_thought None (example_heap, example_session)) in
  Assumption.confidence (deref example_heap 0%nat) = 0.5%float
  /\ Assumption.confidence (deref (fst after) 0%nat) = 0.75%float
  /\ thought_json (fst after) <$> ThinkingSession._thoughts (snd after)
     <> thought_json example_heap <$> ThinkingSession._thoughts example_session.
Proof. repeat split; [reflexivity..|discriminate]. Qed.

(** ** [sorted] sorts *)

Section Sorted.
Context {A : Type} (leb : A -> A -> bool).
Hypothesis leb_total : forall x y, leb x y = true \/ leb y x = true.

Let le (x y : A) : Prop := leb x y = true.

Lemma insert_sorted_perm (x : A) (l : list A) : Permutation (x :: l) (insert_sorted leb x l).
Proof.
  induction l as [|y l IH]; simpl; [reflexivity|].
  destruct (leb x y); [reflexivity|].
  rewrite perm_swap. by constructor.
Qed.

Lemma insert_sorted_sorted (x : A) (l : list A) :
  Sorted le l -> Sorted le (insert_sorted leb x l).
Proof.
  induction 1 as [|y l Hl IH Hhd]; simpl; [repeat constructor|].
  destruct (leb x y) eqn:Hxy.
  - constructor; [by constructor|]. by constructor.
  - constructor; [exact IH|].
    assert (le y x) as Hyx by (destruct (leb_total x y); [congruence|done]).
    destruct Hhd as [|z l Hyz]; simpl; [by constructor|].
    destruct (leb x z); by constructor.
Qed.

Lemma sorted_perm (l : list A) : Permutation l (sorted leb l).
Proof.
  induction l as [|x l IH]; simpl; [reflexivity|].
  etrans; [|apply insert_sorted_perm]. by constructor.
Qed.

Lemma sorted_sorted (l : list A) : Sorted le (sorted leb l).
Proof.
  induction l as [|x l IH]; simpl; [constructor|]. by apply insert_sorted_sorted.
Qed.

End Sorted.

(** The ids an [UnknownAssumption] message lists: the keys of the registry in
    ascending order, or the marker [AvailNone] when there is none. *)
Lemma known_ids_sorted (s : ThinkingSession.t) :
  match known_ids s with
  | AvailNone => ThinkingSession._assumptions s = []
  | AvailList l =>
      Sorted (fun a b => String.leb a b = true) l
      /\ Permutation (dict_keys (ThinkingSession._assumptions s)) l
  end.
Proof.
  unfold known_ids, avail.
  pose proof (sorted_perm String.leb (dict_keys (ThinkingSession._assumptions s))) as Hp.
  pose proof (sorted_sorted String.leb String.leb_total
                (dict_keys (ThinkingSession._assumptions s))) as Hs.
  destruct (sorted String.leb (dict_keys (ThinkingSession._assumptions s))) as [|x l] eqn:E.
  - apply Permutation_sym, Permutation_nil in Hp.
    unfold dict_keys in Hp. by apply map_eq_nil in Hp.
  - split; [exact Hs | exact Hp].
Qed.

(** ** Dictionaries *)

Lemma dict_get_set_eq {V} (k : string) (v : V) (d : dict V) :
  dict_get k (dict_set k v d) = Some v.
Proof.
  induction d as [|[k' v'] d IH]; simpl.
  - by rewrite String.eqb_refl.
  - destruct (String.eqb k k') eqn:E; simpl; rewrite ?String.eqb_refl, ?E; done.
Qed.

Lemma dict_get_set_ne {V} (k k' : string) (v : V) (d : dict V) :
  k <> k' -> dict_get k' (dict_set k v d) = dict_get k' d.
Proof.
  intros Hne. induction d as [|[k0 v0] d IH]; simpl.
  - destruct (String.eqb_spec k' k); [congruence|done].
  - destruct (String.eqb_spec k k0) as [->|Hk]; simpl.
    + destruct (String.eqb_spec k' k0); [congruence|done].
    + destruct (String.eqb_spec k' k0); [done|exact IH].
Qed.

Lemma dict_get_keys {V} (k : string) (v : V) (d : dict V) :
  dict_get k d = Some v -> k ∈ dict_keys d.
Proof.
  induction d as [|[k' v'] d IH]; simpl; [discriminate|].
  destruct (String.eqb_spec k k') as [->|Hne]; intros Hg.
  - left.
  - right. by apply IH.
Qed.

(** ** Assumption registry: upsert *)

Lemma falsified_after (h : heap) (s : ThinkingSession.t) (k : string) (l : loc) :
  dict_get k (ThinkingSession._assumptions s) = Some l ->
  Assumption.is_falsified (deref h l) = true ->
  k ∈ ThinkingSession.falsified_assumptions h s.
Proof.
  unfold ThinkingSession.falsified_assumptions, ThinkingSession.all_assumptions, dict_keys.
  generalize (ThinkingSession._assumptions s) as d.
  induction d as [|[k' l'] d IH]; simpl; [discriminate|].
  destruct (String.eqb_spec k k') as [->|Hne]; intros Hg Hf.
  - injection Hg as ->. rewrite Hf. left.
  - destruct (Assumption.is_falsified (deref h l')); simpl; [right|]; by apply IH.
Qed.

(** C6.  Declaring the Assumption object at [assumption] (the body of the
    loop over [thought.assumptions]).  With [new] the declared object and
    [old] the object the registry holds under the same id:
    - same [text] and [critical]: the call returns, the registry and every
      other object are untouched, and the stored object keeps its [id],
      [text] and [critical] and takes [confidence], [verifiable], [evidence]
      and [verification_status] from [new];
    - another [text], or the same [text] and another [critical]: the call
      raises an [ImmutableFieldViolation] that carries the stored and the new
      value, and nothing is written;
    - an id the registry does not hold: the object is put under its id. *)
Theorem C6_upsert (h : heap) (s : ThinkingSession.t) (assumption : loc) :
  let new := deref h assumption in
  let registry := ThinkingSession._assumptions s in
  (forall existing, dict_get (Assumption.id new) registry = Some existing ->
     existing < length h ->
     let old := deref h existing in
     (Assumption.text old = Assumption.text new ->
      Assumption.critical old = Assumption.critical new ->
      exists h',
        upsert assumption (h, s) = Returns (h', s) tt
        /\ (forall l, l <> existing -> deref h' l = deref h l)
        /\ length h' = length h
        /\ Assumption.id (deref h' existing) = Assumption.id old
        /\ Assumption.text (deref h' existing) = Assumption.text old
        /\ Assumption.critical (deref h' existing) = Assumption.critical old
        /\ Assumption.confidence (deref h' existing) = Assumption.confidence new
        /\ Assumption.verifiable (deref h' existing) = Assumption.verifiable new
        /\ Assumption.evidence (deref h' existing) = Assumption.evidence new
        /\ Assumption.verification_status (deref h' existing)
           = Assumption.verification_status new)
     /\ (Assumption.text old <> Assumption.text new ->
         exists m,
           upsert assumption (h, s) = Raises (h, s) (ValueError m)
           /\ kind_of m = ImmutableFieldViolation
           /\ m = Msg_text_mismatch (Assumption.id new) (Assumption.text old)
                    (Assumption.text new))
     /\ (Assumption.text old = Assumption.text new ->
         Assumption.critical old <> Assumption.critical new ->
         exists m,
           upsert assumption (h, s) = Raises (h, s) (ValueError m)
           /\ kind_of m = ImmutableFieldViolation
           /\ m = Msg_critical_mismatch (Assumption.id new) (Assumption.critical old)
                    (Assumption.critical new)))
  /\ (dict_get (Assumption.id new) registry = None ->
      exists registry',
        upsert assumption (h, s) = Returns (h, ThinkingSession.set_assumptions s registry') tt
        /\ dict_get (Assumption.id new) registry' = Some assumption
        /\ (forall k, k <> Assumption.id new -> dict_get k registry' = dict_get k registry)).
Proof.
  intros new registry. split.
  - intros existing Hget Hlen old. unfold upsert. run_monad.
    fold new. fold registry. rewrite Hget. fold old. repeat split.
    + intros Htext Hcrit. rewrite Htext, String.eqb_refl, Hcrit, Bool.eqb_reflx. simpl.
      exists (<[existing := overwrite_mutable old new]> h).
      split; [destruct s; reflexivity|]. split.
      { intros l Hl. unfold deref. by rewrite list_lookup_total_insert_ne. }
      split; [apply length_insert|].
      assert (deref (<[existing := overwrite_mutable old new]> h) existing
              = overwrite_mutable old new) as ->.
      { unfold deref. by rewrite list_lookup_total_insert_eq. }
      repeat split; simpl; congruence.
    + intros Htext. apply String.eqb_neq in Htext. rewrite Htext. simpl.
      eexists. split; [destruct s; reflexivity|]. split; reflexivity.
    + intros Htext Hcrit. rewrite Htext, String.eqb_refl. simpl.
      apply Bool.eqb_false_iff in Hcrit. rewrite Hcrit. simpl.
      eexists. split; [destruct s; reflexivity|]. split; reflexivity.
  - intros Hget. unfold upsert. run_monad. fold new. fold registry. rewrite Hget.
    eexists. split; [reflexivity|]. split; [apply dict_get_set_eq|].
    intros k Hk. by apply dict_get_set_ne.
Qed.

(** C6 at the objects of [example_heap]: the re-declaration at location 1,
    the re-declaration with another text at location 2, the new id at
    location 3. *)
Lemma C6_upsert_witness :
  (exists h',
     upsert 1%nat (example_heap, example_session) = Returns (h', example_session) tt
     /\ Assumption.text (deref h' 0%nat) = "x"
     /\ Assumption.confidence (deref h' 0%nat) = 0.75%float
     /\ Assumption.verification_status (deref h' 0%nat) = Some verified_true)
  /\ (exists m,
        upsert 2%nat (example_heap, example_session)
        = Raises (example_heap, example_session) (ValueError m)
        /\ m = Msg_text_mismatch "A1" "x" "y")
  /\ (exists registry',
        upsert 3%nat (example_heap, example_session)
        = Returns (example_heap, ThinkingSession.set_assumptions example_session registry') tt
        /\ dict_get "A2" registry' = Some 3%nat).
Proof.
  split; [|split].
  - destruct (proj1 (C6_upsert example_heap example_session 1%nat) 0%nat eq_refl
                ltac:(simpl; lia)) as (Hsame & _).
    destruct (Hsame eq_refl eq_refl) as (h' & Hu & _ & _ & _ & Ht & _ & Hc & _ & _ & Hs).
    exists h'. split; [exact Hu|]. split; [exact Ht|]. split; [exact Hc|exact Hs].
  - destruct (proj1 (C6_upsert example_heap example_session 2%nat) 0%nat eq_refl
                ltac:(simpl; lia)) as (_ & Htext & _).
    destruct (Htext ltac:(discriminate)) as (m & Hu & _ & Hm).
    exists m. split; [exact Hu|exact Hm].
  - destruct (proj2 (C6_upsert example_heap example_session 3%nat) eq_refl)
      as (registry' & Hu & Hg & _).
    exists registry'. split; [exact Hu|exact Hg].
Defined.

(** ** Reference validation *)

Lemma depend_on_raises validated x st st' e :
  depend_on validated x st = Raises st' e -> ~ dangling e.
Proof.
  unfold depend_on. run_monad. intros Hr (m & -> & Hk).
  repeat case_match; simplify_eq; discriminate.
Qed.

Lemma upsert_raises l st st' e : upsert l st = Raises st' e -> ~ dangling e.
Proof.
  unfold upsert. run_monad. intros Hr (m & -> & Hk).
  repeat case_match; simplify_eq; discriminate.
Qed.

Lemma invalidate_raises x st st' e : invalidate x st = Raises st' e -> ~ dangling e.
Proof.
  unfold invalidate. run_monad. intros Hr (m & -> & Hk).
  repeat case_match; simplify_eq; discriminate.
Qed.

Lemma append_thought_spec (t : Thought.t) (h : heap) (s : ThinkingSession.t) :
  exists s', append_thought t (h, s) = Returns (h, s') tt
             /\ ThinkingSession._thoughts s' = (ThinkingSession._thoughts s ++ [t])%list
             /\ ThinkingSession._assumptions s' = ThinkingSession._assumptions s
             /\ ThinkingSession._unresolved_refs s' = ThinkingSession._unresolved_refs s
             /\ ThinkingSession._cross_session_warnings s'
                = ThinkingSession._cross_session_warnings s.
Proof.
  unfold append_thought. run_monad. repeat case_match; eexists; split; try reflexivity; done.
Qed.

Section References.
Context {St : Type} (t : Thought.t) (numbers : gset Z) (st : St).

Let revision_dangles (r : Z) : Prop :=
  Thought.is_revision t = Some true /\ Thought.revises_thought t = Some r /\ r ∉ numbers.

Let branch_dangles (b : Z) : Prop :=
  Thought.is_branch t = true /\ Thought.branch_from_thought t = Some b /\ b ∉ numbers.

Lemma validate_references_revision (r : Z) :
  revision_dangles r ->
  Thought.validate_references t numbers st =
  Raises st (ValueError (if bool_decide (numbers = ∅) then Msg_revise_empty r
                         else Msg_revise_not_found r (sorted Z.leb (elements numbers)))).
Proof.
  intros (Hrev & Hr & Hnot). unfold Thought.validate_references. run_monad.
  rewrite Hrev, Hr. rewrite bool_decide_true by done. rewrite bool_decide_false by done.
  by destruct (bool_decide (numbers = ∅)).
Qed.

Lemma revision_check_cases :
  (forall r, ~ revision_dangles r) ->
  bool_decide (Thought.is_revision t = Some true) = false
  \/ Thought.revises_thought t = None
  \/ exists r, Thought.revises_thought t = Some r /\ bool_decide (r ∈ numbers) = true.
Proof.
  intros Hno. case_bool_decide as Hrev; [|by left]. right.
  destruct (Thought.revises_thought t) as [r|] eqn:Hr; [|by left]. right.
  exists r. split; [done|]. case_bool_decide as Hin; [done|]. destruct (Hno r). done.
Qed.

Lemma validate_references_branch (b : Z) :
  (forall r, ~ revision_dangles r) ->
  branch_dangles b ->
  Thought.validate_references t numbers st =
  Raises st (ValueError (if bool_decide (numbers = ∅) then Msg_branch_empty b
                         else Msg_branch_not_found b (sorted Z.leb (elements numbers)))).
Proof.
  intros Hno (Hbr & Hb & Hnot). unfold Thought.validate_references. run_monad.
  rewrite Hbr, Hb. rewrite (bool_decide_false (b ∈ numbers)) by done.
  destruct (revision_check_cases Hno) as [-> | [-> | (r & -> & ->)]];
    destruct (bool_decide (Thought.is_revision t = Some true));
    by destruct (bool_decide (numbers = ∅)).
Qed.

Lemma validate_references_passes :
  (forall r, ~ revision_dangles r) ->
  (forall b, ~ branch_dangles b) ->
  Thought.validate_references t numbers st = Returns st tt.
Proof.
  intros Hnor Hnob. unfold Thought.validate_references. run_monad.
  assert (Thought.is_branch t = false
          \/ Thought.branch_from_thought t = None
          \/ exists b, Thought.branch_from_thought t = Some b
                       /\ bool_decide (b ∈ numbers) = true) as Hbranch.
  { destruct (Thought.is_branch t) eqn:Hbr; [|by left]. right.
    destruct (Thought.branch_from_thought t) as [b|] eqn:Hb; [|by left]. right.
    exists b. split; [done|]. case_bool_decide as Hin; [done|]. destruct (Hnob b). done. }
  destruct (revision_check_cases Hnor) as [-> | [-> | (r & -> & ->)]];
    destruct (bool_decide (Thought.is_revision t = Some true));
    destruct Hbranch as [-> | [-> | (b & -> & ->)]];
    by destruct (Thought.is_branch t).
Qed.

End References.

Lemma auto_adjust_total_fields (t : Thought.t) :
  Thought.is_revision (Thought.auto_adjust_total t) = Thought.is_revision t
  /\ Thought.revises_thought (Thought.auto_adjust_total t) = Thought.revises_thought t
  /\ Thought.is_branch (Thought.auto_adjust_total t) = Thought.is_branch t
  /\ Thought.branch_from_thought (Thought.auto_adjust_total t) = Thought.branch_from_thought t
  /\ Thought.thought_number (Thought.auto_adjust_total t) = Thought.thought_number t
  /\ Thought.next_thought_needed (Thought.auto_adjust_total t) = Thought.next_thought_needed t
  /\ Thought.total_thoughts (Thought.auto_adjust_total t)
     = Z.max (Thought.thought_number t) (Thought.total_thoughts t).
Proof. by destruct t. Qed.

Lemma no_numbers (l : list Thought.t) :
  (list_to_set (map Thought.thought_number l) : gset Z) = ∅ <-> l = [].
Proof.
  split; [|by intros ->]. destruct l as [|t l]; [done|]. simpl. set_solver.
Qed.

Lemma before_append_raises_not_dangling thought validated st st' e :
  Thought.validate_references thought
    (list_to_set (map Thought.thought_number (ThinkingSession._thoughts (snd st)))) st
  = Returns st tt ->
  before_append thought validated st = Raises st' e -> ~ dangling e.
Proof.
  intros Hok. unfold before_append.
  intros [Hs | (st1 & s & Hs & Hrest)]%bind_raises; [discriminate|].
  unfold self in Hs. simplify_eq.
  apply bind_raises in Hrest as [Hv | (st2 & [] & Hv & Hrest)];
    pose proof (eq_trans (eq_sym Hok) Hv) as Heq; [discriminate|]. simplify_eq.
  apply bind_raises in Hrest as [Hd | (st3 & [] & _ & Hrest)].
  { apply for_each_raises in Hd as (x & st0 & _ & Hx). by eapply depend_on_raises. }
  apply bind_raises in Hrest as [Hu | (st4 & [] & _ & Hi)].
  { apply for_each_raises in Hu as (x & st0 & _ & Hx). by eapply upsert_raises. }
  apply for_each_raises in Hi as (x & st0 & _ & Hx). by eapply invalidate_raises.
Qed.

(** C4 (amended).  A revision reference counts when [is_revision] is true, a
    branch reference when the thought is a branch ([branch_from_thought] and
    a non-empty [branch_id]).  With [numbers] the thought numbers in the log
    before the append:
    - a revision reference that counts and is not in [numbers] makes
      [add_thought] raise [DanglingReference] citing it, and the session is
      unchanged; the message advises [session_id] exactly when the log is
      empty;
    - otherwise a branch reference that counts and is not in [numbers] does
      the same;
    - when no reference that counts is missing, [add_thought] never raises
      [DanglingReference], and it returns, appending the thought, when the
      thought names no assumption. *)
Theorem C4_dangling_reference (thought : Thought.t) (validated : option (list string))
    (h : heap) (s : ThinkingSession.t) :
  let numbers := map Thought.thought_number (ThinkingSession._thoughts s) in
  let revision_dangles r :=
    Thought.is_revision thought = Some true
    /\ Thought.revises_thought thought = Some r /\ r ∉ numbers in
  let branch_dangles b :=
    Thought.is_branch thought = true
    /\ Thought.branch_from_thought thought = Some b /\ b ∉ numbers in
  let fails_citing n :=
    exists m,
      add_thought thought validated (h, s) = Raises (h, s) (ValueError m)
      /\ kind_of m = DanglingReference
      /\ cited_number m = Some n
      /\ (advises_session_id m = true <-> ThinkingSession._thoughts s = []) in
  (forall r, revision_dangles r -> fails_citing r)
  /\ (forall b, (forall r, ~ revision_dangles r) -> branch_dangles b -> fails_citing b)
  /\ ((forall r, ~ revision_dangles r) -> (forall b, ~ branch_dangles b) ->
      (forall st' e, add_thought thought validated (h, s) = Raises st' e -> ~ dangling e)
      /\ (Thought.depends_on_assumptions thought = None ->
          Thought.assumptions thought = None ->
          Thought.invalidates_assumptions thought = None ->
          exists s',
            add_thought thought validated (h, s)
            = Returns (h, s') (Thought.auto_adjust_total thought)
            /\ ThinkingSession._thoughts s'
               = (ThinkingSession._thoughts s ++ [Thought.auto_adjust_total thought])%list)).
Proof.
  intros numbers revision_dangles branch_dangles fails_citing.
  pose proof (auto_adjust_total_fields thought) as (Hf1 & Hf2 & Hf3 & Hf4 & _).
  set (adjusted := Thought.auto_adjust_total thought) in *.
  set (known := (list_to_set numbers : gset Z)).
  assert (forall n, n ∉ numbers <-> n ∉ known) as Hmem.
  { intros n. unfold known. by rewrite elem_of_list_to_set. }
  assert (forall m, Thought.validate_references adjusted known (h, s) = Raises (h, s) m ->
                    add_thought thought validated (h, s) = Raises (h, s) m) as Hval.
  { intros m Hm. rewrite add_thought_steps. apply bind_stop.
    eapply bind_step; [reflexivity|]. apply bind_stop. exact Hm. }
  assert (bool_decide (known = ∅) = true <-> ThinkingSession._thoughts s = []) as Hempty.
  { rewrite bool_decide_eq_true. apply no_numbers. }
  repeat split.
  - intros r (Hrev & Hr & Hnot). eexists. split.
    { apply Hval. apply validate_references_revision.
      rewrite Hf1, Hf2. split; [done|]. split; [done|]. by apply Hmem. }
    destruct (bool_decide (known = ∅)) eqn:E; simpl; repeat split; try done.
    + intros _. by apply Hempty.
    + intros Hs. apply Hempty in Hs. congruence.
  - intros b Hno (Hbr & Hb & Hnot). eexists. split.
    { apply Hval. apply validate_references_branch.
      - intros r (H1 & H2 & H3). apply (Hno r). rewrite Hf1, Hf2 in *.
        split; [done|]. split; [done|]. by apply Hmem.
      - rewrite Hf3, Hf4. split; [done|]. split; [done|]. by apply Hmem. }
    destruct (bool_decide (known = ∅)) eqn:E; simpl; repeat split; try done.
    + intros _. by apply Hempty.
    + intros Hs. apply Hempty in Hs. congruence.
  - intros st' e Hraise%add_thought_raises. fold adjusted in Hraise.
    eapply before_append_raises_not_dangling; [|exact Hraise]. simpl.
    fold numbers. fold known. apply validate_references_passes.
    + intros r (H1 & H2 & H3). apply (H r). rewrite Hf1, Hf2 in *.
      split; [done|]. split; [done|]. by apply Hmem.
    + intros b (H1 & H2 & H3). apply (H0 b). rewrite Hf3, Hf4 in *.
      split; [done|]. split; [done|]. by apply Hmem.
  - intros Hd Ha Hi.
    destruct (append_thought_spec adjusted h s) as (s' & Happ & Hlog & _).
    exists s'. split; [|exact Hlog].
    rewrite add_thought_steps. fold adjusted. unfold before_append.
    assert (Thought.validate_references adjusted known (h, s) = Returns (h, s) tt) as Hok.
    { apply validate_references_passes.
      + intros r (H1 & H2 & H3). apply (H r). rewrite Hf1, Hf2 in *.
        split; [done|]. split; [done|]. by apply Hmem.
      + intros b (H1 & H2 & H3). apply (H0 b). rewrite Hf3, Hf4 in *.
        split; [done|]. split; [done|]. by apply Hmem. }
    assert (Thought.depends_on_assumptions adjusted = None) as -> by (by destruct thought).
    assert (Thought.assumptions adjusted = None) as -> by (by destruct thought).
    assert (Thought.invalidates_assumptions adjusted = None) as -> by (by destruct thought).
    eapply bind_step.
    { eapply bind_step; [reflexivity|]. eapply bind_step; [exact Hok|]. reflexivity. }
    eapply bind_step; [exact Happ|]. reflexivity.
Qed.

(** C4 at [revising_thought] on the empty session, and at a thought with
    no reference. *)
Lemma C4_dangling_reference_witness :
  (exists m,
     add_thought revising_thought None ([], ThinkingSession.new)
     = Raises ([], ThinkingSession.new) (ValueError m)
     /\ kind_of m = DanglingReference
     /\ cited_number m = Some 7%Z
     /\ advises_session_id m = true)
  /\ (exists s',
        add_thought (plain_thought "T" 1 3 true) None ([], ThinkingSession.new)
        = Returns ([], s') (plain_thought "T" 1 3 true)).
Proof.
  split.
  - destruct (proj1 (C4_dangling_reference revising_thought None [] ThinkingSession.new)
                7%Z ltac:(repeat split; set_solver)) as (m & Hr & Hk & Hc & Ha).
    exists m. split; [exact Hr|]. split; [exact Hk|]. split; [exact Hc|]. by apply Ha.
  - destruct (proj2 (proj2 (C4_dangling_reference (plain_thought "T" 1 3 true) None []
                              ThinkingSession.new))
                ltac:(intros r (Hr & _); discriminate)
                ltac:(intros b (Hb & _); discriminate)) as (_ & Hreturns).
    destruct (Hreturns eq_refl eq_refl eq_refl) as (s' & Hadd & _).
    exists s'. exact Hadd.
Defined.

(** C4 (counterexample).  The thought names thought 7 in [revises_thought]
    and in [branch_from_thought], the log is empty, and [is_revision] and
    [branch_id] are not set: neither reference counts, [add_thought] returns
    and the thought is in the log. *)
Lemma C4_unflagged_reference_is_not_checked :
  let thought :=
    Thought.Build "T" 1 1 false None (Some 7%Z) (Some 7%Z) None None None None None
      None None None in
  let outcome := add_thought thought None ([], ThinkingSession.new) in
  exception_of outcome = None
  /\ ThinkingSession._thoughts (snd (state_of outcome)) = [thought].
Proof. split; reflexivity. Qed.

(** ** The thought built by the service *)

Lemma Thought_fields_required (kw : dict kwarg) a d i (t : Thought.t) :
  Thought_fields kw a d i = Some t ->
  Pydantic.required Pydantic.positive_int "thought_number" kw = Some (Thought.thought_number t)
  /\ Pydantic.required Pydantic.positive_int "total_thoughts" kw
     = Some (Thought.total_thoughts t)
  /\ Pydantic.required Pydantic.strict_bool "next_thought_needed" kw
     = Some (Thought.next_thought_needed t).
Proof.
  unfold Thought_fields. intros Hf.
  destruct (Pydantic.required Pydantic.nonempty_str "thought" kw); [|done]. simpl in Hf.
  destruct (_validate_thought_not_empty _); [|done]. simpl in Hf.
  destruct (Pydantic.required Pydantic.positive_int "thought_number" kw); [|done]. simpl in Hf.
  destruct (Pydantic.required Pydantic.positive_int "total_thoughts" kw); [|done]. simpl in Hf.
  destruct (Pydantic.required Pydantic.strict_bool "next_thought_needed" kw); [|done].
  simpl in Hf.
  repeat match type of Hf with
         | (?o ≫= _) = Some _ => destruct o; [simpl in Hf|done]
         end.
  by simplify_eq.
Qed.

Lemma parse_json_list_state `{JsonDecoder} {St} value name (st : St) :
  state_of (_parse_json_list value name st) = st.
Proof.
  unfold _parse_json_list. run_monad. repeat case_match; reflexivity.
Qed.

Lemma before_list_field_state `{JsonDecoder} {St} name kw (st st' : St) r :
  before_list_field name kw st = Returns st' r -> st' = st.
Proof.
  unfold before_list_field. destruct (dict_get name kw) as [v|]; [|by intros [= <- _]].
  pose proof (parse_json_list_state v name st) as Hst.
  destruct (_parse_json_list v name st) as [st1 x|st1 e]; simpl in Hst; subst.
  - by intros [= <- _].
  - destruct e; try discriminate. by intros [= <- _].
Qed.

(** Without a JSON text to parse, a before-validator hands on nothing. *)
Lemma before_list_field_no_text `{JsonDecoder} {St} name kw (st st' : St) r :
  (forall text, dict_get name kw = Some (KJson (JStr text)) -> text = "") ->
  before_list_field name kw st = Returns st' r -> r = None \/ r = Some None.
Proof.
  unfold before_list_field. intros Htext.
  destruct (dict_get name kw) as [[[| [] |n|f|text|l|l]|objs]|]; simpl;
    try discriminate; try (intros [= _ <-]; auto; fail).
  rewrite (Htext text eq_refl). intros [= _ <-]. auto.
Qed.

Lemma Thought_init_returns `{JsonDecoder} `{Heaped St} kw (st st' : St) (t : Thought.t) :
  Thought_init kw st = Returns st' t ->
  exists a d i, Thought_fields kw a d i = Some t.
Proof.
  unfold Thought_init.
  intros (st1 & a0 & _ & Hrest)%bind_returns.
  apply bind_returns in Hrest as (st2 & a & _ & Hrest).
  apply bind_returns in Hrest as (st3 & d & _ & Hrest).
  apply bind_returns in Hrest as (st4 & i & _ & Hrest).
  destruct (Thought_fields kw a d i) as [t'|] eqn:Hf; [|discriminate].
  injection Hrest as <- <-. eauto.
Qed.

(** The constructor creates objects only from a JSON text given for
    [assumptions]; without one it leaves the state as it is. *)
Lemma Thought_init_state `{JsonDecoder} `{Heaped St} kw (st : St) :
  (forall text, dict_get "assumptions" kw = Some (KJson (JStr text)) -> text = "") ->
  state_of (Thought_init kw st) = st.
Proof.
  intros Htext.
  assert (forall name (st0 : St), state_of (before_list_field name kw st0) = st0) as Hb.
  { intros name st0. unfold before_list_field. destruct (dict_get name kw) as [v|]; [|done].
    pose proof (parse_json_list_state v name st0) as Hs.
    destruct (_parse_json_list v name st0) as [?|? []]; simpl in *; done. }
  assert (forall {A B} (m : M St A) (k : A -> M St B) st0,
             (forall st1, state_of (m st1) = st1) -> (forall a st1, state_of (k a st1) = st1) ->
             state_of ((m ≫= k) st0) = st0) as Hbind.
  { intros A B m k st0 Hm Hk. unfold mbind, M_bind, bind. specialize (Hm st0).
    destruct (m st0); simpl in *; subst; [apply Hk|done]. }
  unfold Thought_init. unfold mbind at 1, M_bind at 1, bind at 1.
  pose proof (Hb "assumptions" st) as Hst.
  destruct (before_list_field "assumptions" kw st) as [st1 a0|st1 e] eqn:Ha;
    cbn [state_of] in Hst; subst st1; [|done].
  apply before_list_field_no_text in Ha as [-> | ->]; [| |exact Htext].
  - apply Hbind; [done|]. intros a st1.
    apply Hbind; [apply Hb|]. intros d st2.
    apply Hbind; [apply Hb|]. intros i st3.
    by destruct (Thought_fields kw a d i).
  - apply Hbind; [done|]. intros a st1.
    apply Hbind; [apply Hb|]. intros d st2.
    apply Hbind; [apply Hb|]. intros i st3.
    by destruct (Thought_fields kw a d i).
Qed.

Lemma Thought_init_unchanged `{JsonDecoder} `{Heaped St} kw (st st' : St) (t : Thought.t) :
  (forall text, dict_get "assumptions" kw = Some (KJson (JStr text)) -> text = "") ->
  Thought_init kw st = Returns st' t -> st' = st.
Proof.
  intros Htext Hinit. pose proof (Thought_init_state kw st Htext) as Hst.
  by rewrite Hinit in Hst.
Qed.

(** The arguments [process_thought] builds hold no JSON text for
    [assumptions]. *)
Lemma thought_data_no_text (request : ThoughtRequest.t) (n : Z) (b : bool) (text : string) :
  dict_get "assumptions"
    (as_kwargs (dict_set "next_thought_needed" (JBool b)
                  (dict_set "thought_number" (JInt n) (ThoughtRequest.model_dump request))))
  = Some (KJson (JStr text)) ->
  text = "".
Proof.
  destruct request as [? ? ? ? ? ? ? ? ? ? ? ? ? a d i]. simpl.
  by destruct a.
Qed.

Lemma thought_data_lookups (request : ThoughtRequest.t) (n : Z) (b : bool) :
  let kw :=
    as_kwargs (dict_set "next_thought_needed" (JBool b)
                 (dict_set "thought_number" (JInt n) (ThoughtRequest.model_dump request))) in
  dict_get "thought_number" kw = Some (KJson (JInt n))
  /\ dict_get "next_thought_needed" kw = Some (KJson (JBool b))
  /\ dict_get "total_thoughts" kw
     = Some (KJson (JInt (ThoughtRequest.total_thoughts request))).
Proof. repeat split; reflexivity. Qed.

Lemma positive_int_some (n m : Z) :
  Pydantic.positive_int (KJson (JInt n)) = Some m -> m = n /\ (1 <= n)%Z.
Proof.
  unfold Pydantic.positive_int. simpl. destruct (1 <=? n)%Z eqn:E; [|done].
  intros [= <-]. split; [done|]. by apply Z.leb_le.
Qed.

Lemma add_thought_result thought validated st st' t' :
  add_thought thought validated st = Returns st' t' ->
  t' = Thought.auto_adjust_total thought
  /\ exists st1, before_append (Thought.auto_adjust_total thought) validated st = Returns st1 tt
                 /\ append_thought (Thought.auto_adjust_total thought) st1 = Returns st' tt.
Proof.
  rewrite add_thought_steps.
  intros (st1 & [] & Hb & Hrest)%bind_returns.
  apply bind_returns in Hrest as (st2 & [] & Ha & Hr).
  injection Hr as <- <-. eauto.
Qed.

(** What a call of [process_thought] that returns has done. *)
Lemma process_thought_returns `{JsonDecoder} (request : ThoughtRequest.t) (new_id : string)
    (w w' : World) (r : ThoughtResponse.t) :
  process_thought request new_id w = Returns w' r ->
  exists w1 session_id session,
    _get_or_create_session (ThoughtRequest.session_id request) new_id w
    = Returns w1 (session_id, session)
    /\ ThoughtResponse.session_id r = session_id
    /\ ThoughtResponse.thought_number r = assigned_thought_number session request
    /\ ThoughtResponse.next_thought_needed r
       = assigned_next_thought_needed (ThoughtResponse.thought_number r) request
    /\ ThoughtResponse.total_thoughts r
       = Z.max (ThoughtResponse.thought_number r) (ThoughtRequest.total_thoughts request)
    /\ (1 <= ThoughtResponse.thought_number r)%Z
    /\ (1 <= ThoughtRequest.total_thoughts request)%Z.
Proof.
  unfold process_thought.
  intros (w1 & [session_id session] & Hget & Hrest)%bind_returns.
  exists w1, session_id, session. split; [exact Hget|].
  apply bind_returns in Hrest as (w2 & validated & _ & Hrest).
  apply bind_returns in Hrest as (w3 & thought & Hinit & Hrest).
  pose proof (Thought_init_unchanged _ _ _ _ (thought_data_no_text request _ _) Hinit) as ->.
  apply Thought_init_returns in Hinit as (a & d & i & Hfields).
  apply Thought_fields_required in Hfields as (Hn & Ht & Hb).
  destruct (thought_data_lookups request (assigned_thought_number session request)
              (assigned_next_thought_needed (assigned_thought_number session request) request))
    as (Ln & Lb & Lt).
  unfold Pydantic.required in Hn, Ht, Hb. rewrite Ln in Hn. rewrite Lt in Ht. rewrite Lb in Hb.
  simpl in Hn, Ht, Hb. apply positive_int_some in Hn as [Hn Hn1].
  apply positive_int_some in Ht as [Ht Ht1]. injection Hb as Hb.
  apply bind_returns in Hrest as (w4 & [thought' session'] & Hon & Hrest).
  assert (thought' = Thought.auto_adjust_total thought) as ->.
  { unfold on_session in Hon.
    destruct (add_thought thought (Some validated) (objects w2, session)) as [st t'|st e] eqn:Ha;
      [|discriminate].
    apply add_thought_result in Ha as [-> _]. by injection Hon as _ <- _. }
  apply bind_returns in Hrest as (w5 & [] & _ & Hrest).
  apply bind_returns in Hrest as (w6 & w6' & _ & Hrest).
  apply bind_returns in Hrest as (w7 & u & _ & Hrest).
  apply bind_returns in Hrest as (w8 & v & _ & Hrest).
  apply bind_returns in Hrest as (w9 & u' & _ & Hrest).
  apply bind_returns in Hrest as (w10 & v' & _ & Hrest).
  injection Hrest as _ <-.
  cbn [ThoughtResponse.session_id ThoughtResponse.thought_number
       ThoughtResponse.next_thought_needed ThoughtResponse.total_thoughts].
  rewrite <- Hb, Hn, Ht. done.
Qed.

(** ** total_thoughts *)

(** C5 (amended).  The [total_thoughts] an append leaves on the thought is
    the larger of the thought's own [thought_number] and the [total_thoughts]
    it came with; the appended thought, last in the log, carries it.  For the
    service: the [total_thoughts] of the response is the larger of the
    response's [thought_number] and the request's [total_thoughts].  Earlier
    appends play no part. *)
Theorem C5_total_thoughts_per_thought `{JsonDecoder} :
  (forall (thought : Thought.t) validated (st st' : Mem) (t' : Thought.t),
     add_thought thought validated st = Returns st' t' ->
     Thought.total_thoughts t'
     = Z.max (Thought.thought_number thought) (Thought.total_thoughts thought)
     /\ Thought.thought_number t' = Thought.thought_number thought
     /\ last (ThinkingSession._thoughts (snd st')) = Some t')
  /\ (forall (request : ThoughtRequest.t) new_id (w w' : World) (r : ThoughtResponse.t),
        process_thought request new_id w = Returns w' r ->
        ThoughtResponse.total_thoughts r
        = Z.max (ThoughtResponse.thought_number r) (ThoughtRequest.total_thoughts request)
        /\ (ThoughtResponse.thought_number r <= ThoughtResponse.total_thoughts r)%Z
        /\ (ThoughtRequest.total_thoughts request <= ThoughtResponse.total_thoughts r)%Z).
Proof.
  split.
  - intros thought validated st st' t' (-> & [h1 s1] & _ & Happ)%add_thought_result.
    destruct (auto_adjust_total_fields thought) as (_ & _ & _ & _ & Hn & _ & Ht).
    split; [exact Ht|]. split; [exact Hn|].
    destruct (append_thought_spec (Thought.auto_adjust_total thought) h1 s1)
      as (s' & Happ' & Hlog & _).
    rewrite Happ' in Happ. injection Happ as <-. simpl. rewrite Hlog. apply last_snoc.
  - intros request new_id w w' r Hr.
    apply process_thought_returns in Hr as (_ & _ & _ & _ & _ & _ & _ & Ht & _).
    rewrite Ht. split; [done|]. lia.
Qed.

(** C5 at thought 5 of 2: the append and the service leave
    [total_thoughts = 5]. *)
Lemma C5_total_thoughts_witness :
  (exists st' t',
     add_thought (plain_thought "T" 5 2 true) None ([], ThinkingSession.new) = Returns st' t'
     /\ Thought.total_thoughts t' = 5%Z)
  /\ (exists w' r,
        process_thought (H := rejecting_decoder) (plain_request "T" 2 (Some 5%Z)) "s"
          fresh_world = Returns w' r
        /\ ThoughtResponse.total_thoughts r
           = Z.max (ThoughtResponse.thought_number r) 2%Z).
Proof.
  split.
  - eassert (add_thought (plain_thought "T" 5 2 true) None ([], ThinkingSession.new)
             = Returns _ _) as Hrun by (vm_compute; reflexivity).
    eexists _, _. split; [exact Hrun|].
    exact (proj1 (proj1 (C5_total_thoughts_per_thought (H := rejecting_decoder))
                    _ _ _ _ _ Hrun)).
  - eassert (process_thought (H := rejecting_decoder) (plain_request "T" 2 (Some 5%Z)) "s"
               fresh_world = Returns _ _) as Hrun by (vm_compute; reflexivity).
    eexists _, _. split; [exact Hrun|].
    exact (proj1 (proj2 (C5_total_thoughts_per_thought (H := rejecting_decoder))
                    _ _ _ _ _ Hrun)).
Defined.

(** C5 (counterexample).  Thought 5 of 5 is appended, then thought 2 of 3,
    first with [add_thought] and then through the service with explicit
    thought numbers.  Every call returns; the second append leaves
    [total_thoughts = 3], below the [total_thoughts = 5] of the first and
    below the [thought_number] 5 already in the log. *)
Lemma C5_total_thoughts_can_decrease :
  let first := add_thought (plain_thought "a" 5 5 true) None ([], ThinkingSession.new) in
  let second := add_thought (plain_thought "b" 2 3 true) None (state_of first) in
  let first_call :=
    process_thought (H := rejecting_decoder) (explicit_request "a" 5 5) "u" fresh_world in
  let second_call :=
    process_thought (H := rejecting_decoder) (explicit_request "b" 2 3) "u"
      (state_of first_call) in
  (Thought.total_thoughts <$> result_of first) = Some 5%Z
  /\ (Thought.total_thoughts <$> result_of second) = Some 3%Z
  /\ map Thought.thought_number (ThinkingSession._thoughts (snd (state_of second)))
     = [5%Z; 2%Z]
  /\ (ThoughtResponse.total_thoughts <$> result_of first_call) = Some 5%Z
  /\ (ThoughtResponse.total_thoughts <$> result_of second_call) = Some 3%Z
  /\ (ThoughtResponse.thought_history_length <$> result_of second_call) = Some 2%Z.
Proof. repeat split; vm_compute; reflexivity. Qed.

(** ** Defaults of a request *)

(** C10.  When [process_thought] returns, with [session] the session it got
    for the request: a request without [thought_number] was numbered one
    more than the session's thought count, and a request without
    [next_thought_needed] got it true exactly when that number is below the
    request's [total_thoughts]; a value the request gives is the value of the
    response. *)
Theorem C10_request_defaults `{JsonDecoder} (request : ThoughtRequest.t) (new_id : string)
    (w w' : World) (r : ThoughtResponse.t) :
  process_thought request new_id w = Returns w' r ->
  exists w1 session,
    _get_or_create_session (ThoughtRequest.session_id request) new_id w
    = Returns w1 (ThoughtResponse.session_id r, session)
    /\ match ThoughtRequest.thought_number request with
       | None =>
           ThoughtResponse.thought_number r
           = (Z.of_nat (length (ThinkingSession._thoughts session)) + 1)%Z
       | Some n => ThoughtResponse.thought_number r = n
       end
    /\ match ThoughtRequest.next_thought_needed request with
       | None =>
           ThoughtResponse.next_thought_needed r = true
           <-> (ThoughtResponse.thought_number r < ThoughtRequest.total_thoughts request)%Z
       | Some b => ThoughtResponse.next_thought_needed r = b
       end.
Proof.
  intros (w1 & sid & session & Hget & <- & Hn & Hb & _)%process_thought_returns.
  exists w1, session. split; [exact Hget|]. split.
  - rewrite Hn. unfold assigned_thought_number.
    by destruct (ThoughtRequest.thought_number request).
  - rewrite Hb. unfold assigned_next_thought_needed.
    destruct (ThoughtRequest.next_thought_needed request); [done|]. apply Z.ltb_lt.
Qed.

(** C10 at the first request of a new session. *)
Lemma C10_request_defaults_witness :
  exists w' r w1 session,
    process_thought (H := rejecting_decoder) first_request "s" fresh_world = Returns w' r
    /\ _get_or_create_session (H := rejecting_decoder) None "s" fresh_world
       = Returns w1 (ThoughtResponse.session_id r, session)
    /\ ThoughtResponse.thought_number r
       = (Z.of_nat (length (ThinkingSession._thoughts session)) + 1)%Z
    /\ (ThoughtResponse.next_thought_needed r = true
        <-> (ThoughtResponse.thought_number r < 3)%Z).
Proof.
  eassert (process_thought (H := rejecting_decoder) first_request "s" fresh_world
           = Returns _ _) as Hrun by (vm_compute; reflexivity).
  destruct (C10_request_defaults (H := rejecting_decoder) first_request "s" fresh_world _ _
              Hrun) as (w1 & session & Hget & Hn & Hb).
  eexists _, _, w1, session. split; [exact Hrun|]. split; [exact Hget|].
  split; [exact Hn|exact Hb].
Defined.

(** ** Loading never writes to what exists *)

Lemma map_each_invariant {St A B} (P : St -> St -> Prop) `{!PreOrder P}
    (f : A -> M St B) (l : list A) :
  (forall x st, P st (state_of (f x st))) ->
  forall st, P st (state_of (map_each l f st)).
Proof.
  intros Hf. induction l as [|x l IH]; intros st; simpl; [reflexivity|].
  apply bind_invariant; [done|apply Hf|]. intros y st1.
  apply bind_invariant; [done|apply IH|]. intros ys st2. reflexivity.
Qed.

#[local] Instance heap_grows_preorder : PreOrder heap_grows.
Proof.
  split.
  - intros st. unfold heap_grows. reflexivity.
  - intros a b c. unfold heap_grows. apply transitivity.
Qed.

Lemma Assumption_init_grows (a : json) (st : Mem) :
  heap_grows st (state_of (on_heap (Assumption_init a) st)).
Proof.
  unfold heap_grows, on_heap, zoom, Assumption_init, alloc. run_monad.
  repeat case_match; simplify_eq; simpl; try reflexivity.
  by apply prefix_app_r.
Qed.

Lemma before_list_field_keeps `{JsonDecoder} {St} name kw (st : St) :
  state_of (before_list_field name kw st) = st.
Proof.
  unfold before_list_field. destruct (dict_get name kw) as [v|]; [|done].
  pose proof (parse_json_list_state v name st) as Hs.
  destruct (_parse_json_list v name st) as [?|? []]; simpl in *; done.
Qed.

Lemma create_grows (a : Assumption.t) (st : Mem) :
  heap_grows st (state_of (create a st)).
Proof. unfold heap_grows, create, zoom, alloc. simpl. by apply prefix_app_r. Qed.

(** Whatever its arguments, the constructor only adds objects. *)
Lemma Thought_init_grows `{JsonDecoder} kw (st : Mem) :
  heap_grows st (state_of (Thought_init kw st)).
Proof.
  unfold Thought_init.
  apply bind_invariant; [apply _| |].
  { intros st0. rewrite before_list_field_keeps. reflexivity. }
  intros a0 st0. apply bind_invariant; [apply _| |].
  { intros st1. destruct a0 as [[[v|objs]|]|]; try reflexivity.
    destruct v; try reflexivity. simpl.
    destruct (mapM Assumption_of_item l); [|reflexivity].
    apply bind_invariant; [apply _| |intros; reflexivity].
    apply map_each_invariant; [apply _|]. intros. apply create_grows. }
  intros a st1. apply bind_invariant; [apply _| |].
  { intros st2. rewrite before_list_field_keeps. reflexivity. }
  intros d st2. apply bind_invariant; [apply _| |].
  { intros st3. rewrite before_list_field_keeps. reflexivity. }
  intros i st3. destruct (Thought_fields kw a d i); reflexivity.
Qed.

Lemma load_thought_grows `{JsonDecoder} (thought_data : json) (st : Mem) :
  heap_grows st (state_of (load_thought thought_data st)).
Proof.
  unfold load_thought.
  apply bind_invariant; [apply _| |].
  { intros st0. unfold py_get. run_monad. case_match; reflexivity. }
  intros assumptions st0. apply bind_invariant; [apply _| |].
  { intros st1. destruct thought_data; try reflexivity.
    destruct (truthy assumptions); [|reflexivity].
    apply bind_invariant; [apply _| |].
    { intros st2. unfold py_iter. run_monad. case_match; reflexivity. }
    intros items st2. apply bind_invariant; [apply _| |]; [|intros; reflexivity].
    apply map_each_invariant; [apply _|]. intros. apply Assumption_init_grows. }
  intros kw st1. apply bind_invariant; [apply _| |].
  { intros st2. apply Thought_init_grows. }
  intros thought st2. unfold load_append, heap_grows. run_monad.
  repeat case_match; reflexivity.
Qed.

Lemma load_assumption_grows (item : string * json) (st : Mem) :
  heap_grows st (state_of (load_assumption item st)).
Proof.
  unfold load_assumption.
  apply bind_invariant; [apply _|intros; apply Assumption_init_grows|].
  intros obj st1. unfold heap_grows. run_monad. reflexivity.
Qed.

Lemma rebuild_session_grows `{JsonDecoder} (data : json) (st : Mem) :
  heap_grows st (state_of (rebuild_session data st)).
Proof.
  unfold rebuild_session.
  apply bind_invariant; [apply _| |].
  { intros st0. unfold py_get. run_monad. case_match; reflexivity. }
  intros a st0. apply bind_invariant; [apply _| |].
  { intros st1. unfold py_items. run_monad. case_match; reflexivity. }
  intros items st1. apply bind_invariant; [apply _| |].
  { apply for_each_invariant; [apply _|]. intros. apply load_assumption_grows. }
  intros _ st2. apply bind_invariant; [apply _| |].
  { intros st3. unfold py_get. run_monad. case_match; reflexivity. }
  intros ts st3. apply bind_invariant; [apply _| |].
  { intros st4. unfold py_iter. run_monad. case_match; reflexivity. }
  intros ts' st4. apply bind_invariant; [apply _| |].
  { apply for_each_invariant; [apply _|]. intros. apply load_thought_grows. }
  intros _ st5. apply bind_invariant; [apply _| |].
  { intros st6. unfold py_get. run_monad. case_match; reflexivity. }
  intros u st6. unfold heap_grows. run_monad. repeat case_match; simplify_eq; reflexivity.
Qed.

#[local] Instance reads_only_preorder : PreOrder reads_only.
Proof.
  split.
  - intros w. repeat split; auto.
  - intros a b c (F1 & S1 & O1) (F2 & S2 & O2). repeat split; [congruence..|].
    by trans (objects b).
Qed.

Lemma validate_session_id_state {St} (session_id : string) (st : St) :
  state_of (_validate_session_id session_id st) = st.
Proof.
  unfold _validate_session_id. run_monad. repeat case_match; reflexivity.
Qed.

Lemma session_file_path_state {St} (session_id : string) (st : St) :
  state_of (_session_file_path session_id st) = st.
Proof.
  unfold _session_file_path. unfold mbind, M_bind, bind.
  pose proof (validate_session_id_state session_id st) as Hv.
  by destruct (_validate_session_id session_id st).
Qed.

Lemma load_session_reads_only `{JsonDecoder} (session_id : string) (w : World) :
  reads_only w (state_of (load_session session_id w)).
Proof.
  unfold load_session.
  apply bind_invariant; [apply _| |].
  { intros st. rewrite session_file_path_state. reflexivity. }
  intros file_path st. apply bind_invariant; [apply _|intros; reflexivity|].
  intros w0 st0. destruct (files w0 !! file_path) as [[data| | | | |]|]; try reflexivity.
  unfold try_except, zoom.
  assert (forall (u : unit) (st : Mem),
             heap_grows st (state_of ((s ← self; ret (Some s)) st))) as Hself.
  { intros u m. unfold heap_grows. run_monad. reflexivity. }
  pose proof (bind_invariant heap_grows (rebuild_session data)
                (fun _ => s ← self; ret (Some s))
                (fun st => rebuild_session_grows data st)
                Hself (objects st0, ThinkingSession.new)) as Hg.
  destruct ((rebuild_session data ≫= _) (objects st0, ThinkingSession.new)) as [st1 r|st1 e];
    simpl in Hg; [|destruct (invalid_structure e)]; simpl; repeat split; auto.
Qed.

(** ** The cross-session resolver *)

Section Resolver.
Context `{JsonDecoder} (scoped_id current : string) (w : World) (target local : string).
Hypothesis Hscoped : _parse_assumption_id scoped_id = (Some target, local).

Let answer (s : ThinkingSession.t) : option string * bool :=
  if dict_contains local (ThinkingSession._assumptions s) then (Some local, true)
  else (None, false).

Lemma resolve_cached (s : ThinkingSession.t) :
  _sessions w !! target = Some s ->
  _resolve_cross_session_assumption scoped_id current w = Returns w (answer s).
Proof.
  intros Hc. unfold _resolve_cross_session_assumption, answer. rewrite Hscoped.
  run_monad. rewrite Hc. simpl. rewrite Hc.
  by destruct (dict_contains local (ThinkingSession._assumptions s)).
Qed.

Lemma resolve_load_raises (w1 : World) (e : exn) :
  _sessions w !! target = None ->
  load_session target w = Raises w1 e ->
  _resolve_cross_session_assumption scoped_id current w = Raises w1 e.
Proof.
  intros Hc Hl. unfold _resolve_cross_session_assumption. rewrite Hscoped.
  eapply bind_step; [reflexivity|]. rewrite Hc. apply bind_stop. by apply bind_stop.
Qed.

Lemma resolve_load_absent (w1 : World) :
  _sessions w !! target = None ->
  load_session target w = Returns w1 None ->
  _resolve_cross_session_assumption scoped_id current w = Returns w1 (None, false).
Proof.
  intros Hc Hl. unfold _resolve_cross_session_assumption. rewrite Hscoped.
  eapply bind_step; [reflexivity|]. rewrite Hc.
  eapply bind_step; [eapply bind_step; [exact Hl|reflexivity]|]. reflexivity.
Qed.

Lemma resolve_load_present (w1 : World) (s : ThinkingSession.t) :
  _sessions w !! target = None ->
  load_session target w = Returns w1 (Some s) ->
  _resolve_cross_session_assumption scoped_id current w
  = Returns (set_sessions w1 (<[target := s]> (_sessions w1))) (answer s).
Proof.
  intros Hc Hl. unfold _resolve_cross_session_assumption, answer. rewrite Hscoped.
  eapply bind_step; [reflexivity|]. rewrite Hc.
  eapply bind_step; [eapply bind_step; [exact Hl|reflexivity]|].
  run_monad. rewrite lookup_insert_eq.
  by destruct (dict_contains local (ThinkingSession._assumptions s)).
Qed.

End Resolver.

Lemma resolve_only_adds `{JsonDecoder} (scoped_id current : string) (w : World) :
  only_adds w (state_of (_resolve_cross_session_assumption scoped_id current w)).
Proof.
  assert (only_adds w w) as Hrefl by (repeat split; auto).
  destruct (_parse_assumption_id scoped_id) as [[target|] local] eqn:Hp.
  2:{ unfold _resolve_cross_session_assumption. by rewrite Hp. }
  destruct (_sessions w !! target) as [s|] eqn:Hc.
  { by erewrite resolve_cached. }
  pose proof (load_session_reads_only target w) as (Hf & Hs & Ho).
  destruct (load_session target w) as [w1 [s|]|w1 e] eqn:Hl; simpl in *.
  - erewrite resolve_load_present by done. unfold only_adds.
    cbn [state_of set_sessions files _sessions objects]. repeat split; [done| |done].
    intros sid s0 Hsid. rewrite lookup_insert_ne; [by rewrite Hs|]. congruence.
  - erewrite resolve_load_absent by done. simpl. repeat split; [done| |done].
    intros sid s0 Hsid. by rewrite Hs.
  - erewrite resolve_load_raises by done. simpl. repeat split; [done| |done].
    intros sid s0 Hsid. by rewrite Hs.
Qed.

(** ** Unresolved references *)




#[local] Instance grows_preorder : PreOrder grows.
Proof.
  split.
  - intros l z. split; [done|lia].
  - intros a b c Hab Hbc z. destruct (Hab z) as [H1 H2]. destruct (Hbc z) as [H3 H4].
    split.
    + intros Hz. rewrite H3; [by apply H1|]. rewrite H1; done.
    + intros Hz. specialize (H2 Hz). destruct (occurrences z b) as [|n] eqn:E.
      * by apply H4.
      * rewrite H3; lia.
Qed.


Section Dependencies.
Context (validated : option (list string)).



End Dependencies.


#[local] Instance same_refs_preorder : PreOrder same_refs.
Proof.
  split.
  - intros st. reflexivity.
  - intros a b c. unfold same_refs. congruence.
Qed.





(** The lookup of ["café:A1"] raises for every decoder and every world that
    has no session ["café"] in its cache. *)
Lemma resolve_invalid_target_raises `{JsonDecoder} (current : string) (w : World) :
  _sessions w !! ("caf" +:+ String (ascii_of_nat 233) "") = None ->
  _resolve_cross_session_assumption accented_scoped_id current w
  = Raises w (ValueError (Msg_session_id_invalid ("caf" +:+ String (ascii_of_nat 233) ""))).
Proof.
  intros Hc. eapply resolve_load_raises; [reflexivity|exact Hc|reflexivity].
Qed.


(** ** Round trip of a session without lists *)









Lemma is_branch_id (t : Thought.t) (b : string) :
  Thought.is_branch t = true -> Thought.branch_id t = Some b -> negb (String.eqb b "") = true.
Proof.
  unfold Thought.is_branch. intros Hb Hid. rewrite Hid in Hb.
  destruct (Thought.branch_from_thought t); [|done]. by apply andb_true_iff in Hb as [_ ?].
Qed.

Lemma load_append_with (t : Thought.t) (h : list Assumption.t) (s : ThinkingSession.t) :
  load_append t (h, s) = Returns (h, with_thought s t) tt.
Proof.
  unfold load_append, with_thought, index_thought. run_monad.
  destruct (Thought.branch_id t) as [b|] eqn:Hb; [|reflexivity].
  destruct (Thought.is_branch t) eqn:Hbr; [|reflexivity].
  rewrite (is_branch_id t b Hbr Hb). simpl.
  by destruct (dict_contains b (ThinkingSession._branches s)).
Qed.

Lemma append_thought_with (t : Thought.t) (h : list Assumption.t) (s : ThinkingSession.t) :
  append_thought t (h, s) = Returns (h, with_thought s t) tt.
Proof.
  unfold append_thought, with_thought, index_thought. run_monad.
  destruct (Thought.branch_id t) as [b|] eqn:Hb; [|reflexivity].
  destruct (Thought.is_branch t) eqn:Hbr; [|reflexivity].
  by destruct (dict_contains b (ThinkingSession._branches s)).
Qed.









Lemma session_file_path_returns {St} (session_id : string) (st : St) :
  accepted_session_id session_id ->
  _session_file_path session_id st = Returns st (session_id +:+ ".json").
Proof.
  intros Hid. unfold _session_file_path.
  eapply bind_step; [by apply validate_session_id_returns|reflexivity].
Qed.




(** The branch index is the index of the log in every session built by
    [add_thought]. *)
Lemma add_thought_indexed thought validated (h h' : list Assumption.t)
    (s s' : ThinkingSession.t) (t' : Thought.t) :
  ThinkingSession._branches s = branch_index (ThinkingSession._thoughts s) ->
  add_thought thought validated (h, s) = Returns (h', s') t' ->
  ThinkingSession._branches s' = branch_index (ThinkingSession._thoughts s').
Proof.
  intros Hindexed (-> & [h1 s1] & Hbefore & Happ)%add_thought_result.
  pose proof (before_append_same_log (Thought.auto_adjust_total thought) validated (h, s))
    as [Hlog Hbr].
  rewrite Hbefore in Hlog, Hbr. simpl in Hlog, Hbr.
  rewrite append_thought_with in Happ. injection Happ as <- <-.
  unfold with_thought, branch_index.
  cbn [ThinkingSession._branches ThinkingSession._thoughts ThinkingSession.set_branches
         ThinkingSession.set_thoughts].
  rewrite fold_left_app. simpl. rewrite Hlog, Hbr, Hindexed. reflexivity.
Qed.


(** ** Further properties *)

(** A session id outside the rule is rejected on both paths before any
    storage address is built: [save_session] and [load_session] raise an
    [InvalidIdentifier] error and leave files, cache and objects as they
    were. *)
Theorem invalid_session_id_rejected `{JsonDecoder} (session_id : string)
    (session : ThinkingSession.t) (w : World) :
  ~ accepted_session_id session_id ->
  (exists m, save_session session_id session w = Raises w (ValueError m)
             /\ kind_of m = InvalidIdentifier)
  /\ (exists m, load_session session_id w = Raises w (ValueError m)
                /\ kind_of m = InvalidIdentifier).
Proof.
  intros Hno.
  assert (exists m, _validate_session_id session_id w = Raises w (ValueError m)
                    /\ kind_of m = InvalidIdentifier) as (m & Hv & Hk).
  { pose proof (validate_session_id_returns session_id w) as Hiff.
    unfold _validate_session_id in *.
    destruct (String.eqb session_id ""); [by eexists|].
    destruct (128 <? String.length session_id)%nat; [by eexists|].
    destruct (negb (_SESSION_ID_PATTERN_match session_id)); [by eexists|].
    exfalso. apply Hno, Hiff. reflexivity. }
  split; exists m; (split; [|exact Hk]).
  - unfold save_session, _session_file_path.
    unfold mbind, M_bind, bind, get. by rewrite Hv.
  - unfold load_session, _session_file_path.
    unfold mbind, M_bind, bind. by rewrite Hv.
Qed.

Lemma invalid_session_id_rejected_witness :
  (exists m, save_session "../etc" ThinkingSession.new fresh_world
             = Raises fresh_world (ValueError m)
             /\ kind_of m = InvalidIdentifier)
  /\ (exists m, load_session (H := rejecting_decoder) "../etc" fresh_world
                = Raises fresh_world (ValueError m)
                /\ kind_of m = InvalidIdentifier).
Proof.
  apply (invalid_session_id_rejected (H := rejecting_decoder)).
  intros Hacc. apply (validate_session_id_returns "../etc" tt) in Hacc. discriminate Hacc.
Defined.

Lemma load_session_json `{JsonDecoder} (session_id : string) (w : World) (data : json) :
  accepted_session_id session_id ->
  files w !! (session_id +:+ ".json") = Some (FileJson data) ->
  load_session session_id w
  = try_except
      (zoom (fun w => (objects w, ThinkingSession.new))
            (fun st w => set_objects w (fst st))
            (rebuild_session data;; s ← self; ret (Some s)))
      invalid_structure None w.
Proof.
  intros Hid Hfile. unfold load_session.
  eapply bind_step; [by apply session_file_path_returns|].
  eapply bind_step; [reflexivity|]. by rewrite Hfile.
Qed.

(** What [load_session] does with a record that is JSON but not a session,
    under an accepted id.  A record that is not an object makes it raise
    [AttributeError].  For an object without ["assumptions"], by its
    ["thoughts"] entry: [null], a boolean or a number gives absent (the
    [TypeError] of the loop is handled); a non-empty string, a non-empty
    object, or a list whose first item is not an object makes it raise
    [AttributeError], which the handler does not name; no entry, the empty
    string, the empty object or the empty list gives a session without
    thoughts that holds what the record has under ["unresolved_refs"] and
    ["cross_session_warnings"].  Files, cache and objects stay as they were
    in every case. *)
Theorem load_session_record_shapes `{JsonDecoder} (session_id : string) (w : World)
    (data : json) :
  accepted_session_id session_id ->
  files w !! (session_id +:+ ".json") = Some (FileJson data) ->
  ((forall d, data <> JDict d) -> load_session session_id w = Raises w AttributeError)
  /\ (forall d,
        data = JDict d -> dict_get "assumptions" d = None ->
        match default (JList []) (dict_get "thoughts" d) with
        | JNull | JBool _ | JInt _ | JFloat _ => load_session session_id w = Returns w None
        | JStr "" | JDict [] | JList [] =>
            load_session session_id w
            = Returns w
                (Some (ThinkingSession.set_cross_session_warnings
                         (ThinkingSession.set_unresolved_refs ThinkingSession.new
                            (default (JList []) (dict_get "unresolved_refs" d)))
                         (default (JList []) (dict_get "cross_session_warnings" d))))
        | JStr _ | JDict _ => load_session session_id w = Raises w AttributeError
        | JList (item :: _) =>
            (forall d', item <> JDict d') ->
            load_session session_id w = Raises w AttributeError
        end).
Proof.
  intros Hid Hfile. rewrite (load_session_json session_id w data Hid Hfile).
  split.
  - intros Hno. unfold try_except, zoom, rebuild_session. run_monad.
    destruct w. destruct data as [| | | | | |d]; try reflexivity. by destruct (Hno d).
  - intros d -> Ha.
    assert (forall v, dict_get "thoughts" d = v ->
              try_except
                (zoom (fun w => (objects w, ThinkingSession.new))
                      (fun st w => set_objects w (fst st))
                      (rebuild_session (JDict d);; s ← self; ret (Some s)))
                invalid_structure None w
              = try_except
                  (zoom (fun w => (objects w, ThinkingSession.new))
                        (fun st w => set_objects w (fst st))
                        (thoughts ← py_iter (default (JList []) v);
                         for_each thoughts load_thought;;
                         unresolved_refs ← py_get (JDict d) "unresolved_refs" (JList []);
                         s ← self;
                         set_self (ThinkingSession.set_unresolved_refs s unresolved_refs);;
                         cross_session_warnings
                           ← py_get (JDict d) "cross_session_warnings" (JList []);
                         s ← self;
                         set_self (ThinkingSession.set_cross_session_warnings s
                                     cross_session_warnings);;
                         s ← self; ret (Some s)))
                  invalid_structure None w) as Hstep.
    { intros v Hv. unfold try_except, zoom, rebuild_session. run_monad.
      rewrite Ha, Hv. simpl.
      destruct v as [[]|]; simpl; try reflexivity; by destruct (for_each _ load_thought _). }
    rewrite (Hstep _ eq_refl). clear Hstep.
    destruct (dict_get "thoughts" d) as [[|b|n|f|text|l|l]|]; cbn [default from_option id].
    1-4: by destruct w.
    + destruct text as [|c text]; destruct w; reflexivity.
    + destruct l as [|item l]; [destruct w; reflexivity|].
      intros Hitem. unfold try_except, zoom, load_thought. run_monad.
      destruct w. destruct item as [| | | | | |d']; try reflexivity.
      by destruct (Hitem d').
    + destruct l as [|[k v] l]; destruct w; reflexivity.
    + destruct w; reflexivity.
Qed.

Lemma load_session_record_shapes_witness :
  load_session (H := rejecting_decoder) "n" numeric_thoughts_world
  = Returns numeric_thoughts_world None
  /\ load_session (H := rejecting_decoder) "invalid" invalid_structure_world
     = Raises invalid_structure_world AttributeError
  /\ load_session (H := rejecting_decoder) "w" numeric_warnings_world
     = Returns numeric_warnings_world (Some numeric_warnings_session).
Proof.
  assert (forall sid, sid = "n" \/ sid = "invalid" \/ sid = "w" -> accepted_session_id sid)
    as Hacc.
  { intros sid [-> | [-> | ->]]; (split; [discriminate|]; split; [simpl; lia|]);
      left; reflexivity. }
  split; [|split].
  - apply (proj2 (load_session_record_shapes (H := rejecting_decoder) "n"
                    numeric_thoughts_world (JDict [("thoughts", JInt 3)])
                    (Hacc "n" ltac:(auto)) eq_refl)
             [("thoughts", JInt 3)] eq_refl eq_refl).
  - apply (proj2 (load_session_record_shapes (H := rejecting_decoder) "invalid"
                    invalid_structure_world (JDict [("thoughts", JStr "not_a_list")])
                    (Hacc "invalid" ltac:(auto)) eq_refl)
             [("thoughts", JStr "not_a_list")] eq_refl eq_refl).
  - apply (proj2 (load_session_record_shapes (H := rejecting_decoder) "w"
                    numeric_warnings_world (JDict [("cross_session_warnings", JInt 5)])
                    (Hacc "w" ltac:(auto)) eq_refl)
             [("cross_session_warnings", JInt 5)] eq_refl eq_refl).
Defined.

(** A dependency on an unscoped id (the body of the loop over
    [thought.depends_on_assumptions]): when the registry knows the id the
    step returns and changes nothing; when it does not, the step raises an
    [UnknownAssumption] error that carries the id and the registry's keys in
    ascending order (or the marker for none), and changes nothing. *)
Theorem local_dependency_checked (validated : option (list string))
    (h : list Assumption.t) (s : ThinkingSession.t) (assumption_id : string) :
  fst (_parse_assumption_id assumption_id) = None ->
  (dict_contains assumption_id (ThinkingSession._assumptions s) = true ->
   depend_on validated assumption_id (h, s) = Returns (h, s) tt)
  /\ (dict_contains assumption_id (ThinkingSession._assumptions s) = false ->
      exists m,
        depend_on validated assumption_id (h, s) = Raises (h, s) (ValueError m)
        /\ kind_of m = UnknownAssumption
        /\ m = Msg_depend_not_found assumption_id (known_ids s)
        /\ match known_ids s with
           | AvailNone => ThinkingSession._assumptions s = []
           | AvailList l =>
               Sorted (fun a b => String.leb a b = true) l
               /\ Permutation (dict_keys (ThinkingSession._assumptions s)) l
           end).
Proof.
  intros Hlocal. unfold depend_on. run_monad. rewrite Hlocal. split.
  - intros ->. reflexivity.
  - intros ->. eexists. split; [reflexivity|]. split; [reflexivity|].
    split; [reflexivity|]. apply known_ids_sorted.
Qed.

Lemma local_dependency_checked_witness :
  depend_on None "A1" (example_heap, example_session)
  = Returns (example_heap, example_session) tt
  /\ depend_on None "A9" (example_heap, example_session)
     = Raises (example_heap, example_session)
         (ValueError (Msg_depend_not_found "A9" (AvailList ["A1"]))).
Proof.
  split.
  - exact (proj1 (local_dependency_checked None example_heap example_session "A1" eq_refl)
             eq_refl).
  - destruct (proj2 (local_dependency_checked None example_heap example_session "A9" eq_refl)
                eq_refl) as (m & Hrun & _ & -> & _).
    exact Hrun.
Defined.

(** [add_thought] does not compare the number of the incoming thought with
    the numbers in the log.  A thought that names no assumption, is not a
    revision and is not a branch is appended whatever its [thought_number],
    also when the log holds that number already; nothing else changes. *)
Theorem duplicate_thought_number_accepted (thought : Thought.t)
    (validated : option (list string)) (h : list Assumption.t) (s : ThinkingSession.t) :
  without_lists thought ->
  Thought.is_revision thought <> Some true ->
  Thought.is_branch thought = false ->
  add_thought thought validated (h, s)
  = Returns (h, ThinkingSession.set_thoughts s
                  (ThinkingSession._thoughts s ++ [Thought.auto_adjust_total thought])%list)
      (Thought.auto_adjust_total thought).
Proof.
  intros (Ha & Hd & Hi) Hrev Hbr.
  destruct (auto_adjust_total_fields thought) as (Frev & _ & Fbr & _).
  rewrite add_thought_steps.
  assert (before_append (Thought.auto_adjust_total thought) validated (h, s)
          = Returns (h, s) tt) as Hbefore.
  { unfold before_append.
    eapply bind_step; [reflexivity|].
    eapply bind_step.
    { apply validate_references_passes.
      - intros r (Hr & _). rewrite Frev in Hr. done.
      - intros b (Hb & _). rewrite Fbr in Hb. congruence. }
    destruct thought; simpl in *; subst. reflexivity. }
  eapply bind_step; [exact Hbefore|].
  eapply bind_step; [apply append_thought_with|].
  unfold with_thought, index_thought.
  destruct (Thought.branch_id (Thought.auto_adjust_total thought)); [|by destruct s].
  rewrite Fbr, Hbr. by destruct s.
Qed.

Lemma duplicate_thought_number_accepted_witness :
  exists st,
    add_thought (plain_thought "T1" 1 3 true) None ([], ThinkingSession.new)
    = Returns st (plain_thought "T1" 1 3 true)
    /\ result_of (add_thought (plain_thought "again" 1 1 false) None st)
       = Some (plain_thought "again" 1 1 false)
    /\ map Thought.thought_number
         (ThinkingSession._thoughts
            (snd (state_of (add_thought (plain_thought "again" 1 1 false) None st))))
       = [1; 1]%Z.
Proof.
  eexists. split.
  - apply (duplicate_thought_number_accepted (plain_thought "T1" 1 3 true) None []
             ThinkingSession.new); [done|discriminate|reflexivity].
  - rewrite (duplicate_thought_number_accepted (plain_thought "again" 1 1 false) None);
      [|done|discriminate|reflexivity].
    split; reflexivity.
Defined.

(** ** Scoped assumption ids *)

Lemma is_substring_colon (c : ascii) (s : string) :
  is_substring ":" (String c s) = Ascii.eqb ":"%char c || is_substring ":" s.
Proof. cbn [is_substring is_prefix]. by rewrite andb_true_r. Qed.

Lemma split_colon_some (s a b : string) :
  split_colon s = Some (a, b) -> s = a +:+ ":" +:+ b /\ is_substring ":" a = false.
Proof.
  revert a. induction s as [|c s IH]; intros a; cbn [split_colon]; [discriminate|].
  destruct (Ascii.eqb_spec c ":"%char) as [->|Hc].
  - intros [= <- <-]. done.
  - destruct (split_colon s) as [[a' b']|]; [|discriminate].
    intros [= <- <-]. destruct (IH a' eq_refl) as [-> Hno]. split; [done|].
    rewrite is_substring_colon, Hno.
    destruct (Ascii.eqb_spec ":"%char c) as [<-|_]; done.
Qed.

Lemma split_colon_none (s : string) :
  split_colon s = None -> is_substring ":" s = false.
Proof.
  induction s as [|c s IH]; cbn [split_colon]; [done|].
  destruct (Ascii.eqb_spec c ":"%char) as [->|Hc]; [discriminate|].
  destruct (split_colon s) as [[a b]|]; [discriminate|]. intros _.
  rewrite is_substring_colon, IH by done.
  destruct (Ascii.eqb_spec ":"%char c) as [<-|_]; done.
Qed.

Lemma split_colon_join (a b : string) :
  is_substring ":" a = false -> split_colon (a +:+ ":" +:+ b) = Some (a, b).
Proof.
  induction a as [|c a IH]; [done|].
  rewrite is_substring_colon. intros [Hc Hno]%orb_false_iff.
  change (String c a +:+ ":" +:+ b) with (String c (a +:+ ":" +:+ b)).
  cbn [split_colon]. rewrite IH by done.
  destruct (Ascii.eqb_spec c ":"%char) as [->|_]; [|done].
  by rewrite Ascii.eqb_refl in Hc.
Qed.

(** [_parse_assumption_id] splits at the first colon and loses nothing: a
    scoped id is its session part, a colon and its local part, and the
    session part has no colon; an id without a colon is local and comes back
    whole.  Joining a colon-free session part to any local part and parsing
    gives the two parts back. *)
Theorem parse_assumption_id_round_trip :
  (forall assumption_id,
     match _parse_assumption_id assumption_id with
     | (Some session_id, local_id) =>
         assumption_id = session_id +:+ ":" +:+ local_id
         /\ is_substring ":" session_id = false
     | (None, local_id) =>
         local_id = assumption_id /\ is_substring ":" assumption_id = false
     end)
  /\ (forall session_id local_id,
        is_substring ":" session_id = false ->
        _parse_assumption_id (session_id +:+ ":" +:+ local_id)
        = (Some session_id, local_id)).
Proof.
  split.
  - intros assumption_id. unfold _parse_assumption_id.
    destruct (split_colon assumption_id) as [[a b]|] eqn:Hs.
    + by apply split_colon_some.
    + split; [done|]. by apply split_colon_none.
  - intros a b Hno. unfold _parse_assumption_id. by rewrite split_colon_join.
Qed.

Lemma parse_assumption_id_round_trip_witness :
  _parse_assumption_id "other:A1:x" = (Some "other", "A1:x")
  /\ _parse_assumption_id ":A1" = (Some "", "A1")
  /\ _parse_assumption_id "A1" = (None, "A1").
Proof.
  split; [|split].
  - exact (proj2 parse_assumption_id_round_trip "other" "A1:x" eq_refl).
  - exact (proj2 parse_assumption_id_round_trip "" "A1" eq_refl).
  - reflexivity.
Defined.

(** ** What [add_thought] never does to assumptions *)

#[local] Instance keeps_identity_preorder : PreOrder keeps_identity.
Proof.
  split.
  - intros st. split; [done|]. split; [done|]. auto.
  - intros a b c (L1 & F1 & R1) (L2 & F2 & R2). split; [congruence|]. split.
    + intros l. destruct (F1 l) as (? & ? & ?), (F2 l) as (? & ? & ?).
      repeat split; congruence.
    + auto.
Qed.

Lemma store_keeps_identity (l : nat) (a : Assumption.t) (h : list Assumption.t)
    (s : ThinkingSession.t) :
  Assumption.id a = Assumption.id (deref h l) ->
  Assumption.text a = Assumption.text (deref h l) ->
  Assumption.critical a = Assumption.critical (deref h l) ->
  keeps_identity (h, s) (<[l := a]> h, s).
Proof.
  intros Hi Ht Hc. split; [apply length_insert|]. split; [|auto].
  intros l'. unfold deref in *. cbn [fst].
  destruct (decide (l = l')) as [<-|Hne].
  - destruct (decide (l < length h)%nat) as [Hlt|Hge].
    + rewrite list_lookup_total_insert. case_decide; auto.
    + by rewrite list_insert_ge by lia.
  - by rewrite list_lookup_total_insert_ne.
Qed.

Lemma depend_on_keeps_identity validated x st :
  keeps_identity st (state_of (depend_on validated x st)).
Proof.
  destruct st as [h s]. unfold depend_on. run_monad.
  repeat case_match; simplify_eq; simpl; (split; [done|]; split; [done|]; auto).
Qed.

Lemma upsert_keeps_identity l st : keeps_identity st (state_of (upsert l st)).
Proof.
  destruct st as [h s]. unfold upsert. run_monad.
  destruct (dict_get (Assumption.id (deref h l)) (ThinkingSession._assumptions s))
    as [existing|] eqn:Hg.
  - repeat case_match; simplify_eq; simpl; try reflexivity.
    by apply store_keeps_identity.
  - simpl. split; [done|]. split; [done|]. intros k l0 Hk. cbn [snd] in *.
    destruct s; simpl in *. rewrite dict_get_set_ne; [done|]. congruence.
Qed.

Lemma invalidate_keeps_identity x st : keeps_identity st (state_of (invalidate x st)).
Proof.
  destruct st as [h s]. unfold invalidate. run_monad.
  repeat case_match; simplify_eq; simpl; try reflexivity;
    first [by apply store_keeps_identity | split; [done|]; split; [done|]; by destruct s].
Qed.

Lemma append_thought_keeps_identity t st :
  keeps_identity st (state_of (append_thought t st)).
Proof.
  destruct st as [h s]. rewrite append_thought_with. simpl.
  split; [done|]. split; [done|]. by destruct s.
Qed.

Lemma before_append_keeps_identity thought validated st :
  keeps_identity st (state_of (before_append thought validated st)).
Proof.
  unfold before_append.
  apply bind_invariant; [apply _|intros; reflexivity|]. intros s st0.
  apply bind_invariant; [apply _| |].
  { intros st1. rewrite validate_references_state. reflexivity. }
  intros _ st1. apply bind_invariant; [apply _| |].
  { apply for_each_invariant; [apply _|]. intros. apply depend_on_keeps_identity. }
  intros _ st2. apply bind_invariant; [apply _| |].
  { apply for_each_invariant; [apply _|]. intros. apply upsert_keeps_identity. }
  intros _ st3. apply for_each_invariant; [apply _|]. intros. apply invalidate_keeps_identity.
Qed.

(** Whatever [add_thought] does, and whether it returns or raises: no
    Assumption object is created or dropped, every object keeps its [id],
    [text] and [critical] (only [confidence], [verifiable], [evidence] and
    [verification_status] are ever assigned), and every id of the registry
    stays bound to the same object: nothing is removed or rebound. *)
Theorem add_thought_keeps_identity (thought : Thought.t)
    (validated : option (list string)) (st : Mem) :
  keeps_identity st (state_of (add_thought thought validated st)).
Proof.
  rewrite add_thought_steps.
  apply bind_invariant; [apply _|apply before_append_keeps_identity|].
  intros _ st1. apply bind_invariant; [apply _|apply append_thought_keeps_identity|].
  intros. reflexivity.
Qed.

(** ** What a successful [add_thought] leaves behind *)

Lemma for_each_establishes {St A} (R : St -> St -> Prop) `{!PreOrder R}
    (Q : A -> St -> Prop) (body : A -> M St unit) (l : list A) :
  (forall x st, R st (state_of (body x st))) ->
  (forall x st st', body x st = Returns st' tt -> Q x st') ->
  (forall x st st', Q x st -> R st st' -> Q x st') ->
  forall st st', for_each l body st = Returns st' tt -> forall x, x ∈ l -> Q x st'.
Proof.
  intros HR Hstep Hkeep. induction l as [|y l IH]; intros st st' Hrun x Hx.
  { by apply elem_of_nil in Hx. }
  simpl in Hrun. apply bind_returns in Hrun as (st1 & [] & Hy & Hrest).
  apply elem_of_cons in Hx as [->|Hx]; [|by eapply IH].
  eapply Hkeep; [by eapply Hstep|].
  pose proof (for_each_invariant R body l (fun x st _ => HR x st) st1) as Hinv.
  by rewrite Hrest in Hinv.
Qed.

Lemma registered_kept (l : nat) (st st' : Mem) :
  registered l st -> keeps_identity st st' -> registered l st'.
Proof.
  intros (l0 & Hg & Ht & Hc) (_ & Hf & Hr). exists l0.
  destruct (Hf l) as (-> & -> & ->), (Hf l0) as (_ & -> & ->). auto.
Qed.

Lemma upsert_registers (l : nat) (st st' : Mem) :
  upsert l st = Returns st' tt -> registered l st'.
Proof.
  destruct st as [h s]. unfold upsert. run_monad.
  destruct (dict_get (Assumption.id (deref h l)) (ThinkingSession._assumptions s))
    as [existing|] eqn:Hg.
  - destruct (String.eqb_spec (Assumption.text (deref h existing))
                (Assumption.text (deref h l))) as [Ht|]; [|discriminate].
    destruct (Bool.eqb (Assumption.critical (deref h existing))
                (Assumption.critical (deref h l))) eqn:Hc; [|discriminate].
    apply Bool.eqb_prop in Hc. simpl. intros [= <-].
    eapply (registered_kept l (h, s)).
    + exists existing. auto.
    + by apply store_keeps_identity.
  - intros [= <-]. exists l. cbn [fst snd]. destruct s; simpl.
    by rewrite dict_get_set_eq.
Qed.

Lemma index_thought_lookup (branches : dict (list Thought.t)) (t : Thought.t) :
  (Thought.is_branch t = false -> index_thought branches t = branches)
  /\ (Thought.is_branch t = true ->
      exists b, Thought.branch_id t = Some b
                /\ dict_get b (index_thought branches t)
                   = Some (default [] (dict_get b branches) ++ [t])%list
                /\ forall b', b' <> b ->
                     dict_get b' (index_thought branches t) = dict_get b' branches).
Proof.
  unfold index_thought. split.
  - intros ->. by destruct (Thought.branch_id t).
  - intros Hb. rewrite Hb.
    destruct (Thought.branch_id t) as [b|] eqn:Hid.
    2:{ unfold Thought.is_branch in Hb. rewrite Hid in Hb.
        by destruct (Thought.branch_from_thought t). }
    exists b. split; [done|]. unfold dict_contains.
    destruct (dict_get b branches) as [members|] eqn:Hg.
    + split; [by rewrite dict_get_set_eq, Hg|].
      intros b' Hne. by rewrite dict_get_set_ne.
    + split; [by rewrite !dict_get_set_eq|].
      intros b' Hne. by rewrite !dict_get_set_ne.
Qed.

(** An [add_thought] that returns has appended exactly one thought, the
    incoming one with its total adjusted, after the thoughts that were
    there; a thought that is no branch leaves the branch index alone, a
    branch is appended to the members of its own branch and to no other; and
    every assumption the thought declares is then in the registry under its
    id, bound to an object with the declared [text] and [critical]. *)
Theorem add_thought_returns_appended (thought : Thought.t)
    (validated : option (list string)) (h h' : list Assumption.t)
    (s s' : ThinkingSession.t) (t' : Thought.t) :
  add_thought thought validated (h, s) = Returns (h', s') t' ->
  t' = Thought.auto_adjust_total thought
  /\ ThinkingSession._thoughts s' = (ThinkingSession._thoughts s ++ [t'])%list
  /\ ThinkingSession.thought_count s' = (ThinkingSession.thought_count s + 1)%Z
  /\ (Thought.is_branch thought = false ->
      ThinkingSession._branches s' = ThinkingSession._branches s)
  /\ (Thought.is_branch thought = true ->
      exists b,
        Thought.branch_id thought = Some b
        /\ dict_get b (ThinkingSession._branches s')
           = Some (default [] (dict_get b (ThinkingSession._branches s)) ++ [t'])%list
        /\ forall b', b' <> b ->
             dict_get b' (ThinkingSession._branches s')
             = dict_get b' (ThinkingSession._branches s))
  /\ (forall l, l ∈ default [] (Thought.assumptions thought) ->
        exists l0,
          dict_get (Assumption.id (deref h l)) (ThinkingSession._assumptions s') = Some l0
          /\ Assumption.text (deref h' l0) = Assumption.text (deref h l)
          /\ Assumption.critical (deref h' l0) = Assumption.critical (deref h l)).
Proof.
  intros Hadd.
  pose proof (add_thought_keeps_identity thought validated (h, s)) as Hid.
  rewrite Hadd in Hid. cbn [state_of] in Hid.
  apply add_thought_result in Hadd as (-> & [h1 s1] & Hbefore & Happ).
  pose proof (before_append_same_log (Thought.auto_adjust_total thought) validated (h, s))
    as [Hlog Hbr].
  rewrite Hbefore in Hlog, Hbr. cbn [state_of snd] in Hlog, Hbr.
  pose proof (append_thought_keeps_identity (Thought.auto_adjust_total thought) (h1, s1))
    as Hid2.
  rewrite Happ in Hid2. cbn [state_of] in Hid2.
  rewrite append_thought_with in Happ. injection Happ as <- <-.
  destruct (auto_adjust_total_fields thought) as (_ & _ & Fbr & _).
  assert (Thought.branch_id (Thought.auto_adjust_total thought) = Thought.branch_id thought)
    as Fid by (by destruct thought).
  destruct (index_thought_lookup (ThinkingSession._branches s1)
              (Thought.auto_adjust_total thought)) as [Hnb Hisb].
  rewrite Fbr, Fid, Hbr in *.
  unfold with_thought, ThinkingSession.thought_count.
  cbn [ThinkingSession._thoughts ThinkingSession._branches ThinkingSession.set_thoughts
         ThinkingSession.set_branches].
  split; [done|]. split; [by rewrite Hlog|].
  split; [rewrite Hlog, length_app; simpl; lia|].
  split; [by rewrite Hbr|]. split; [by rewrite Hbr|].
  intros l Hl.
  assert (registered l (h1, s1)) as Hreg.
  { unfold before_append in Hbefore.
    apply bind_returns in Hbefore as (st0 & s0 & Hs0 & Hbefore).
    apply bind_returns in Hbefore as (st1 & [] & _ & Hbefore).
    apply bind_returns in Hbefore as (st2 & [] & _ & Hbefore).
    apply bind_returns in Hbefore as (st3 & [] & Hups & Hinv).
    assert (Thought.assumptions (Thought.auto_adjust_total thought)
            = Thought.assumptions thought) as Fa by (by destruct thought).
    rewrite Fa in Hups.
    eapply registered_kept.
    - eapply (for_each_establishes keeps_identity registered upsert); try done.
      + intros. apply upsert_keeps_identity.
      + intros. by eapply upsert_registers.
      + intros. by eapply registered_kept.
    - pose proof (for_each_invariant keeps_identity invalidate
                    (default [] (Thought.invalidates_assumptions
                                   (Thought.auto_adjust_total thought)))
                    (fun x st _ => invalidate_keeps_identity x st) st3) as Hk.
      by rewrite Hinv in Hk. }
  apply (registered_kept l _ _ Hreg) in Hid2 as (l0 & Hg & Ht & Hc).
  cbn [fst snd] in Hg, Ht, Hc. destruct Hid as (_ & Hf & _). cbn [fst] in Hf.
  destruct (Hf l) as (Ei & Et & Ec). exists l0.
  rewrite <- Ei, <- Et, <- Ec.
  destruct s1; simpl in *. auto.
Qed.

Lemma add_thought_returns_appended_witness :
  exists h' s',
    add_thought branching_thought None (example_heap, example_session)
    = Returns (h', s') branching_thought
    /\ ThinkingSession.thought_count s' = 2%Z
    /\ ThinkingSession.branch_ids s' = ["alt"]
    /\ dict_keys (ThinkingSession._assumptions s') = ["A1"; "A2"].
Proof.
  eassert (add_thought branching_thought None (example_heap, example_session)
           = Returns (_, _) _) as Hrun by (vm_compute; reflexivity).
  destruct (add_thought_returns_appended _ _ _ _ _ _ _ Hrun) as (_ & _ & Hcount & _).
  eexists _, _. split; [exact Hrun|].
  split; [exact Hcount|]. split; reflexivity.
Defined.

(** ** What the constructors let through *)

Lemma unit_float_valid (v : kwarg) (f : float) :
  Pydantic.unit_float v = Some f -> unit_interval f = true.
Proof.
  unfold Pydantic.unit_float, unit_interval.
  destruct v as [[| |n|g| | |]|]; try discriminate.
  - destruct n as [|[]|]; try discriminate; by intros [= <-].
  - destruct (PrimFloat.leb 0 g && PrimFloat.leb g 1) eqn:E; [|discriminate].
    by intros [= <-].
Qed.

Lemma optional_unit_float_valid (v : kwarg) (c : option float) :
  Pydantic.optional Pydantic.unit_float v = Some c ->
  forall f, c = Some f -> unit_interval f = true.
Proof.
  unfold Pydantic.optional. intros Hv f ->.
  assert (Some <$> Pydantic.unit_float v = Some (Some f)) as Hf.
  { by destruct v as [[]|]. }
  apply fmap_Some in Hf as (f' & Hf & [= ->]). by eapply unit_float_valid.
Qed.

Lemma positive_int_ge (v : kwarg) (n : Z) :
  Pydantic.positive_int v = Some n -> (1 <= n)%Z.
Proof.
  unfold Pydantic.positive_int. destruct (Pydantic.strict_int v) as [k|]; [|done].
  simpl. destruct (1 <=? k)%Z eqn:E; [|done]. intros [= <-]. by apply Z.leb_le.
Qed.

Lemma optional_positive_int_valid (v : kwarg) (c : option Z) :
  Pydantic.optional Pydantic.positive_int v = Some c ->
  forall n, c = Some n -> (1 <= n)%Z.
Proof.
  unfold Pydantic.optional. intros Hv n ->.
  assert (Some <$> Pydantic.positive_int v = Some (Some n)) as Hn.
  { by destruct v as [[]|]. }
  apply fmap_Some in Hn as (n' & Hn & [= ->]). by eapply positive_int_ge.
Qed.

Lemma defaulted_none {A} (validate : kwarg -> option (option A)) name kw (c : option A)
    (P : A -> Prop) :
  (forall v c, validate v = Some c -> forall x, c = Some x -> P x) ->
  Pydantic.defaulted validate name None kw = Some c ->
  forall x, c = Some x -> P x.
Proof.
  unfold Pydantic.defaulted. intros Hv. destruct (dict_get name kw) as [v|].
  - apply Hv.
  - by intros [= <-].
Qed.

Lemma Thought_fields_valid (kw : dict kwarg) a d i (t : Thought.t) :
  Thought_fields kw a d i = Some t -> valid_thought t.
Proof.
  unfold Thought_fields. intros Hf.
  destruct (Pydantic.required Pydantic.nonempty_str "thought" kw) as [text|]; [|done].
  cbn [mbind option_bind] in Hf.
  destruct (_validate_thought_not_empty text) as [text'|] eqn:Htext; [|done].
  cbn [mbind option_bind] in Hf.
  destruct (Pydantic.required Pydantic.positive_int "thought_number" kw) as [n|] eqn:Hn;
    [|done].
  cbn [mbind option_bind] in Hf.
  destruct (Pydantic.required Pydantic.positive_int "total_thoughts" kw) as [m|] eqn:Hm;
    [|done].
  cbn [mbind option_bind] in Hf.
  destruct (Pydantic.required Pydantic.strict_bool "next_thought_needed" kw); [|done].
  cbn [mbind option_bind] in Hf.
  destruct (Pydantic.defaulted _ "is_revision" None kw); [|done].
  cbn [mbind option_bind] in Hf.
  destruct (Pydantic.defaulted _ "revises_thought" None kw) as [r|] eqn:Hr; [|done].
  cbn [mbind option_bind] in Hf.
  destruct (Pydantic.defaulted _ "branch_from_thought" None kw) as [bf|] eqn:Hb; [|done].
  cbn [mbind option_bind] in Hf.
  destruct (Pydantic.defaulted _ "branch_id" None kw); [|done].
  cbn [mbind option_bind] in Hf.
  destruct (Pydantic.defaulted _ "needs_more_thoughts" None kw); [|done].
  cbn [mbind option_bind] in Hf.
  destruct (Pydantic.defaulted _ "confidence" None kw) as [c|] eqn:Hc; [|done].
  cbn [mbind option_bind] in Hf.
  repeat match type of Hf with
         | (?o ≫= _) = Some _ => destruct o; [cbn [mbind option_bind] in Hf|done]
         end.
  injection Hf as <-. unfold valid_thought. simpl.
  unfold _validate_thought_not_empty in Htext.
  destruct (String.eqb_spec text "") as [|Hne]; [done|].
  destruct (all_chars py_isspace text) eqn:Hsp; [done|]. injection Htext as <-.
  assert (forall name k, Pydantic.required Pydantic.positive_int name kw = Some k -> (1 <= k)%Z)
    as Hpos.
  { intros name k. unfold Pydantic.required. destruct (dict_get name kw) as [v|]; [|done].
    apply positive_int_ge. }
  split; [done|]. split; [done|]. split; [by eapply Hpos|]. split; [by eapply Hpos|].
  split; [|split].
  - eapply defaulted_none; [|exact Hr]. apply optional_positive_int_valid.
  - eapply defaulted_none; [|exact Hb]. apply optional_positive_int_valid.
  - eapply defaulted_none; [|exact Hc]. apply optional_unit_float_valid.
Qed.

Lemma Assumption_fields_valid (kw : dict kwarg) (a : Assumption.t) :
  Assumption_fields kw = Some a -> valid_assumption a.
Proof.
  unfold Assumption_fields. intros Hf.
  destruct (Pydantic.required Pydantic.strict_str "id" kw) as [id|]; [|done].
  cbn [mbind option_bind] in Hf.
  destruct (Assumption.id_pattern id) eqn:Hid; [|done]. cbn [mbind option_bind] in Hf.
  destruct (Pydantic.required Pydantic.nonempty_str "text" kw) as [text|] eqn:Ht; [|done].
  cbn [mbind option_bind] in Hf.
  destruct (Pydantic.defaulted Pydantic.unit_float "confidence" 1%float kw) as [c|] eqn:Hc;
    [|done].
  cbn [mbind option_bind] in Hf.
  repeat match type of Hf with
         | (?o ≫= _) = Some _ => destruct o; [cbn [mbind option_bind] in Hf|done]
         end.
  injection Hf as <-. unfold valid_assumption. simpl. split; [done|]. split.
  - unfold Pydantic.required in Ht. destruct (dict_get "text" kw) as [v|]; [|done].
    simpl in Ht. unfold Pydantic.nonempty_str in Ht.
    destruct (Pydantic.strict_str v) as [x|]; [|done]. simpl in Ht.
    destruct (String.eqb_spec x ""); [done|]. by injection Ht as <-.
  - unfold Pydantic.defaulted in Hc. destruct (dict_get "confidence" kw) as [v|].
    + by eapply unit_float_valid.
    + by injection Hc as <-.
Qed.

Lemma Thought_fields_lists (kw : dict kwarg) a d i (t : Thought.t) :
  Thought_fields kw a d i = Some t ->
  a = Some (Thought.assumptions t)
  /\ d ≫= str_list_field = Some (Thought.depends_on_assumptions t)
  /\ i ≫= str_list_field = Some (Thought.invalidates_assumptions t).
Proof.
  unfold Thought_fields. intros Hf.
  repeat match type of Hf with
         | (?o ≫= _) = Some _ =>
             let E := fresh "E" in destruct o eqn:E; [cbn [mbind option_bind] in Hf|done]
         end.
  by injection Hf as <-.
Qed.

(** ** What [load_session] hands back *)

Lemma dict_get_as_kwargs (k : string) (d : dict json) :
  dict_get k (as_kwargs d) = KJson <$> dict_get k d.
Proof.
  unfold as_kwargs. induction d as [|[k' v] d IH]; simpl; [done|].
  by destruct (String.eqb k k').
Qed.

Lemma before_list_field_instances `{JsonDecoder} {St} name kw objs (st : St) :
  dict_get name kw = Some (KInstances objs) ->
  before_list_field name kw st = Raises st TypeError.
Proof. unfold before_list_field. by intros ->. Qed.

Lemma before_list_field_falsy `{JsonDecoder} {St} name (d : dict json) (st st' : St) r :
  truthy (default JNull (dict_get name d)) = false ->
  before_list_field name (as_kwargs d) st = Returns st' r ->
  r = None \/ r = Some None.
Proof.
  unfold before_list_field. rewrite dict_get_as_kwargs.
  destruct (dict_get name d) as [v|]; simpl; [|intros _ [= _ <-]; by right].
  destruct v as [| [] |n|f|s|l|l]; simpl; try discriminate.
  - intros _ [= _ <-]. by right.
  - intros _ [= _ <-]. by left.
  - intros _ [= _ <-]. by left.
  - intros _ [= _ <-]. by left.
  - destruct (String.eqb_spec s "") as [->|]; [|done]. intros _ [= _ <-]. by right.
Qed.

Lemma load_thought_returns `{JsonDecoder} (thought_data : json)
    (h h' : list Assumption.t) (s s' : ThinkingSession.t) :
  load_thought thought_data (h, s) = Returns (h', s') tt ->
  exists t, valid_thought t /\ Thought.assumptions t = None
            /\ h' = h /\ s' = with_thought s t.
Proof.
  unfold load_thought.
  intros (st0 & a & Hget & Hrest)%bind_returns.
  destruct thought_data as [| | | | | |d]; try discriminate.
  unfold py_get in Hget. injection Hget as <- <-.
  apply bind_returns in Hrest as (st1 & kw & Hkw & Hrest).
  apply bind_returns in Hrest as (st2 & t & Hinit & Happ).
  destruct (truthy (match dict_get "assumptions" d with Some x => x | None => JNull end))
    eqn:Htruthy.
  - apply bind_returns in Hkw as (st3 & items & _ & Hkw).
    apply bind_returns in Hkw as (st4 & objs & _ & Hkw). injection Hkw as <- <-.
    unfold Thought_init in Hinit.
    erewrite bind_stop in Hinit; [discriminate|].
    eapply before_list_field_instances. apply dict_get_set_eq.
  - injection Hkw as <- <-. exists t.
    unfold Thought_init in Hinit.
    apply bind_returns in Hinit as (st5 & a0 & Ha & Hinit).
    pose proof (before_list_field_state _ _ _ _ _ Ha) as ->.
    apply before_list_field_falsy in Ha; [|done].
    apply bind_returns in Hinit as (st5 & a1 & Ha1 & Hinit).
    assert (st5 = (h, s) /\ a1 = (fun _ => None) <$> a0) as [-> ->].
    { destruct Ha as [-> | ->]; by injection Ha1 as <- <-. }
    apply bind_returns in Hinit as (st6 & d0 & Hd & Hinit).
    apply before_list_field_state in Hd as ->.
    apply bind_returns in Hinit as (st7 & i0 & Hi & Hinit).
    apply before_list_field_state in Hi as ->.
    destruct (Thought_fields (as_kwargs d) _ d0 i0) as [t'|] eqn:Hf; [|discriminate].
    injection Hinit as <- <-.
    rewrite load_append_with in Happ. injection Happ as <- <-.
    split; [by eapply Thought_fields_valid|].
    apply Thought_fields_lists in Hf as (Hl & _).
    destruct Ha as [-> | ->]; [discriminate|]. simpl in Hl. by injection Hl as <-.
Qed.

Lemma for_each_preserves {St A} (I : St -> Prop) (body : A -> M St unit) (l : list A) :
  (forall x st st', I st -> body x st = Returns st' tt -> I st') ->
  forall st st', I st -> for_each l body st = Returns st' tt -> I st'.
Proof.
  intros Hbody. induction l as [|x l IH]; intros st st' HI; simpl.
  - by intros [= <-].
  - intros (st1 & [] & Hx & Hl)%bind_returns. eapply IH; [|exact Hl]. by eapply Hbody.
Qed.

Lemma Forall_dict_set {V} (P : string * V -> Prop) (k : string) (v : V) (d : dict V) :
  P (k, v) -> Forall P d -> Forall P (dict_set k v d).
Proof.
  intros Hkv. induction 1 as [|[k' v'] d Hx Hd IH]; simpl; [by repeat constructor|].
  destruct (String.eqb k k'); by constructor.
Qed.

Lemma load_assumption_returns (item : string * json) (h h' : list Assumption.t)
    (s s' : ThinkingSession.t) :
  load_assumption item (h, s) = Returns (h', s') tt ->
  exists a, valid_assumption a /\ h' = (h ++ [a])%list
            /\ s' = ThinkingSession.set_assumptions s
                      (dict_set (fst item) (length h) (ThinkingSession._assumptions s)).
Proof.
  unfold load_assumption, on_heap, zoom, Assumption_init, alloc. run_monad.
  destruct (snd item) as [| | | | | |d]; try discriminate.
  destruct (Assumption_fields (as_kwargs d)) as [a|] eqn:Hf; [|discriminate].
  simpl. intros [= <- <-]. exists a. split; [by eapply Assumption_fields_valid|done].
Qed.

Lemma rebuild_session_rebuilt `{JsonDecoder} (data : json) (h0 h' : list Assumption.t)
    (s' : ThinkingSession.t) :
  rebuild_session data (h0, ThinkingSession.new) = Returns (h', s') tt ->
  rebuilt h0 (h', s').
Proof.
  unfold rebuild_session.
  intros (st0 & a & Ha & Hrest)%bind_returns.
  assert (st0 = (h0, ThinkingSession.new)) as ->.
  { unfold py_get in Ha. destruct data; try discriminate. by injection Ha as <- _. }
  apply bind_returns in Hrest as (st1 & items & Hitems & Hrest).
  assert (st1 = (h0, ThinkingSession.new)) as ->.
  { unfold py_items in Hitems. destruct a; try discriminate. by injection Hitems as <- _. }
  apply bind_returns in Hrest as ([h1 s1] & [] & Hloop1 & Hrest).
  assert (rebuilt h0 (h1, s1)) as Hinv1.
  { eapply (for_each_preserves (rebuilt h0)); [|..|exact Hloop1].
    - intros item [h s] [h2 s2] (Hp & Ht & Hr & Hb) Hitem.
      apply load_assumption_returns in Hitem as (obj & Hobj & -> & ->).
      split; [by apply prefix_app_r|]. split; [by destruct s|]. split; [|by destruct s].
      cbn [fst snd]. destruct s as [ts bs reg u c]; cbn.
      pose proof (prefix_length _ _ Hp) as Hlen. cbn [fst] in Hlen.
      apply Forall_dict_set.
      + cbn [snd]. rewrite length_app. simpl. split; [lia|].
        unfold deref. rewrite lookup_total_app_r by lia. by rewrite Nat.sub_diag.
      + cbn in Hr. eapply Forall_impl; [exact Hr|]. intros [k l] [Hl Hv]. cbn [snd] in *.
        rewrite length_app. simpl. split; [lia|].
        unfold deref in *. by rewrite lookup_total_app_l by lia.
    - split; [done|]. split; [constructor|]. split; [constructor|done]. }
  apply bind_returns in Hrest as (st2 & ts & Hts & Hrest).
  assert (st2 = (h1, s1)) as ->.
  { unfold py_get in Hts. destruct data; try discriminate. by injection Hts as <- _. }
  apply bind_returns in Hrest as (st3 & ts' & Hts' & Hrest).
  assert (st3 = (h1, s1)) as ->.
  { unfold py_iter in Hts'. destruct ts; try discriminate; by injection Hts' as <- _. }
  apply bind_returns in Hrest as ([h2 s2] & [] & Hloop2 & Hrest).
  assert (rebuilt h0 (h2, s2)) as Hinv2.
  { eapply (for_each_preserves (rebuilt h0)); [|exact Hinv1|exact Hloop2].
    intros td [h s] [h3 s3] (Hp & Ht & Hr & Hb) Htd.
    apply load_thought_returns in Htd as (t & Hvalid & Hnone & -> & ->).
    split; [done|]. destruct s as [ts0 bs reg u c]; cbn in *. split; [|split; [done|]].
    - apply Forall_app. split; [done|]. constructor; [done|constructor].
    - unfold branch_index. rewrite fold_left_app. simpl. by rewrite Hb. }
  run_monad. destruct data; try discriminate. simpl in Hrest.
  injection Hrest as <- <-. destruct Hinv2 as (? & ? & ? & ?).
  destruct s2; repeat split; done.
Qed.

(** Whatever the record holds, a session that [load_session] returns has
    passed validation: the id is an accepted one and its record is JSON;
    every thought satisfies the field constraints and lists no assumptions;
    every registry entry names a valid object that the load created (none
    that existed before); the branch index is rebuilt from the thoughts, not
    read from the record; and files, cache and existing objects are as they
    were. *)
Theorem load_session_validated `{JsonDecoder} (session_id : string) (w w' : World)
    (s : ThinkingSession.t) :
  load_session session_id w = Returns w' (Some s) ->
  accepted_session_id session_id
  /\ (exists data, files w !! (session_id +:+ ".json") = Some (FileJson data))
  /\ reads_only w w'
  /\ Forall (fun t => valid_thought t /\ Thought.assumptions t = None)
       (ThinkingSession._thoughts s)
  /\ Forall (fun kv => (length (objects w) <= snd kv < length (objects w'))%nat
                       /\ valid_assumption (deref (objects w') (snd kv)))
       (ThinkingSession._assumptions s)
  /\ ThinkingSession._branches s = branch_index (ThinkingSession._thoughts s).
Proof.
  intros Hload.
  pose proof (load_session_reads_only session_id w) as Hro.
  rewrite Hload in Hro. cbn [state_of] in Hro.
  unfold load_session in Hload.
  apply bind_returns in Hload as (w0 & path & Hpath & Hload).
  assert (accepted_session_id session_id) as Hid.
  { unfold _session_file_path in Hpath.
    apply bind_returns in Hpath as (w1 & [] & Hv & _).
    pose proof (validate_session_id_state session_id w) as Hst.
    rewrite Hv in Hst. simpl in Hst. subst w1.
    by apply (validate_session_id_returns session_id w). }
  rewrite (session_file_path_returns session_id w Hid) in Hpath.
  injection Hpath as <- <-.
  apply bind_returns in Hload as (w1 & w2 & Hget & Hload). injection Hget as <- <-.
  destruct (files w !! (session_id +:+ ".json")) as [[data| | | | |]|] eqn:Hfile;
    try discriminate.
  split; [done|]. split; [by exists data|]. split; [done|].
  unfold try_except, zoom in Hload.
  destruct ((rebuild_session data ≫= _) (objects w, ThinkingSession.new))
    as [[h1 s1] r|[h1 s1] e] eqn:Hrun.
  2:{ destruct (invalid_structure e); discriminate. }
  injection Hload as <- ->.
  apply bind_returns in Hrun as ([h2 s2] & [] & Hrebuild & Hself).
  run_monad. injection Hself as <- <-.
  apply rebuild_session_rebuilt in Hrebuild as (_ & Ht & Hr & Hb). subst s2. auto.
Qed.

Lemma load_session_validated_witness :
  exists w' s,
    load_session (H := rejecting_decoder) "s" saved_world = Returns w' (Some s)
    /\ files w' = files saved_world
    /\ Forall (fun t => valid_thought t /\ Thought.assumptions t = None)
         (ThinkingSession._thoughts s)
    /\ ThinkingSession._assumptions s = [("A1", 4%nat)]
    /\ ThinkingSession.branch_ids s = ["alt"].
Proof.
  eassert (load_session (H := rejecting_decoder) "s" saved_world = Returns _ (Some _))
    as Hrun by (vm_compute; reflexivity).
  destruct (load_session_validated (H := rejecting_decoder) _ _ _ _ Hrun)
    as (_ & _ & (Hfiles & _) & Hthoughts & _).
  eexists _, _. split; [exact Hrun|]. split; [exact Hfiles|]. split; [exact Hthoughts|].
  split; reflexivity.
Defined.

(** ** The session cache *)

Lemma get_or_create_session_reads `{JsonDecoder} (session_id : option string)
    (new_id : string) (w : World) :
  files (state_of (_get_or_create_session session_id new_id w)) = files w
  /\ objects w `prefix_of` objects (state_of (_get_or_create_session session_id new_id w)).
Proof.
  destruct session_id as [sid|]; unfold _get_or_create_session; [|done].
  unfold mbind, M_bind, bind, get. cbn beta iota.
  destruct (_sessions w !! sid) as [s0|]; [done|].
  pose proof (load_session_reads_only sid w) as (Hf & Hs & Ho).
  by destruct (load_session sid w) as [w1 [loaded|]|w1 e].
Qed.

(** [_get_or_create_session] never touches a file and only adds objects.
    When it returns, the session it hands back is the one cached under the
    id it hands back, which is the requested id, or the fresh one when none
    was requested; no other cache entry has changed; a cached session is
    handed back as it is, with nothing changed at all; a session created
    for a fresh id is empty.  It raises only when the requested id is not
    cached and [load_session] raises for it, and the cache is then
    unchanged. *)
Theorem get_or_create_session_cached `{JsonDecoder} (session_id : option string)
    (new_id : string) (w : World) :
  files (state_of (_get_or_create_session session_id new_id w)) = files w
  /\ objects w `prefix_of` objects (state_of (_get_or_create_session session_id new_id w))
  /\ (forall w' sid s,
        _get_or_create_session session_id new_id w = Returns w' (sid, s) ->
        sid = default new_id session_id
        /\ _sessions w' !! sid = Some s
        /\ (forall k, k <> sid -> _sessions w' !! k = _sessions w !! k)
        /\ (session_id = None -> s = ThinkingSession.new)
        /\ (forall s0, session_id = Some sid -> _sessions w !! sid = Some s0 ->
                       s = s0 /\ w' = w))
  /\ (forall w' e,
        _get_or_create_session session_id new_id w = Raises w' e ->
        _sessions w' = _sessions w
        /\ exists sid, session_id = Some sid /\ _sessions w !! sid = None
                       /\ load_session sid w = Raises w' e).
Proof.
  destruct session_id as [sid|]; unfold _get_or_create_session.
  2:{ run_monad. split; [done|]. split; [done|]. split; [|discriminate].
      intros w' sid s [= <- <- <-]. simpl. split; [done|]. split; [apply lookup_insert_eq|].
      split; [|done]. intros k Hk. by rewrite lookup_insert_ne. }
  unfold mbind, M_bind, bind, get. cbn beta iota.
  destruct (_sessions w !! sid) as [s0|] eqn:Hc.
  { simpl. split; [done|]. split; [done|]. split; [|discriminate].
    intros w' sid0 s [= <- <- <-]. simpl. split; [done|]. split; [done|]. split; [done|].
    split; [done|]. intros s1 _ ?. by simplify_eq. }
  pose proof (load_session_reads_only sid w) as (Hf & Hs & Ho).
  destruct (load_session sid w) as [w1 [loaded|]|w1 e] eqn:Hl; simpl in *.
  - split; [done|]. split; [done|]. split; [|discriminate].
    intros w' sid0 s [= <- <- <-]. simpl. split; [done|]. split; [apply lookup_insert_eq|].
    split; [|split; [done|]].
    + intros k Hk. rewrite lookup_insert_ne by done. by rewrite Hs.
    + intros s0 _ Hc'. congruence.
  - split; [done|]. split; [done|]. split; [|discriminate].
    intros w' sid0 s [= <- <- <-]. simpl. split; [done|]. split; [apply lookup_insert_eq|].
    split; [|split; [done|]].
    + intros k Hk. rewrite lookup_insert_ne by done. by rewrite Hs.
    + intros s0 _ Hc'. congruence.
  - split; [done|]. split; [done|]. split; [discriminate|].
    intros w' e' [= <- <-]. split; [done|]. by exists sid.
Qed.

(** ** Requests with a list field *)

#[local] Instance keeps_files_preorder : PreOrder keeps_files.
Proof.
  split; [by intros w|]. intros a b c. unfold keeps_files. congruence.
Qed.

Lemma validate_cross_session_refs_files `{JsonDecoder} (depends_on : list string)
    (session_id : string) (w : World) :
  keeps_files w (state_of (validate_cross_session_refs depends_on session_id w)).
Proof.
  revert w. induction depends_on as [|x l IH]; intros w; simpl; [reflexivity|].
  destruct (split_colon x); [|apply IH].
  apply bind_invariant; [apply _| |].
  { intros st. by destruct (resolve_only_adds x session_id st) as (? & _). }
  intros [? ?] st. apply bind_invariant; [apply _|apply IH|]. intros. reflexivity.
Qed.

Lemma Thought_init_list_raises `{JsonDecoder} `{Heaped St} (request : ThoughtRequest.t)
    (n : Z) (b : bool) (st : St) :
  ThoughtRequest.assumptions request <> None
  \/ ThoughtRequest.depends_on_assumptions request <> None
  \/ ThoughtRequest.invalidates_assumptions request <> None ->
  Thought_init
    (as_kwargs (dict_set "next_thought_needed" (JBool b)
                  (dict_set "thought_number" (JInt n) (ThoughtRequest.model_dump request))))
    st
  = Raises st TypeError.
Proof.
  destruct request as [? ? ? ? ? ? ? ? ? ? ? ? ? a d i]. simpl.
  intros Hlist. destruct a as [a|], d as [d|], i as [i|]; try reflexivity.
  by destruct Hlist as [? | [? | ?]].
Qed.

(** A request that carries [assumptions], [depends_on_assumptions] or
    [invalidates_assumptions] (even an empty list) is never processed:
    [process_thought] raises, nothing is appended to the record of any
    session, and once the session has been found and the cross-session
    dependencies looked up, the exception is the [TypeError] of
    [_parse_json_list], raised by the constructor of the thought before
    [add_thought] and [save_session] are reached. *)
Theorem process_thought_list_field_raises `{JsonDecoder} (request : ThoughtRequest.t)
    (new_id : string) (w : World) :
  ThoughtRequest.assumptions request <> None
  \/ ThoughtRequest.depends_on_assumptions request <> None
  \/ ThoughtRequest.invalidates_assumptions request <> None ->
  exists w' e,
    process_thought request new_id w = Raises w' e
    /\ files w' = files w
    /\ (forall w1 sid s w2 validated,
          _get_or_create_session (ThoughtRequest.session_id request) new_id w
          = Returns w1 (sid, s) ->
          validate_cross_session_refs
            (default [] (ThoughtRequest.depends_on_assumptions request)) sid w1
          = Returns w2 validated ->
          e = TypeError /\ w' = w2).
Proof.
  intros Hlist. unfold process_thought.
  destruct (get_or_create_session_reads (ThoughtRequest.session_id request) new_id w)
    as (Hfiles & _).
  destruct (_get_or_create_session (ThoughtRequest.session_id request) new_id w)
    as [w1 [sid s]|w1 e] eqn:Hget; cbn [state_of] in Hfiles.
  2:{ exists w1, e. split; [by apply bind_stop|]. split; [done|]. discriminate. }
  pose proof (validate_cross_session_refs_files
                (default [] (ThoughtRequest.depends_on_assumptions request)) sid w1) as Hv.
  destruct (validate_cross_session_refs
              (default [] (ThoughtRequest.depends_on_assumptions request)) sid w1)
    as [w2 validated|w2 e] eqn:Hval; cbn [state_of] in Hv; unfold keeps_files in Hv.
  2:{ exists w2, e. split.
      - eapply bind_step; [exact Hget|]. by apply bind_stop.
      - split; [congruence|]. intros ? ? ? ? ? [= <- <- <-]. congruence. }
  exists w2, TypeError. split.
  - eapply bind_step; [exact Hget|]. eapply bind_step; [exact Hval|].
    apply bind_stop. by apply Thought_init_list_raises.
  - split; [congruence|]. intros ? ? ? ? ? [= <- <- <-]. rewrite Hval. by intros [= <- _].
Qed.

Lemma process_thought_list_field_raises_witness :
  process_thought (H := rejecting_decoder) dependent_request "s" fresh_world
  = Raises (set_sessions fresh_world (<["s" := ThinkingSession.new]> ∅)) TypeError.
Proof.
  destruct (process_thought_list_field_raises (H := rejecting_decoder) dependent_request "s"
              fresh_world) as (w' & e & Hrun & _ & Hexn).
  { right. left. discriminate. }
  destruct (Hexn _ _ _ _ _ eq_refl eq_refl) as [-> ->]. exact Hrun.
Defined.

(** ** Requests without lists *)







(** ** The response and the record *)

Lemma mapM_strict_str_inv (l0 : list json) (l : list string) :
  mapM (fun x => Pydantic.strict_str (KJson x)) l0 = Some l -> l0 = JStr <$> l.
Proof.
  revert l. induction l0 as [|x l0 IH]; intros l; cbn [mapM].
  - by intros [= <-].
  - destruct x; try discriminate. cbn [Pydantic.strict_str mbind option_bind].
    destruct (mapM _ l0) as [k|]; [|discriminate]. cbn [mbind option_bind].
    intros [= <-]. by rewrite (IH k eq_refl).
Qed.

Lemma response_str_list_returns {St} (v : json) (st st' : St) (l : list string) :
  response_str_list v st = Returns st' l -> st' = st /\ v = json_str_list l.
Proof.
  unfold response_str_list, str_list_field, json_str_list.
  destruct v as [| | | | |l0|]; try discriminate.
  destruct (mapM _ l0) as [k|] eqn:Hk; [|discriminate]. simpl.
  intros [= <- <-]. split; [done|]. f_equal. by apply mapM_strict_str_inv.
Qed.

(** Whenever [process_thought] returns, the session has been saved and the
    response is a snapshot of what was saved: the session cached under the
    id of the response is the one whose dump is the record of that id; its
    last thought carries the number, total and flag of the response; and the
    count, branch ids, assumptions, risky and falsified ids and the two
    lists of the response are those of that session. *)
Theorem process_thought_response_is_saved `{JsonDecoder} (request : ThoughtRequest.t)
    (new_id : string) (w w' : World) (r : ThoughtResponse.t) :
  process_thought request new_id w = Returns w' r ->
  exists (s : ThinkingSession.t) (t : Thought.t),
    _sessions w' !! ThoughtResponse.session_id r = Some s
    /\ files w' !! (ThoughtResponse.session_id r +:+ ".json")
       = Some (FileJson (session_json (objects w') s))
    /\ last (ThinkingSession._thoughts s) = Some t
    /\ Thought.thought_number t = ThoughtResponse.thought_number r
    /\ Thought.total_thoughts t = ThoughtResponse.total_thoughts r
    /\ Thought.next_thought_needed t = ThoughtResponse.next_thought_needed r
    /\ ThoughtResponse.thought_history_length r = ThinkingSession.thought_count s
    /\ ThoughtResponse.branches r = ThinkingSession.branch_ids s
    /\ ThoughtResponse.all_assumptions r = ThinkingSession.all_assumptions (objects w') s
    /\ ThoughtResponse.risky_assumptions r
       = ThinkingSession.risky_assumptions (objects w') s
    /\ ThoughtResponse.falsified_assumptions r
       = ThinkingSession.falsified_assumptions (objects w') s
    /\ ThinkingSession._unresolved_refs s
       = json_str_list (ThoughtResponse.unresolved_references r)
    /\ ThinkingSession._cross_session_warnings s
       = json_str_list (ThoughtResponse.cross_session_warnings r).
Proof.
  unfold process_thought.
  intros (w1 & [sid s0] & Hget & Hrest)%bind_returns.
  apply bind_returns in Hrest as (w2 & validated & _ & Hrest).
  apply bind_returns in Hrest as (w3 & thought & Hinit & Hrest).
  apply bind_returns in Hrest as (w4 & [t s] & Hon & Hrest).
  apply bind_returns in Hrest as (w5 & [] & Hsave & Hrest).
  apply bind_returns in Hrest as (w6 & w6' & Hw6 & Hrest). injection Hw6 as <- <-.
  apply bind_returns in Hrest as (w7 & u & Hu & Hrest).
  apply bind_returns in Hrest as (w8 & v & Hv & Hrest).
  apply bind_returns in Hrest as (w9 & u' & Hu' & Hrest).
  apply bind_returns in Hrest as (w10 & v' & Hv' & Hrest).
  injection Hrest as <- <-.
  assert (w7 = w5 /\ u = ThinkingSession._unresolved_refs s) as [-> ->].
  { unfold py_copy in Hu. destruct (ThinkingSession._unresolved_refs s);
      try discriminate; by injection Hu as <- <-. }
  assert (w8 = w5 /\ v = ThinkingSession._cross_session_warnings s) as [-> ->].
  { unfold py_copy in Hv. destruct (ThinkingSession._cross_session_warnings s);
      try discriminate; by injection Hv as <- <-. }
  apply response_str_list_returns in Hu' as [-> Hu'].
  apply response_str_list_returns in Hv' as [-> Hv'].
  unfold on_session in Hon.
  destruct (add_thought thought (Some validated) (objects w3, s0)) as [[h1 s1] t1|? ?] eqn:Hadd;
    [|discriminate].
  injection Hon as <- <- <-. cbn [fst snd] in *.
  apply add_thought_result in Hadd as (-> & [h2 s2] & Hbefore & Happ).
  rewrite append_thought_with in Happ. injection Happ as <- <-.
  unfold save_session in Hsave.
  apply bind_returns in Hsave as (w11 & w11' & Hg & Hsave). injection Hg as <- <-.
  apply bind_returns in Hsave as (w12 & path & Hpath & Hput).
  pose proof (session_file_path_state sid
                (set_sessions (set_objects w3 h2)
                   (<[sid := with_thought s2 (Thought.auto_adjust_total thought)]>
                      (_sessions w3)))) as Hst.
  assert (accepted_session_id sid) as Hid.
  { unfold _session_file_path in Hpath.
    apply bind_returns in Hpath as (w13 & [] & Hval & _).
    pose proof (validate_session_id_state sid
                  (set_sessions (set_objects w3 h2)
                     (<[sid := with_thought s2 (Thought.auto_adjust_total thought)]>
                        (_sessions w3)))) as Hst'.
    rewrite Hval in Hst'. simpl in Hst'. subst w13.
    by eapply validate_session_id_returns. }
  rewrite (session_file_path_returns sid _ Hid) in Hpath. injection Hpath as <- <-.
  injection Hput as <-.
  exists (with_thought s2 (Thought.auto_adjust_total thought)),
    (Thought.auto_adjust_total thought).
  cbn [ThoughtResponse.session_id ThoughtResponse.thought_number
         ThoughtResponse.total_thoughts ThoughtResponse.next_thought_needed
         ThoughtResponse.thought_history_length ThoughtResponse.branches
         ThoughtResponse.all_assumptions ThoughtResponse.risky_assumptions
         ThoughtResponse.falsified_assumptions ThoughtResponse.unresolved_references
         ThoughtResponse.cross_session_warnings set_files set_sessions set_objects
         _sessions files objects].
  split; [apply lookup_insert_eq|]. split; [apply lookup_insert_eq|].
  split; [|done].
  unfold with_thought. destruct s2; simpl. apply last_snoc.
Qed.

Lemma process_thought_response_is_saved_witness :
  exists w' r s,
    process_thought (H := rejecting_decoder) first_request "s" fresh_world = Returns w' r
    /\ _sessions w' !! "s" = Some s
    /\ files w' !! "s.json" = Some (FileJson (session_json (objects w') s))
    /\ ThinkingSession.thought_count s = ThoughtResponse.thought_history_length r.
Proof.
  eassert (process_thought (H := rejecting_decoder) first_request "s" fresh_world
           = Returns _ _) as Hrun by (vm_compute; reflexivity).
  destruct (process_thought_response_is_saved (H := rejecting_decoder) _ _ _ _ _ Hrun)
    as (s & t & Hcache & Hfile & _ & _ & _ & _ & Hcount & _).
  eexists _, _, s. split; [exact Hrun|]. split; [exact Hcache|]. split; [exact Hfile|].
  symmetry. exact Hcount.
Defined.

(** ** Dependencies that resolve *)

#[local] Instance only_adds_preorder : PreOrder only_adds.
Proof.
  split.
  - intros w. repeat split; auto.
  - intros a b c (F1 & S1 & O1) (F2 & S2 & O2). repeat split; [congruence|auto|].
    by trans (objects b).
Qed.

Lemma resolve_true `{JsonDecoder} (x current : string) (w w' : World) (r : option string) :
  split_colon x <> None ->
  _resolve_cross_session_assumption x current w = Returns w' (r, true) ->
  resolved w' x.
Proof.
  intros Hscoped. unfold resolved.
  destruct (_parse_assumption_id x) as [[target|] local] eqn:Hp.
  2:{ unfold _parse_assumption_id in Hp. by destruct (split_colon x) as [[]|]. }
  destruct (_sessions w !! target) as [s|] eqn:Hc.
  { erewrite resolve_cached by done.
    destruct (dict_contains local (ThinkingSession._assumptions s)) eqn:Hd; [|done].
    intros [= <- _]. by exists target, local, s. }
  destruct (load_session target w) as [w1 [s|]|w1 e] eqn:Hl.
  - erewrite resolve_load_present by done.
    destruct (dict_contains local (ThinkingSession._assumptions s)) eqn:Hd; [|done].
    intros [= <- _]. exists target, local, s. split; [done|]. split; [|done].
    apply lookup_insert_eq.
  - by erewrite resolve_load_absent by done.
  - by erewrite resolve_load_raises by done.
Qed.

Lemma resolved_kept (w w' : World) (x : string) :
  resolved w x -> only_adds w w' -> resolved w' x.
Proof.
  intros (target & local & s & Hp & Hc & Hd) (_ & Hs & _).
  exists target, local, s. auto.
Qed.

Lemma validate_cross_session_refs_only_adds `{JsonDecoder} (l : list string)
    (session_id : string) (w : World) :
  only_adds w (state_of (validate_cross_session_refs l session_id w)).
Proof.
  revert w. induction l as [|x l IH]; intros w; simpl; [reflexivity|].
  destruct (split_colon x); [|apply IH].
  apply bind_invariant; [apply _|intros; apply resolve_only_adds|].
  intros [? ?] st. apply bind_invariant; [apply _|apply IH|]. intros. reflexivity.
Qed.

(** The ids [process_thought] passes to [add_thought] as validated are
    entries of the request's dependencies, in their order; each is a scoped
    id that names an assumption of a session in the cache once the lookups
    are done; and [add_thought] accepts a dependency on each of them without
    recording it as unresolved or changing anything.  The lookups change no
    file and no cached session and only add objects. *)
Theorem validated_dependencies_resolve `{JsonDecoder} (depends_on : list string)
    (session_id : string) (w w' : World) (validated : list string) :
  validate_cross_session_refs depends_on session_id w = Returns w' validated ->
  sublist validated depends_on
  /\ only_adds w w'
  /\ (forall x, x ∈ validated ->
        resolved w' x
        /\ forall h s, depend_on (Some validated) x (h, s) = Returns (h, s) tt).
Proof.
  intros Hrun.
  pose proof (validate_cross_session_refs_only_adds depends_on session_id w) as Hadds.
  rewrite Hrun in Hadds. cbn [state_of] in Hadds.
  assert (sublist validated depends_on /\ forall x, x ∈ validated -> resolved w' x)
    as [Hsub Hres].
  { clear Hadds. revert w validated Hrun.
    induction depends_on as [|x l IH]; intros w validated; simpl.
    { intros [= <- <-]. split; [constructor|]. intros x Hx. by apply elem_of_nil in Hx. }
    destruct (split_colon x) as [p|] eqn:Hx.
    2:{ intros Hrun. destruct (IH _ _ Hrun) as [Hsub Hres]. split; [by constructor|done]. }
    intros (w1 & [r resolved_x] & Hlook & Hrest)%bind_returns.
    apply bind_returns in Hrest as (w2 & v & Hl & Hret). injection Hret as <- <-.
    destruct (IH _ _ Hl) as [Hsub Hres].
    destruct resolved_x; [|split; [by constructor|done]].
    split; [by constructor|]. intros y [->|Hy]%elem_of_cons; [|by apply Hres].
    eapply resolved_kept.
    - eapply resolve_true; [|exact Hlook]. by rewrite Hx.
    - pose proof (validate_cross_session_refs_only_adds l session_id w1) as Hk.
      by rewrite Hl in Hk. }
  split; [done|]. split; [done|]. intros x Hx. split; [by apply Hres|].
  intros h s. destruct (Hres x Hx) as (target & local & s0 & Hp & _).
  unfold depend_on. run_monad. rewrite Hp. simpl.
  assert (existsb (String.eqb x) validated = true) as ->; [|done].
  apply existsb_exists. exists x. split; [|apply String.eqb_refl].
  by apply list_elem_of_In.
Qed.

Lemma validated_dependencies_resolve_witness :
  validate_cross_session_refs (H := rejecting_decoder) ["other:A1"; "A1"; "other:A9"] "s"
    other_cached
  = Returns other_cached ["other:A1"]
  /\ resolved other_cached "other:A1"
  /\ depend_on (Some ["other:A1"]) "other:A1" ([], ThinkingSession.new)
     = Returns ([], ThinkingSession.new) tt.
Proof.
  assert (validate_cross_session_refs (H := rejecting_decoder)
            ["other:A1"; "A1"; "other:A9"] "s" other_cached
          = Returns other_cached ["other:A1"]) as Hrun by (vm_compute; reflexivity).
  destruct (validated_dependencies_resolve (H := rejecting_decoder) _ _ _ _ _ Hrun)
    as (_ & _ & Hres).
  destruct (Hres "other:A1" ltac:(left)) as [Hr Hdep].
  split; [exact Hrun|]. split; [exact Hr|]. apply Hdep.
Defined.

(** ** Records *)





(** ** Resuming a saved session *)




(** ** Requests that fail *)





Lemma load_session_rejects `{JsonDecoder} (session_id : string) (w : World) :
  ~ accepted_session_id session_id ->
  exists m, load_session session_id w = Raises w (ValueError m)
            /\ kind_of m = InvalidIdentifier.
Proof.
  intros Hno.
  assert (exists m, _validate_session_id session_id w = Raises w (ValueError m)
                    /\ kind_of m = InvalidIdentifier) as (m & Hv & Hk).
  { pose proof (validate_session_id_returns session_id w) as Hiff.
    unfold _validate_session_id in *.
    destruct (String.eqb session_id ""); [by eexists|].
    destruct (128 <? String.length session_id)%nat; [by eexists|].
    destruct (negb (_SESSION_ID_PATTERN_match session_id)); [by eexists|].
    exfalso. apply Hno, Hiff. reflexivity. }
  exists m. split; [|exact Hk].
  unfold load_session, _session_file_path. unfold mbind, M_bind, bind. by rewrite Hv.
Qed.

(** A request for a session id outside the rule, not in the cache, is
    refused before anything happens: [process_thought] raises an
    [InvalidIdentifier] error and leaves the cache, the files and the
    objects as they were; no session is created under that id. *)
Theorem process_thought_invalid_session_id `{JsonDecoder} (request : ThoughtRequest.t)
    (new_id session_id : string) (w : World) :
  ThoughtRequest.session_id request = Some session_id ->
  ~ accepted_session_id session_id ->
  _sessions w !! session_id = None ->
  exists m, process_thought request new_id w = Raises w (ValueError m)
            /\ kind_of m = InvalidIdentifier.
Proof.
  intros Hsid Hno Hcache.
  destruct (load_session_rejects session_id w Hno) as (m & Hload & Hk).
  exists m. split; [|exact Hk].
  unfold process_thought. apply bind_stop. rewrite Hsid.
  unfold _get_or_create_session. eapply bind_step; [reflexivity|]. rewrite Hcache.
  by apply bind_stop.
Qed.

Lemma process_thought_invalid_session_id_witness :
  process_thought (H := rejecting_decoder) traversal_request "new" fresh_world
  = Raises fresh_world (ValueError (Msg_session_id_invalid "../etc")).
Proof.
  destruct (process_thought_invalid_session_id (H := rejecting_decoder) traversal_request
              "new" "../etc" fresh_world eq_refl) as (m & Hrun & _).
  - intros Hacc. apply (validate_session_id_returns "../etc" tt) in Hacc.
    discriminate Hacc.
  - reflexivity.
  - rewrite Hrun. f_equal. f_equal.
    assert (process_thought (H := rejecting_decoder) traversal_request "new" fresh_world
            = Raises fresh_world (ValueError (Msg_session_id_invalid "../etc"))) as Hc
      by (vm_compute; reflexivity).
    rewrite Hrun in Hc. by injection Hc.
Defined.



(** ** The order of the steps of [add_thought] *)

#[local] Instance same_registry_preorder : PreOrder same_registry.
Proof.
  split; [by intros st|]. intros a b c [H1 H2] [H3 H4]. split; congruence.
Qed.

#[local] Instance keeps_falsified_preorder : PreOrder keeps_falsified.
Proof.
  split.
  - intros st. split; [reflexivity|auto].
  - intros a b c [H1 H2] [H3 H4]. split; [by etrans|auto].
Qed.

Lemma depend_on_same_registry validated x st :
  same_registry st (state_of (depend_on validated x st)).
Proof.
  destruct st as [h s]. unfold depend_on. run_monad.
  repeat case_match; simplify_eq; simpl; split; try done; by destruct s.
Qed.

Lemma depend_on_returns_known validated x st st' :
  depend_on validated x st = Returns st' tt ->
  fst (_parse_assumption_id x) = None ->
  dict_contains x (ThinkingSession._assumptions (snd st')) = true.
Proof.
  destruct st as [h s]. unfold depend_on. run_monad. intros Hrun Hlocal.
  rewrite Hlocal in Hrun.
  destruct (dict_contains x (ThinkingSession._assumptions s)) eqn:Hc; [|discriminate].
  by injection Hrun as <-.
Qed.

(** The dependencies of a thought are checked before its declarations are
    applied: when [add_thought] returns, every unscoped id in
    [depends_on_assumptions] was in the registry before the call.  A thought
    cannot depend on an assumption that it is the first to declare. *)
Theorem add_thought_dependencies_known_before (thought : Thought.t)
    (validated : option (list string)) (h h' : list Assumption.t)
    (s s' : ThinkingSession.t) (t' : Thought.t) :
  add_thought thought validated (h, s) = Returns (h', s') t' ->
  forall x, x ∈ default [] (Thought.depends_on_assumptions thought) ->
            fst (_parse_assumption_id x) = None ->
            dict_contains x (ThinkingSession._assumptions s) = true.
Proof.
  intros (-> & [h1 s1] & Hbefore & _)%add_thought_result x Hx Hlocal.
  assert (Thought.depends_on_assumptions (Thought.auto_adjust_total thought)
          = Thought.depends_on_assumptions thought) as Fd by (by destruct thought).
  unfold before_append in Hbefore. rewrite Fd in Hbefore.
  apply bind_returns in Hbefore as (st0 & s0 & Hs0 & Hbefore).
  injection Hs0 as <- <-.
  apply bind_returns in Hbefore as (st1 & [] & Hrefs & Hbefore).
  apply (f_equal state_of) in Hrefs. rewrite validate_references_state in Hrefs.
  simpl in Hrefs. subst st1.
  apply bind_returns in Hbefore as (st2 & [] & Hdeps & _).
  pose proof (for_each_invariant same_registry (depend_on validated)
                (default [] (Thought.depends_on_assumptions thought))
                (fun y st _ => depend_on_same_registry validated y st) (h, s)) as [_ Hreg].
  rewrite Hdeps in Hreg. cbn [state_of snd] in Hreg. rewrite <- Hreg.
  eapply (for_each_establishes same_registry
            (fun y st => fst (_parse_assumption_id y) = None ->
                         dict_contains y (ThinkingSession._assumptions (snd st)) = true)
            (depend_on validated)); [| | |exact Hdeps|exact Hx|exact Hlocal].
  - intros. apply depend_on_same_registry.
  - intros y st st' Hy Hl. by eapply depend_on_returns_known.
  - intros y st st' Hq [_ Hr] Hl. rewrite Hr. by apply Hq.
Qed.

Lemma add_thought_dependencies_known_before_witness :
  exists st t',
    add_thought depending_thought None (example_heap, example_session) = Returns st t'
    /\ dict_contains "A1" (ThinkingSession._assumptions example_session) = true.
Proof.
  eassert (add_thought depending_thought None (example_heap, example_session)
           = Returns (_, _) _) as Hrun by (vm_compute; reflexivity).
  eexists _, _. split; [exact Hrun|].
  exact (add_thought_dependencies_known_before _ _ _ _ _ _ _ Hrun "A1" ltac:(left) eq_refl).
Defined.

(** Declaring [A2] and depending on it in the same thought. *)
Lemma self_dependent_thought_raises :
  add_thought self_dependent_thought None (example_heap, example_session)
  = Raises (example_heap, example_session)
      (ValueError (Msg_depend_not_found "A2" (AvailList ["A1"]))).
Proof. reflexivity. Qed.

Lemma invalidate_keeps_falsified x st : keeps_falsified st (state_of (invalidate x st)).
Proof.
  split; [apply invalidate_keeps_identity|].
  destruct st as [h s]. unfold invalidate. run_monad. intros l Hl.
  repeat case_match; simplify_eq; simpl; try done.
  unfold deref in *.
  match goal with
  | |- context [<[?l0 := ?a]> h] =>
      destruct (decide (l0 = l)) as [<-|Hne];
      [destruct (decide (l0 < length h)%nat);
       [rewrite list_lookup_total_insert; by case_decide
       |by rewrite list_insert_ge by lia]
      |by rewrite list_lookup_total_insert_ne]
  end.
Qed.

Lemma append_thought_keeps_falsified t st :
  keeps_falsified st (state_of (append_thought t st)).
Proof.
  split; [apply append_thought_keeps_identity|].
  destruct st as [h s]. by rewrite append_thought_with.
Qed.

Lemma for_each_establishes_inv {St A} (I : St -> Prop) (R : St -> St -> Prop)
    `{!PreOrder R} (Q : A -> St -> Prop) (body : A -> M St unit) (l : list A) :
  (forall x st, R st (state_of (body x st))) ->
  (forall x st st', x ∈ l -> I st -> body x st = Returns st' tt -> I st' /\ Q x st') ->
  (forall x st st', Q x st -> R st st' -> Q x st') ->
  forall st st', I st -> for_each l body st = Returns st' tt ->
                 I st' /\ forall x, x ∈ l -> Q x st'.
Proof.
  intros HR Hstep Hkeep. induction l as [|y l IH]; intros st st' HI Hrun.
  { injection Hrun as <-. split; [done|]. intros x Hx. by apply elem_of_nil in Hx. }
  simpl in Hrun. apply bind_returns in Hrun as (st1 & [] & Hy & Hrest).
  destruct (Hstep y st st1 ltac:(left) HI Hy) as [HI1 HQ].
  destruct (IH (fun x st0 st0' Hx => Hstep x st0 st0' ltac:(by right)) st1 st' HI1 Hrest)
    as [HI' HQ'].
  split; [done|]. intros x [->|Hx]%elem_of_cons; [|by apply HQ'].
  eapply Hkeep; [exact HQ|].
  pose proof (for_each_invariant R body l (fun x st _ => HR x st) st1) as Hinv.
  by rewrite Hrest in Hinv.
Qed.

Lemma registry_on_heap_kept (st st' : Mem) :
  registry_on_heap st -> same_registry st st' -> registry_on_heap st'.
Proof. intros Hwf [Hh Hr] k l. rewrite Hh, Hr. apply Hwf. Qed.

Lemma upsert_registry_on_heap (l : nat) (st st' : Mem) :
  (l < length (fst st))%nat -> registry_on_heap st ->
  upsert l st = Returns st' tt -> registry_on_heap st'.
Proof.
  destruct st as [h s]. unfold upsert, registry_on_heap. run_monad. intros Hl Hwf.
  destruct (dict_get (Assumption.id (deref h l)) (ThinkingSession._assumptions s))
    as [existing|] eqn:Hg.
  - repeat case_match; try discriminate. intros [= <-] k l0. simpl.
    rewrite length_insert. apply Hwf.
  - intros [= <-] k l0. destruct s; simpl in *.
    destruct (String.eqb_spec k (Assumption.id (deref h l))) as [->|Hne].
    + rewrite dict_get_set_eq. by intros [= <-].
    + rewrite dict_get_set_ne by done. apply Hwf.
Qed.

Lemma invalidate_returns_falsified (x : string) (st st' : Mem) :
  registry_on_heap st ->
  invalidate x st = Returns st' tt ->
  registry_on_heap st'
  /\ (fst (_parse_assumption_id x) = None ->
      exists l, dict_get x (ThinkingSession._assumptions (snd st')) = Some l
                /\ Assumption.is_falsified (deref (fst st') l) = true).
Proof.
  destruct st as [h s]. unfold invalidate, registry_on_heap. run_monad. intros Hwf.
  destruct (fst (_parse_assumption_id x)) as [scope|] eqn:Hp.
  - destruct (ThinkingSession._cross_session_warnings s); try discriminate.
    intros [= <-]. split; [|done]. by destruct s.
  - destruct (dict_get x (ThinkingSession._assumptions s)) as [l|] eqn:Hg; [|discriminate].
    intros [= <-]. simpl. split.
    + intros k l0. rewrite length_insert. apply Hwf.
    + intros _. exists l. split; [done|]. unfold deref.
      rewrite list_lookup_total_insert. case_decide as Hd; [done|].
      destruct Hd. split; [done|]. by eapply Hwf.
Qed.

(** The declarations of a thought are applied before its invalidations.
    With a registry and declarations whose locations hold objects: when
    [add_thought] returns, every unscoped id in [invalidates_assumptions] is
    bound in the registry to an object whose status is [verified_false], and
    is listed by [falsified_assumptions], also when the same thought
    declares that id with another status. *)
Theorem add_thought_falsifies (thought : Thought.t) (validated : option (list string))
    (h h' : list Assumption.t) (s s' : ThinkingSession.t) (t' : Thought.t) :
  registry_on_heap (h, s) ->
  Forall (fun l => l < length h)%nat (default [] (Thought.assumptions thought)) ->
  add_thought thought validated (h, s) = Returns (h', s') t' ->
  forall x, x ∈ default [] (Thought.invalidates_assumptions thought) ->
            fst (_parse_assumption_id x) = None ->
            (exists l, dict_get x (ThinkingSession._assumptions s') = Some l
                       /\ Assumption.verification_status (deref h' l) = Some verified_false)
            /\ x ∈ ThinkingSession.falsified_assumptions h' s'.
Proof.
  intros Hwf Hdecl (-> & [h1 s1] & Hbefore & Happ)%add_thought_result x Hx Hlocal.
  assert (Thought.assumptions (Thought.auto_adjust_total thought)
          = Thought.assumptions thought) as Fa by (by destruct thought).
  assert (Thought.invalidates_assumptions (Thought.auto_adjust_total thought)
          = Thought.invalidates_assumptions thought) as Fi by (by destruct thought).
  unfold before_append in Hbefore. rewrite Fa, Fi in Hbefore.
  apply bind_returns in Hbefore as (st0 & s0 & Hs0 & Hbefore).
  injection Hs0 as <- <-.
  apply bind_returns in Hbefore as (st1 & [] & Hrefs & Hbefore).
  apply (f_equal state_of) in Hrefs. rewrite validate_references_state in Hrefs.
  simpl in Hrefs. subst st1.
  apply bind_returns in Hbefore as (st2 & [] & Hdeps & Hbefore).
  apply bind_returns in Hbefore as (st3 & [] & Hups & Hinv).
  assert (registry_on_heap st2 /\ length (fst st2) = length h) as [Hwf2 Hlen2].
  { pose proof (for_each_invariant same_registry (depend_on validated)
                  (default [] (Thought.depends_on_assumptions
                                 (Thought.auto_adjust_total thought)))
                  (fun y st _ => depend_on_same_registry validated y st) (h, s)) as Hsame.
    rewrite Hdeps in Hsame. cbn [state_of] in Hsame.
    split; [by eapply registry_on_heap_kept|]. destruct Hsame as [-> _]. done. }
  assert (registry_on_heap st3) as Hwf3.
  { eapply (for_each_establishes_inv
              (fun st => registry_on_heap st /\ length (fst st) = length h)
              keeps_identity (fun _ _ => True) upsert); [| | |split; [exact Hwf2|exact Hlen2]
                                                         |exact Hups].
    - intros. apply upsert_keeps_identity.
    - intros l st st' Hl [Hw Hlen] Hrun. split; [|done].
      pose proof (upsert_keeps_identity l st) as (Hlen' & _).
      rewrite Hrun in Hlen'. cbn [state_of] in Hlen'. split; [|congruence].
      eapply upsert_registry_on_heap; [|exact Hw|exact Hrun].
      rewrite Hlen. rewrite Forall_forall in Hdecl. by apply Hdecl.
    - done. }
  destruct (for_each_establishes_inv registry_on_heap keeps_falsified
              (fun y st => fst (_parse_assumption_id y) = None ->
                           exists l, dict_get y (ThinkingSession._assumptions (snd st))
                                     = Some l
                                     /\ Assumption.is_falsified (deref (fst st) l) = true)
              invalidate (default [] (Thought.invalidates_assumptions thought)))
    with (st := st3) (st' := (h1, s1)) as [_ HQ]; [| | |exact Hwf3|exact Hinv|].
  - intros. apply invalidate_keeps_falsified.
  - intros y st st' _ Hw Hrun. by apply (invalidate_returns_falsified y st st').
  - intros y st st' Hq [(_ & _ & Hreg) Hf] Hl.
    destruct (Hq Hl) as (l & Hg & Hfals). exists l. auto.
  - destruct (HQ x Hx Hlocal) as (l & Hg & Hf).
    rewrite append_thought_with in Happ. injection Happ as <- <-.
    assert (dict_get x (ThinkingSession._assumptions
                          (with_thought s1 (Thought.auto_adjust_total thought))) = Some l)
      as Hg' by (by destruct s1).
    cbn [fst snd] in *. split.
    + exists l. split; [done|]. unfold Assumption.is_falsified in Hf.
      by apply bool_decide_eq_true in Hf.
    + by eapply falsified_after.
Qed.

Lemma add_thought_falsifies_witness :
  exists h' s' t',
    add_thought verify_and_invalidate None (example_heap, example_session)
    = Returns (h', s') t'
    /\ Assumption.verification_status (deref example_heap 1%nat) = Some verified_true
    /\ ThinkingSession.falsified_assumptions h' s' = ["A1"].
Proof.
  eassert (add_thought verify_and_invalidate None (example_heap, example_session)
           = Returns (_, _) _) as Hrun by (vm_compute; reflexivity).
  assert (registry_on_heap (example_heap, example_session)) as Hwf.
  { intros k l. change (ThinkingSession._assumptions (snd (example_heap, example_session)))
      with [("A1", 0%nat)].
    cbn [dict_get]. destruct (String.eqb k "A1"); [|discriminate].
    intros [= <-]. simpl. lia. }
  assert (Forall (fun l => l < length example_heap)%nat
            (default [] (Thought.assumptions verify_and_invalidate))) as Hdecl.
  { repeat constructor. }
  destruct (add_thought_falsifies _ _ _ _ _ _ _ Hwf Hdecl Hrun "A1" ltac:(left) eq_refl)
    as [_ Hin].
  eexists _, _, _. split; [exact Hrun|]. split; reflexivity.
Defined.

(** ** The list options of the command line *)

Lemma before_list_field_option `{JsonDecoder} {St} (name : string) (kw : dict kwarg)
    (v : option string) (st : St) :
  dict_get name kw = Some (KJson (json_option JStr v)) ->
  exists r, before_list_field name kw st = Returns st r
            /\ (forall text, v = Some text -> text <> "" -> text <> "null" ->
                  r = None \/ exists l, r = Some (Some (KJson (JList l)))).
Proof.
  intros Hget. unfold before_list_field. rewrite Hget.
  destruct v as [text|]; cbn [json_option].
  2:{ eexists. split; [reflexivity|]. intros ? [=]. }
  pose proof (parse_json_list_state (KJson (JStr text)) name st) as Hst.
  destruct (_parse_json_list (KJson (JStr text)) name st) as [st1 r|st1 e] eqn:Hp;
    simpl in Hst; subst st1.
  - eexists. split; [reflexivity|]. intros ? [= <-] Hne Hnull. right.
    unfold _parse_json_list in Hp. cbn [hashable negb] in Hp.
    repeat case_match; simplify_eq; try done; run_monad; simplify_eq; eauto.
  - unfold _parse_json_list in Hp. cbn [hashable negb] in Hp.
    repeat case_match; simplify_eq; run_monad; simplify_eq;
      (eexists; split; [reflexivity|]; intros; by left).
Qed.

Lemma ThoughtRequest_fields_lists (o : Options.t) (thought : string) (total : Z) a d i
    (r : ThoughtRequest.t) :
  ThoughtRequest_fields o thought total a d i = Some r ->
  a ≫= assumption_items_field = Some (ThoughtRequest.assumptions r)
  /\ d ≫= str_list_field = Some (ThoughtRequest.depends_on_assumptions r)
  /\ i ≫= str_list_field = Some (ThoughtRequest.invalidates_assumptions r).
Proof.
  unfold ThoughtRequest_fields. intros Hf.
  repeat match type of Hf with
         | (?o ≫= _) = Some _ =>
             let E := fresh "E" in destruct o eqn:E; [cbn [mbind option_bind] in Hf|done]
         end.
  by injection Hf as <-.
Qed.

Lemma parsed_list_field {A} (field : option kwarg -> option (option A))
    (r : option (option kwarg)) (v : option A) :
  (forall l, exists x, field (Some (KJson (JList l))) = Some <$> x) ->
  (r = None \/ exists l, r = Some (Some (KJson (JList l)))) ->
  r ≫= field = Some v -> v <> None.
Proof.
  intros Hfield [-> | [l ->]]; [done|]. simpl. destruct (Hfield l) as [x ->].
  by destruct x; intros [= <-].
Qed.

Lemma process_thought_with_list `{JsonDecoder} (request : ThoughtRequest.t)
    (new_id : string) (w : World) :
  ThoughtRequest.assumptions request <> None
  \/ ThoughtRequest.depends_on_assumptions request <> None
  \/ ThoughtRequest.invalidates_assumptions request <> None ->
  exists w' e, process_thought request new_id w = Raises w' e /\ files w' = files w.
Proof.
  intros Hlist. unfold process_thought.
  destruct (get_or_create_session_reads (ThoughtRequest.session_id request) new_id w)
    as (Hfiles & _).
  destruct (_get_or_create_session (ThoughtRequest.session_id request) new_id w)
    as [w1 [sid s]|w1 e] eqn:Hget; cbn [state_of] in Hfiles.
  2:{ exists w1, e. split; [by apply bind_stop|done]. }
  pose proof (validate_cross_session_refs_files
                (default [] (ThoughtRequest.depends_on_assumptions request)) sid w1) as Hv.
  destruct (validate_cross_session_refs
              (default [] (ThoughtRequest.depends_on_assumptions request)) sid w1)
    as [w2 validated|w2 e] eqn:Hval; cbn [state_of] in Hv; unfold keeps_files in Hv.
  2:{ exists w2, e. split; [|congruence].
      eapply bind_step; [exact Hget|]. by apply bind_stop. }
  exists w2, TypeError. split; [|congruence].
  eapply bind_step; [exact Hget|]. eapply bind_step; [exact Hval|].
  apply bind_stop. by apply Thought_init_list_raises.
Qed.

(** The options [--assumptions], [--depends-on] and [--invalidates] cannot
    be used in a call that gives [--thought] and [--total]: when one of the
    three is given a text other than the empty text and [null],
    [main_callback] prints an error and exits with code 1, whatever that
    text and the remaining options are, and no record is written.  (A text
    that is not the JSON of a list of the right items is a validation
    error; a text that is makes the constructor of the thought raise the
    [TypeError] of [_parse_json_list].) *)
Theorem main_callback_list_option_fails `{JsonDecoder} (o : Options.t)
    (invoked_subcommand : option string) (new_id thought : string) (total : Z)
    (text : string) (w : World) :
  Options.thought o = Some thought ->
  Options.total o = Some total ->
  text <> "" -> text <> "null" ->
  Options.assumptions o = Some text
  \/ Options.depends_on o = Some text
  \/ Options.invalidates o = Some text ->
  exists w' error,
    main_callback o invoked_subcommand new_id w = Returns w' (Failed error)
    /\ exit_code (Failed error) = 1%Z
    /\ files w' = files w.
Proof.
  intros Hthought Htotal Hne Hnull Hopt. unfold main_callback. rewrite Hthought, Htotal.
  unfold ThoughtRequest_of_options.
  set (kw := [("assumptions", _); ("depends_on_assumptions", _);
              ("invalidates_assumptions", _)]).
  destruct (before_list_field_option "assumptions" kw (Options.assumptions o) w eq_refl)
    as (ra & Ha & Hra).
  destruct (before_list_field_option "depends_on_assumptions" kw (Options.depends_on o) w
              eq_refl) as (rd & Hd & Hrd).
  destruct (before_list_field_option "invalidates_assumptions" kw (Options.invalidates o) w
              eq_refl) as (ri & Hi & Hri).
  unfold mbind at 1, M_bind at 1, bind at 1.
  erewrite (bind_step _ _ w w ra); [|exact Ha|].
  2:{ eapply bind_step; [exact Hd|]. eapply bind_step; [exact Hi|]. reflexivity. }
  destruct (ThoughtRequest_fields o thought total ra rd ri) as [request|] eqn:Hf.
  2:{ exists w, validation_error. by repeat split. }
  cbn [ret].
  destruct (process_thought_with_list request new_id w) as (w' & e & Hrun & Hfiles).
  { apply ThoughtRequest_fields_lists in Hf as (Fa & Fd & Fi).
    destruct Hopt as [Ho | [Ho | Ho]]; [left|right; left|right; right].
    - eapply (parsed_list_field assumption_items_field); [|by eapply Hra|exact Fa].
      intros l. eexists. reflexivity.
    - eapply (parsed_list_field str_list_field); [|by eapply Hrd|exact Fd].
      intros l. eexists. reflexivity.
    - eapply (parsed_list_field str_list_field); [|by eapply Hri|exact Fi].
      intros l. eexists. reflexivity. }
  rewrite Hrun. destruct e; eexists _, _; by repeat split.
Qed.

Lemma main_callback_list_option_fails_witness :
  exists w',
    main_callback (H := one_text_decoder) depends_on_options None "new" saved_world
    = Returns w' (Failed (unexpected_error TypeError))
    /\ files w' = files saved_world.
Proof.
  destruct (main_callback_list_option_fails (H := one_text_decoder) depends_on_options None
              "new" "Building on analysis" 5 depends_on_text saved_world eq_refl eq_refl)
    as (w' & error & Hrun & _ & Hfiles).
  - discriminate.
  - discriminate.
  - right. left. reflexivity.
  - exists w'. split; [|exact Hfiles]. rewrite Hrun. f_equal. f_equal.
    eassert (main_callback (H := one_text_decoder) depends_on_options None "new" saved_world
             = Returns _ (Failed (unexpected_error TypeError))) as Hc
      by (vm_compute; reflexivity).
    rewrite Hrun in Hc. by injection Hc.
Defined.

(** ** The attributes taken from the record as they are *)

#[local] Instance keeps_lists_preorder : PreOrder keeps_lists.
Proof.
  split.
  - intros st. split; auto.
  - intros a b c [R1 W1] [R2 W2]. split; auto.
Qed.











(** ** Unresolved references that are not a list *)








(** ** Assumptions given to the constructor as JSON text *)

Lemma map_each_create (new : list Assumption.t) (h : heap) (s : ThinkingSession.t) :
  map_each new create (h, s)
  = Returns ((h ++ new)%list, s) (seq (length h) (length new)).
Proof.
  revert h. induction new as [|a new IH]; intros h; simpl.
  - by rewrite app_nil_r.
  - unfold mbind, M_bind, bind. unfold create at 1, zoom, alloc. simpl.
    rewrite IH. simpl. rewrite <- app_assoc, length_app. simpl.
    by rewrite Nat.add_1_r.
Qed.

(** The constructor given the JSON text of a list of mappings for
    [assumptions] builds one Assumption per mapping and lists the new
    objects in the thought, in the order of the text. *)
Lemma Thought_init_assumption_text `{JsonDecoder} (text : string) (items : list json)
    (new : list Assumption.t) (h : heap) (s : ThinkingSession.t) :
  text <> "" -> text <> "null" ->
  json_loads text = Some (JList items) ->
  mapM Assumption_of_item items = Some new ->
  Thought_init
    [ ("thought", KJson (JStr "T")); ("thought_number", KJson (JInt 1));
      ("total_thoughts", KJson (JInt 1)); ("next_thought_needed", KJson (JBool false));
      ("assumptions", KJson (JStr text)) ] (h, s)
  = Returns ((h ++ new)%list, s)
      (Thought.Build "T" 1 1 false None None None None None None None None
         (Some (seq (length h) (length new))) None None).
Proof.
  intros Hne Hnull Htext Hitems. unfold Thought_init.
  eapply bind_step.
  { unfold before_list_field. cbn [dict_get String.eqb Ascii.eqb Bool.eqb].
    by rewrite (parse_json_list_text text _ _ (h, s) Hne Hnull Htext). }
  eapply bind_step.
  { cbn [instance_list_field]. rewrite Hitems.
    eapply bind_step; [apply map_each_create|reflexivity]. }
  eapply bind_step; [reflexivity|]. eapply bind_step; [reflexivity|]. reflexivity.
Qed.
